(** * hal-nofp-bridge: the MQTT bridge [NOFP] of [hal-nofp-bridge.py]

    A shallow embedding of the class [NOFP]: its configuration record, the
    paho callbacks it overrides ([on_log], [on_connect], [on_message],
    [on_disconnect]), its signal handler and its [run] method.

    Python's control flow is kept as it is written:
    - exceptions are values of [exn]; a computation is a function from the
      object's state to a result ([Ok], [Raise] or [OutOfFuel]) and a state;
    - [try]/[except] is [try_except], with the handler chosen by the class of
      the exception; an exception raised inside a handler escapes the [try];
    - [exit(n)] raises [SystemExit n]; an exception that leaves [run] ends
      the process: [SystemExit n] with status [n], any other one with a
      traceback;
    - the two bounded [while] loops get the fuel of their ceiling, the
      steady-state loop gets the fuel given to [run];
    - every call of the transport, of [logging], [signal] and [atexit]
      leaves an [event] in the trace of the state.

    What the program does not define is an environment or a parameter:
    - the transport: the n-th call of [connect], [reconnect] and [loop]
      returns or raises as the [world] says; [loop()] runs the callbacks the
      world gives it, inside the call, and an exception of a callback leaves
      [loop()] (paho re-raises it; [SystemExit] is not even caught there);
      [subscribe] and [publish] return;
    - signals: SIGINT and SIGTERM, the two with a handler, are delivered
      during blocking calls, as the [world] says;
    - [json.loads] on the decoded payload and [float] on a [str];
    - floats are the binary64 numbers of [SpecFloat]; [format(x, ".0f")] is
      written out in [format_0f];
    - a [str] is a string of ASCII characters and [bytes] a string of bytes;
      [str(b)] for [bytes] is written out in [str_bytes], and [s.upper()] in
      [upper], which is [str.upper] on ASCII text. *)

From Stdlib Require Import ZArith String Ascii List Lia Bool.
From Stdlib Require Import Floats.SpecFloat.
From Stdlib Require Import Decimal DecimalString DecimalZ.
From stdpp Require Import base option gmap strings list.
Import ListNotations.
Local Open Scope string_scope.
Local Open Scope list_scope.
Local Open Scope Z_scope.

(** ** Exceptions *)

Inductive exn :=
| SystemExit (code : Z)
| socket_timeout            (* socket.timeout, a subclass of OSError *)
| TimeoutError              (* subclass of OSError *)
| ConnectionError           (* subclass of OSError, with its own subclasses *)
| OSError                   (* any other OSError *)
| TypeError
| AttributeError
| KeyError
| ValueError
| OverflowError
| JSONDecodeError           (* subclass of ValueError *)
| UnicodeDecodeError        (* subclass of ValueError *)
| OtherException (name : string).

(** [except OSError] *)
Definition is_OSError (e : exn) : bool :=
  match e with
  | socket_timeout | TimeoutError | ConnectionError | OSError => true
  | _ => false
  end.

(** [except (socket.timeout, TimeoutError, ConnectionError)] *)
Definition is_timeout_or_connection (e : exn) : bool :=
  match e with
  | socket_timeout | TimeoutError | ConnectionError => true
  | _ => false
  end.

(** [except SystemExit] *)
Definition is_SystemExit (e : exn) : bool :=
  match e with SystemExit _ => true | _ => false end.

(** [except (KeyError, AttributeError)] *)
Definition is_KeyError_or_AttributeError (e : exn) : bool :=
  match e with KeyError | AttributeError => true | _ => false end.

(** ** Configuration: the dataclass [NOFP.config] *)

Record config := {
  name : string;
  description : string;
  mqtt_broker : string;
  mqtt_port : Z;
  mqtt_timeout : Z;
  topic : string;
  param_conv : list (string * string);
  mqtt_max_reconnects : Z;
  mqtt_max_startup : Z;
  mqtt_max_loop_reconnect : Z;
  loglevel : option string
}.

(** The defaults of the dataclass: the three ceilings are 10, no log level. *)
Definition default_config (name description mqtt_broker : string)
    (mqtt_port mqtt_timeout : Z) (topic : string)
    (param_conv : list (string * string)) : config :=
  {| name := name; description := description; mqtt_broker := mqtt_broker;
     mqtt_port := mqtt_port; mqtt_timeout := mqtt_timeout; topic := topic;
     param_conv := param_conv;
     mqtt_max_reconnects := 10; mqtt_max_startup := 10;
     mqtt_max_loop_reconnect := 10; loglevel := None |}.

(** ** Messages, JSON values and floats *)

Record message := { msg_topic : string; msg_payload : string }.

(** What [json.loads] returns: [dict], [list], [str], [int], [float],
    [bool] or [None].  A [float] is a binary64 number. *)
#[warnings="-register-all"]
Inductive json :=
| JNull
| JBool (b : bool)
| JInt (z : Z)
| JFloat (f : spec_float)
| JStr (s : string)
| JArr (l : list json)
| JObj (kv : gmap string json).

Definition prec : Z := 53.
Definition emax : Z := 1024.

(** The float of a Python [int], rounded to nearest, ties to even. *)
Definition float_of_Z (z : Z) : spec_float := binary_normalize prec emax z 0 false.

(** [float * float] *)
Definition float_mul (x y : spec_float) : spec_float := SFmul prec emax x y.

(** ** Events and the environment *)

Inductive level := DEBUG | INFO | WARNING | ERROR | CRITICAL.

Inductive event :=
| Log (lvl : level) (text : string)            (* logging.<lvl>(text) *)
| LogTraceback (lvl : level) (e : exn)         (* logging.<lvl>(traceback.format_exc()) *)
| BasicConfig (lvl : string)                   (* logging.basicConfig(level=lvl) *)
| SignalInstall (signum : Z)                   (* signal.signal(signum, self.signal_handler) *)
| Connect (host : string) (port timeout : Z)   (* self.connect(host, port, timeout) *)
| AtexitRegister                               (* atexit.register(self.disconnect) *)
| Reconnect                                    (* self.reconnect() *)
| Wait (seconds : Z)                           (* self.tEvent.wait(seconds) *)
| Subscribe (t : string)                       (* self.subscribe(t) *)
| Publish (t : string) (payload : string)      (* self.publish(t, payload) *)
| Loop.                                        (* self.loop() *)

(** What paho dispatches from inside [loop()]. *)
Inductive callback :=
| CbLog (level : Z) (buf : string)
| CbConnect (rc : Z)
| CbMessage (m : message)
| CbDisconnect (rc : Z).

(** The environment.  [connect_result i] is the outcome of the i-th call of
    [connect] ([None]: it returns), likewise [reconnect_result];
    [loop_result i] gives the callbacks the i-th [loop()] dispatches, in
    order, and how it ends; [signals i] lists the signals delivered during
    the i-th blocking call ([connect], [reconnect], [wait] or [loop]). *)
Record world := {
  connect_result : nat -> option exn;
  reconnect_result : nat -> option exn;
  loop_result : nat -> list callback * option exn;
  signals : nat -> list Z
}.

(** ** State of the object and of the process *)

Record state := {
  running : bool;                        (* self.running *)
  loop_count : Z;                        (* self.loop_count *)
  modbus_check_count : Z;                (* self.modbus_check_count *)
  self_reconnect_flag : option bool;     (* self.reconnect_flag, unset until assigned *)
  n_connect : nat;                       (* calls of connect so far *)
  n_reconnect : nat;                     (* calls of reconnect so far *)
  n_loop : nat;                          (* calls of loop so far *)
  n_blocking : nat;                      (* blocking calls so far *)
  trace : list event
}.

Definition init_state : state :=
  {| running := false; loop_count := 0; modbus_check_count := 0;
     self_reconnect_flag := None; n_connect := 0; n_reconnect := 0;
     n_loop := 0; n_blocking := 0; trace := [] |}.

(** ** The monad: state, exceptions and fuel *)

Inductive result (A : Type) :=
| Ok (a : A)
| Raise (e : exn)
| OutOfFuel.
Arguments Ok {A} a.
Arguments Raise {A} e.
Arguments OutOfFuel {A}.

Definition M (A : Type) : Type := state -> result A * state.

Definition ret {A} (a : A) : M A := fun st => (Ok a, st).

Definition bind {A B} (m : M A) (k : A -> M B) : M B :=
  fun st =>
    match m st with
    | (Ok a, st') => k a st'
    | (Raise e, st') => (Raise e, st')
    | (OutOfFuel, st') => (OutOfFuel, st')
    end.

Definition raise {A} (e : exn) : M A := fun st => (Raise e, st).

Definition out_of_fuel {A} : M A := fun st => (OutOfFuel, st).

#[export] Instance M_ret : MRet M := @ret.
#[export] Instance M_bind : MBind M := fun A B k m => bind m k.

(** [try: body except <classes>: handler]: [handler e] is [Some h] when a
    clause of the statement matches [e]; an exception of [h] is not caught. *)
Definition try_except {A} (body : M A) (handler : exn -> option (M A)) : M A :=
  fun st =>
    match body st with
    | (Raise e, st') =>
        match handler e with
        | Some h => h st'
        | None => (Raise e, st')
        end
    | r => r
    end.

(** A value computed without effect that may raise. *)
Definition lift {A} (r : exn + A) : M A :=
  match r with
  | inl e => raise e
  | inr a => ret a
  end.

(** [exit(code)] *)
Definition exit {A} (code : Z) : M A := raise (SystemExit code).

(** The state with [evs] added at the end of its trace. *)
Definition append_trace (evs : list event) (st : state) : state :=
  {| running := running st; loop_count := loop_count st;
     modbus_check_count := modbus_check_count st;
     self_reconnect_flag := self_reconnect_flag st;
     n_connect := n_connect st; n_reconnect := n_reconnect st;
     n_loop := n_loop st; n_blocking := n_blocking st;
     trace := trace st ++ evs |}.

Definition emit (ev : event) : M unit :=
  fun st => (Ok tt, append_trace [ev] st).

Definition get {A} (f : state -> A) : M A := fun st => (Ok (f st), st).

Definition modify (f : state -> state) : M unit := fun st => (Ok tt, f st).

Definition set_running (b : bool) (st : state) : state :=
  {| running := b; loop_count := loop_count st;
     modbus_check_count := modbus_check_count st;
     self_reconnect_flag := self_reconnect_flag st;
     n_connect := n_connect st; n_reconnect := n_reconnect st;
     n_loop := n_loop st; n_blocking := n_blocking st; trace := trace st |}.

Definition set_loop_count (z : Z) (st : state) : state :=
  {| running := running st; loop_count := z;
     modbus_check_count := modbus_check_count st;
     self_reconnect_flag := self_reconnect_flag st;
     n_connect := n_connect st; n_reconnect := n_reconnect st;
     n_loop := n_loop st; n_blocking := n_blocking st; trace := trace st |}.

Definition set_modbus_check_count (z : Z) (st : state) : state :=
  {| running := running st; loop_count := loop_count st;
     modbus_check_count := z;
     self_reconnect_flag := self_reconnect_flag st;
     n_connect := n_connect st; n_reconnect := n_reconnect st;
     n_loop := n_loop st; n_blocking := n_blocking st; trace := trace st |}.

Definition set_self_reconnect_flag (b : bool) (st : state) : state :=
  {| running := running st; loop_count := loop_count st;
     modbus_check_count := modbus_check_count st;
     self_reconnect_flag := Some b;
     n_connect := n_connect st; n_reconnect := n_reconnect st;
     n_loop := n_loop st; n_blocking := n_blocking st; trace := trace st |}.

Definition bump_connect (st : state) : state :=
  {| running := running st; loop_count := loop_count st;
     modbus_check_count := modbus_check_count st;
     self_reconnect_flag := self_reconnect_flag st;
     n_connect := S (n_connect st); n_reconnect := n_reconnect st;
     n_loop := n_loop st; n_blocking := n_blocking st; trace := trace st |}.

Definition bump_reconnect (st : state) : state :=
  {| running := running st; loop_count := loop_count st;
     modbus_check_count := modbus_check_count st;
     self_reconnect_flag := self_reconnect_flag st;
     n_connect := n_connect st; n_reconnect := S (n_reconnect st);
     n_loop := n_loop st; n_blocking := n_blocking st; trace := trace st |}.

Definition bump_loop (st : state) : state :=
  {| running := running st; loop_count := loop_count st;
     modbus_check_count := modbus_check_count st;
     self_reconnect_flag := self_reconnect_flag st;
     n_connect := n_connect st; n_reconnect := n_reconnect st;
     n_loop := S (n_loop st); n_blocking := n_blocking st; trace := trace st |}.

Definition bump_blocking (st : state) : state :=
  {| running := running st; loop_count := loop_count st;
     modbus_check_count := modbus_check_count st;
     self_reconnect_flag := self_reconnect_flag st;
     n_connect := n_connect st; n_reconnect := n_reconnect st;
     n_loop := n_loop st; n_blocking := S (n_blocking st); trace := trace st |}.

(** [for x in xs: body x] *)
Fixpoint for_each {A} (xs : list A) (body : A -> M unit) : M unit :=
  match xs with
  | [] => ret tt
  | x :: xs' => body x ;; for_each xs' body
  end.

(** ** The parts of Python and of its library the program calls *)

(** [str(n)] for an [int]. *)
Definition str_int (z : Z) : string := NilZero.string_of_int (Z.to_int z).

(** [str(b)] for [bytes] is the literal that [repr] writes.  The quote is
    the single one, or the double one when the bytes hold a single quote and
    no double quote.  A backslash goes before the quote in use and before a
    backslash; tab, newline and carriage return are written with the letters
    t, n and r after a backslash; any other byte below 32 or above 126 is
    written as a backslash, the letter x and two hexadecimal digits. *)
Definition single_quote : ascii := ascii_of_nat 39.
Definition double_quote : ascii := ascii_of_nat 34.
Definition backslash : ascii := ascii_of_nat 92.

Definition hex_digit (n : nat) : ascii :=
  nth n ["0"; "1"; "2"; "3"; "4"; "5"; "6"; "7"; "8"; "9";
         "a"; "b"; "c"; "d"; "e"; "f"]%char "0"%char.

Definition repr_byte (quote c : ascii) : string :=
  let n := nat_of_ascii c in
  if Ascii.eqb c quote || Ascii.eqb c backslash then String backslash (String c "")
  else if (n =? 9)%nat then String backslash "t"
  else if (n =? 10)%nat then String backslash "n"
  else if (n =? 13)%nat then String backslash "r"
  else if ((n <? 32) || (127 <=? n))%nat then
    String backslash
      (String "x" (String (hex_digit (n / 16)) (String (hex_digit (n mod 16)) "")))
  else String c "".

Definition repr_quote (b : string) : ascii :=
  let bytes := list_ascii_of_string b in
  if existsb (Ascii.eqb single_quote) bytes
     && negb (existsb (Ascii.eqb double_quote) bytes)
  then double_quote else single_quote.

Definition str_bytes (b : string) : string :=
  let quote := repr_quote b in
  "b" +:+ String quote
            (fold_right (fun c acc => repr_byte quote c +:+ acc)
                        (String quote "") (list_ascii_of_string b)).

(** [s.upper()] for a [str] of ASCII characters: the letters a to z become
    A to Z.  Python also maps letters beyond ASCII; the configured level
    name is taken to be ASCII, see [ascii_only]. *)
Definition upper_ascii (c : ascii) : ascii :=
  let n := nat_of_ascii c in
  if ((97 <=? n) && (n <=? 122))%nat then ascii_of_nat (n - 32) else c.

Fixpoint upper (s : string) : string :=
  match s with
  | EmptyString => EmptyString
  | String c s' => String (upper_ascii c) (upper s')
  end.

(** [o.upper()] where [o] is a [str] or [None]. *)
Definition call_upper (o : option string) : exn + string :=
  match o with
  | Some s => inr (upper s)
  | None => inl AttributeError
  end.

(** The names for which [logging.getLevelName] returns an [int]. *)
Definition level_names : list string :=
  ["CRITICAL"; "FATAL"; "ERROR"; "WARN"; "WARNING"; "INFO"; "DEBUG"; "NOTSET"].

Definition getLevelName_is_int (s : string) : bool :=
  existsb (String.eqb s) level_names.

(** The attributes of the module [logging] that the program names; the module
    has many more, none of them called [logging]. *)
Definition logging_attributes : list string :=
  ["debug"; "info"; "warn"; "warning"; "error"; "critical"; "basicConfig";
   "getLevelName"].

(** [logging.<attr>] *)
Definition logging_getattr (attr : string) : exn + unit :=
  if existsb (String.eqb attr) logging_attributes then inr tt
  else inl AttributeError.

(** The operands of [+] in the program: strings and integers. *)
Inductive pyval :=
| PyStr (s : string)
| PyInt (z : Z).

(** [a + b] *)
Definition py_add (a b : pyval) : exn + pyval :=
  match a, b with
  | PyStr s, PyStr t => inr (PyStr (s +:+ t))
  | PyInt x, PyInt y => inr (PyInt (x + y))
  | _, _ => inl TypeError
  end.

(** [a + b1 + b2 + ...], evaluated from the left. *)
Fixpoint py_sum (a : pyval) (bs : list pyval) : exn + pyval :=
  match bs with
  | [] => inr a
  | b :: bs' =>
      match py_add a b with
      | inl e => inl e
      | inr ab => py_sum ab bs'
      end
  end.

(** The text that [logging] writes for a message object. *)
Definition py_str (v : pyval) : string :=
  match v with
  | PyStr s => s
  | PyInt z => str_int z
  end.

(** [str(e)] at line 96, the one place where the program formats an
    exception.  The [try] of lines 90 to 96 raises one exception only, the
    [AttributeError] of [None.upper()], whose text is given here; no other
    exception reaches line 96, and for those the class is written. *)
Definition str_exn (e : exn) : string :=
  match e with
  | AttributeError => "'NoneType' object has no attribute 'upper'"
  | SystemExit c => str_int c
  | socket_timeout => "timeout"
  | TimeoutError => "TimeoutError"
  | ConnectionError => "ConnectionError"
  | OSError => "OSError"
  | TypeError => "TypeError"
  | KeyError => "KeyError"
  | ValueError => "ValueError"
  | OverflowError => "OverflowError"
  | JSONDecodeError => "JSONDecodeError"
  | UnicodeDecodeError => "UnicodeDecodeError"
  | OtherException n => n
  end.

(** [rcv[key]]: only a [dict] can be indexed by a [str]. *)
Definition getitem (rcv : json) (key : string) : exn + json :=
  match rcv with
  | JObj kv =>
      match kv !! key with
      | Some v => inr v
      | None => inl KeyError
      end
  | _ => inl TypeError
  end.

(** The integer nearest to [m * 2^e], ties to the even one. *)
Definition round_half_even (m : positive) (e : Z) : Z :=
  if 0 <=? e then Z.pos m * 2 ^ e
  else
    let d := 2 ^ (- e) in
    let q := Z.pos m / d in
    let r := Z.pos m mod d in
    match 2 * r ?= d with
    | Lt => q
    | Gt => q + 1
    | Eq => if Z.even q then q else q + 1
    end.

(** [format(x, ".0f")]: the sign of a negative number is kept, also when the
    digits are those of zero. *)
Definition format_0f (x : spec_float) : string :=
  match x with
  | S754_nan => "nan"
  | S754_infinity s => if s then "-inf" else "inf"
  | S754_zero s => if s then "-0" else "0"
  | S754_finite s m e =>
      (if s then "-" else "") +:+ str_int (round_half_even m e)
  end.

(** paho's log levels. *)
Definition MQTT_LOG_INFO : Z := 1.
Definition MQTT_LOG_NOTICE : Z := 2.
Definition MQTT_LOG_WARNING : Z := 4.
Definition MQTT_LOG_ERR : Z := 8.
Definition MQTT_LOG_DEBUG : Z := 16.

Definition SIGINT : Z := 2.
Definition SIGTERM : Z := 15.

(** [break] or the end of the body of a [while]. *)
Inductive control := Break | Continue.

(** ** The class [NOFP] *)

Section NOFP.
(** [self.config], the transport and signals, and two functions of the
    Python library: [json.loads(b.decode("utf-8"))] on the bytes of a
    payload and [float(s)] on a [str]. *)
Variable cfg : config.
Variable w : world.
Variable json_loads : string -> exn + json.
Variable float_of_str : string -> option spec_float.

(** [float(v)] *)
Definition float (v : json) : exn + spec_float :=
  match v with
  | JFloat f => inr f
  | JInt z =>
      match float_of_Z z with
      | S754_infinity _ => inl OverflowError
      | f => inr f
      end
  | JBool b => inr (float_of_Z (if b then 1 else 0))
  | JStr s =>
      match float_of_str s with
      | Some f => inr f
      | None => inl ValueError
      end
  | JNull | JArr _ | JObj _ => inl TypeError
  end.

Definition signal_handler (signum : Z) : M unit :=
  emit (Log WARNING ("Caught a deadly signal: " +:+ str_int signum +:+ "!"));;
  modify (set_running false).

(** A blocking call: the handlers of the signals delivered meanwhile run
    before the call returns. *)
Definition blocking : M unit :=
  i ← get n_blocking;
  modify bump_blocking;;
  for_each (signals w i) signal_handler.

(** [self.connect(host, port, timeout)] *)
Definition connect (host : string) (port timeout : Z) : M unit :=
  emit (Connect host port timeout);;
  blocking;;
  i ← get n_connect;
  modify bump_connect;;
  match connect_result w i with
  | None => mret tt
  | Some e => raise e
  end.

(** [self.reconnect()] *)
Definition reconnect : M unit :=
  emit Reconnect;;
  blocking;;
  i ← get n_reconnect;
  modify bump_reconnect;;
  match reconnect_result w i with
  | None => mret tt
  | Some e => raise e
  end.

(** [self.tEvent.wait(seconds)]: the event is never set. *)
Definition wait (seconds : Z) : M unit :=
  emit (Wait seconds);;
  blocking.

Definition on_log (level : Z) (buf : string) : M unit :=
  if level =? MQTT_LOG_DEBUG then emit (Log DEBUG ("PAHO MQTT DEBUG: " +:+ buf))
  else if level =? MQTT_LOG_INFO then emit (Log INFO ("PAHO MQTT INFO: " +:+ buf))
  else if level =? MQTT_LOG_NOTICE then emit (Log WARNING ("PAHO MQTT WARN: " +:+ buf))
  else if level =? MQTT_LOG_WARNING then emit (Log WARNING ("PAHO MQTT WARN: " +:+ buf))
  else emit (Log ERROR ("PAHO MQTT ERROR: " +:+ buf)).

Definition on_connect (rc : Z) : M unit :=
  emit (Log INFO ("MQTT Connected: " +:+ str_int rc));;
  emit (Subscribe (topic cfg)).

(** [float(rcv[field])] *)
Definition field_value (rcv : json) (field : string) : exn + spec_float :=
  match getitem rcv field with
  | inl e => inl e
  | inr v => float v
  end.

(** The body of the [for] of [on_message]. *)
Definition convert (rcv : json) (topic : string * string) : M unit :=
  val_f ← lift (field_value rcv (fst topic));
  let val_f := float_mul val_f (float_of_Z 1000) in
  let data := format_0f val_f in
  emit (Publish (name cfg +:+ "/" +:+ snd topic) data).

Definition on_message (message : message) : M unit :=
  if String.eqb (msg_topic message) (topic cfg) then
    try_except
      (rcv ← lift (json_loads (msg_payload message));
       for_each (param_conv cfg) (convert rcv))
      (fun e => Some (
         emit (Log WARNING ("Message failed to parse: " +:+ msg_topic message
                            +:+ " " +:+ str_bytes (msg_payload message)));;
         emit (LogTraceback WARNING e)))
  else mret tt.

(** The [while] of [on_disconnect]; it returns [reconnect_count]. *)
Fixpoint reconnect_loop (fuel : nat) (reconnect_count : Z) : M Z :=
  if reconnect_count <? mqtt_max_reconnects cfg then
    match fuel with
    | O => out_of_fuel
    | S fuel' =>
        let reconnect_count := reconnect_count + 1 in
        c ← try_except
              (reconnect;; mret Break)
              (fun e =>
                 if is_OSError e then Some (
                   emit (Log ERROR "Connection error while trying to reconnect.");;
                   emit (LogTraceback ERROR e);;
                   wait 30;;
                   mret Continue)
                 else None);
        match c with
        | Break => mret reconnect_count
        | Continue => reconnect_loop fuel' reconnect_count
        end
    end
  else mret reconnect_count.

Definition on_disconnect (rc : Z) : M unit :=
  emit (Log WARNING ("MQTT Disconnected: " +:+ str_int rc));;
  if negb (rc =? 0) then
    emit (Log ERROR "Unexpected disconnection.  Attempting reconnection.");;
    reconnect_count ← reconnect_loop (Z.to_nat (mqtt_max_reconnects cfg)) 0;
    if mqtt_max_reconnects cfg <=? reconnect_count then
      emit (Log CRITICAL "Too many reconnect tries.  Exiting.");;
      exit 1
    else mret tt
  else mret tt.

Definition dispatch (cb : callback) : M unit :=
  match cb with
  | CbLog level buf => on_log level buf
  | CbConnect rc => on_connect rc
  | CbMessage m => on_message m
  | CbDisconnect rc => on_disconnect rc
  end.

(** [self.loop()]: one tick of the transport.  The callbacks run inside
    the call; an exception of a callback leaves [loop()] at once. *)
Definition loop : M unit :=
  emit Loop;;
  blocking;;
  i ← get n_loop;
  modify bump_loop;;
  for_each (fst (loop_result w i)) dispatch;;
  match snd (loop_result w i) with
  | None => mret tt
  | Some e => raise e
  end.

(** Lines 90 to 96 of [run]. *)
Definition configure_logging : M unit :=
  try_except
    (lvl ← lift (call_upper (loglevel cfg));
     if getLevelName_is_int lvl then
       lvl' ← lift (call_upper (loglevel cfg));
       emit (BasicConfig lvl')
     else emit (Log WARNING "Log level not configured.  Defaulting to WARNING."))
    (fun e =>
       if is_KeyError_or_AttributeError e then Some (
         emit (Log WARNING ("Log level not configured.  Defaulting to WARNING.  Caught: "
                            +:+ str_exn e)))
       else None).

(** Lines 97 to 105 of [run]. *)
Definition check_config : M unit :=
  (if mqtt_max_loop_reconnect cfg <? 1 then
     emit (Log CRITICAL "MQTT maximum reconnect tries can not be less than 1.");;
     exit 1
   else mret tt);;
  (if mqtt_max_startup cfg <? 1 then
     emit (Log CRITICAL "MQTT maximum startup count can not be less than 1.");;
     exit 1
   else mret tt);;
  (if mqtt_max_reconnects cfg <? 1 then
     emit (Log CRITICAL "MQTT maximum reconnect count can not be less than 1.");;
     exit 1
   else mret tt).

(** The [while] of lines 107 to 116; it returns [startup_count]. *)
Fixpoint startup_loop (fuel : nat) (startup_count : Z) : M Z :=
  if startup_count <? mqtt_max_startup cfg then
    match fuel with
    | O => out_of_fuel
    | S fuel' =>
        let startup_count := startup_count + 1 in
        c ← try_except
              (connect (mqtt_broker cfg) (mqtt_port cfg) (mqtt_timeout cfg);;
               emit AtexitRegister;;
               mret Break)
              (fun e =>
                 if is_OSError e then Some (
                   emit (Log ERROR "Error connecting on bootup.");;
                   emit (LogTraceback ERROR e);;
                   wait 30;;
                   mret Continue)
                 else None);
        match c with
        | Break => mret startup_count
        | Continue => startup_loop fuel' startup_count
        end
    end
  else mret startup_count.

(** Lines 107 to 120 of [run]. *)
Definition startup : M unit :=
  startup_count ← startup_loop (Z.to_nat (mqtt_max_startup cfg)) 0;
  if mqtt_max_startup cfg <=? startup_count then
    emit (Log CRITICAL ("Too many startup tries. Exiting after try "
                        +:+ str_int (mqtt_max_startup cfg) +:+ "."));;
    exit 1
  else mret tt.

(** The [while] of lines 125 to 150, on the locals [reconnect_flag] and
    [loop_reconnect_count]; it returns [loop_reconnect_count]. *)
Fixpoint steady_loop (fuel : nat) (reconnect_flag : bool)
    (loop_reconnect_count : Z) : M Z :=
  r ← get running;
  if r && (loop_reconnect_count <? mqtt_max_loop_reconnect cfg) then
    match fuel with
    | O => out_of_fuel
    | S fuel' =>
        lc ← get loop_count;
        (if 65535 <=? lc then modify (set_loop_count 0)
         else modify (set_loop_count (lc + 1)));;
        c ← try_except
              ((if reconnect_flag then
                  reconnect;;
                  modify (set_self_reconnect_flag false)
                else mret tt);;
               loop;;
               mret (Continue, reconnect_flag, 0))
              (fun e =>
                 if is_SystemExit e then
                   Some (mret (Break, reconnect_flag, loop_reconnect_count))
                 else if is_timeout_or_connection e then Some (
                   let loop_reconnect_count := loop_reconnect_count + 1 in
                   let reconnect_flag := true in
                   msg ← lift (py_sum
                            (PyStr "MQTT loop error.  Attempting to reconnect. ")
                            [PyInt loop_reconnect_count; PyStr " of ";
                             PyInt (mqtt_max_loop_reconnect cfg)]);
                   emit (Log ERROR (py_str msg));;
                   mret (Continue, reconnect_flag, loop_reconnect_count))
                 else Some (
                   lift (logging_getattr "logging");;
                   emit (Log CRITICAL "Exception in MQTT loop.");;
                   emit (LogTraceback CRITICAL e);;
                   emit (Log CRITICAL "Exiting.");;
                   exit 2));
        match c with
        | (Break, _, n) => mret n
        | (Continue, f, n) => steady_loop fuel' f n
        end
    end
  else mret loop_reconnect_count.

(** Lines 125 to 155 of [run]: the loop and the exit that follows it. *)
Definition steady_state (fuel : nat) (reconnect_flag : bool)
    (loop_reconnect_count : Z) : M unit :=
  n ← steady_loop fuel reconnect_flag loop_reconnect_count;
  (if mqtt_max_loop_reconnect cfg <=? n then
     emit (Log CRITICAL "Too many loop reconnects.  Exiting.");;
     exit 1
   else mret tt);;
  emit (Log INFO "Successfully reached exit.");;
  exit 0.

(** [run]; [fuel] bounds the iterations of the steady-state loop. *)
Definition run (fuel : nat) : M unit :=
  modify (set_running true);;
  modify (set_modbus_check_count 0);;
  modify (set_loop_count 0);;
  emit (SignalInstall SIGINT);;
  emit (SignalInstall SIGTERM);;
  configure_logging;;
  check_config;;
  startup;;
  emit (Log INFO "Startup success.");;
  steady_state fuel false 0.

End NOFP.

(** ** Observations on traces *)

(** The calls that reach the network. *)
Definition is_network (ev : event) : bool :=
  match ev with
  | Connect _ _ _ | Reconnect | Subscribe _ | Publish _ _ | Loop => true
  | _ => false
  end.

Definition is_Connect (ev : event) : bool :=
  match ev with Connect _ _ _ => true | _ => false end.

Definition is_Reconnect (ev : event) : bool :=
  match ev with Reconnect => true | _ => false end.

Definition is_Loop (ev : event) : bool :=
  match ev with Loop => true | _ => false end.

(** A wait of 30. *)
Definition is_Wait30 (ev : event) : bool :=
  match ev with Wait seconds => seconds =? 30 | _ => false end.

(** A call of [logging.warn] or [logging.warning]. *)
Definition is_warning (ev : event) : bool :=
  match ev with
  | Log WARNING _ | LogTraceback WARNING _ => true
  | _ => false
  end.

Definition count (p : event -> bool) (evs : list event) : nat :=
  length (List.filter p evs).

(** A computation that only adds events at the end of the trace. *)
Definition grows {A} (m : M A) : Prop :=
  forall st, exists evs, trace (snd (m st)) = trace st ++ evs.

(** The trace of [st'] is that of [st] with more events at its end. *)
Definition extends (st st' : state) : Prop :=
  exists evs, trace st' = trace st ++ evs.

(** What the signals of one blocking call leave in the state. *)
Definition signal_event (signum : Z) : event :=
  Log WARNING ("Caught a deadly signal: " +:+ str_int signum +:+ "!").

Definition after_signals (sigs : list Z) (st : state) : state :=
  append_trace (map signal_event sigs)
    (set_running (match sigs with [] => running st | _ => false end) st).

Definition after_blocking (w : world) (st : state) : state :=
  after_signals (signals w (n_blocking st)) (bump_blocking st).

(** The publication of [on_message] for one pair of [param_conv] and the
    float read for it. *)
Definition publication (cfg : config) (pair : string * string)
    (val_f : spec_float) : event :=
  Publish (name cfg +:+ "/" +:+ snd pair)
          (format_0f (float_mul val_f (float_of_Z 1000))).

Definition publications (cfg : config) (pairs : list (string * string))
    (vals : list spec_float) : list event :=
  zip_with (publication cfg) pairs vals.

(** The two warnings of the [except] of [on_message]. *)
Definition parse_warnings (m : message) (e : exn) : list event :=
  [Log WARNING ("Message failed to parse: " +:+ msg_topic m +:+ " "
                +:+ str_bytes (msg_payload m));
   LogTraceback WARNING e].

(** [float(rcv[field])] gives [val_f], or raises, for the field of a pair. *)
Definition field_ok (float_of_str : string -> option spec_float) (rcv : json)
    (pair : string * string) (val_f : spec_float) : Prop :=
  field_value float_of_str rcv (fst pair) = inr val_f.

Definition field_fails (float_of_str : string -> option spec_float) (rcv : json)
    (pair : string * string) : Prop :=
  exists e, field_value float_of_str rcv (fst pair) = inl e.


(** [n] is an integer nearest to [m * 2^e], the even one of the two when
    [m * 2^e] is halfway between two integers. *)
Definition nearest_integer (n : Z) (m : positive) (e : Z) : Prop :=
  if 0 <=? e then n = Z.pos m * 2 ^ e
  else
    2 * Z.abs (n * 2 ^ (- e) - Z.pos m) <= 2 ^ (- e) /\
    (2 * Z.abs (n * 2 ^ (- e) - Z.pos m) = 2 ^ (- e) -> Z.even n = true).

Fixpoint string_forall (p : ascii -> bool) (s : string) : bool :=
  match s with
  | EmptyString => true
  | String c s' => p c && string_forall p s'
  end.

Definition is_digit (c : ascii) : bool :=
  let n := nat_of_ascii c in ((48 <=? n) && (n <=? 57))%nat.

(** [x] is a binary64 number in canonical form, with the sign of [num] and
    within half a unit in the last place of [num / den], for [den > 0]: the
    float that Python reads from the decimal literal. *)
Definition nearest_float (num den : Z) (x : spec_float) : Prop :=
  match x with
  | S754_finite s m e =>
      valid_binary prec emax x = true /\
      s = (num <? 0) /\ e <= 0 /\
      2 * Z.abs (Z.pos m * den - Z.abs num * 2 ^ (- e)) <= den
  | _ => False
  end.

(** The state in which [run] reaches its checks of the ceilings: [ev] is
    what the configuration of the log level has left in the trace. *)
Definition configured (ev : event) : state :=
  {| running := true; loop_count := 0; modbus_check_count := 0;
     self_reconnect_flag := None; n_connect := 0; n_reconnect := 0;
     n_loop := 0; n_blocking := 0;
     trace := [SignalInstall SIGINT; SignalInstall SIGTERM; ev] |}.

(** ** Scenarios *)

(** A configuration with the default ceilings. *)
Definition cfg_default : config :=
  default_config "nofp" "bridge" "localhost" 1883 60 "sensors" [("a", "x")].

Definition with_ceilings (reconnects startup loop_reconnect : Z) : config :=
  {| name := "nofp"; description := "bridge"; mqtt_broker := "localhost";
     mqtt_port := 1883; mqtt_timeout := 60; topic := "sensors";
     param_conv := [("a", "x")];
     mqtt_max_reconnects := reconnects; mqtt_max_startup := startup;
     mqtt_max_loop_reconnect := loop_reconnect; loglevel := Some "info" |}.

(** A broker that accepts every connection, with the given ticks, and no
    signal. *)
Definition world_of_ticks (ticks : nat -> list callback * option exn) : world :=
  {| connect_result := fun _ => None; reconnect_result := fun _ => None;
     loop_result := ticks; signals := fun _ => [] |}.

(** A broker that refuses every connection. *)
Definition world_refusing : world :=
  {| connect_result := fun _ => Some ConnectionError;
     reconnect_result := fun _ => Some ConnectionError;
     loop_result := fun _ => ([], None); signals := fun _ => [] |}.

(** The first tick ends with [e], the later ones return. *)
Definition first_tick_raises (e : exn) : world :=
  world_of_ticks (fun i => match i with O => ([], Some e) | _ => ([], None) end).

(** The first tick reports a disconnection with reason [rc]. *)
Definition first_tick_disconnects (rc : Z) (reconnects : nat -> option exn) : world :=
  {| connect_result := fun _ => None; reconnect_result := reconnects;
     loop_result := fun i => match i with
                             | O => ([CbDisconnect rc], None)
                             | _ => ([], None)
                             end;
     signals := fun _ => [] |}.

(** SIGTERM arrives during the second tick. *)
Definition world_sigterm : world :=
  {| connect_result := fun _ => None; reconnect_result := fun _ => None;
     loop_result := fun _ => ([], None);
     signals := fun i => match i with 2%nat => [SIGTERM] | _ => [] end |}.

(** A [json.loads] given by a table from payloads to values; any other
    payload is not JSON. *)
Definition loads_table (tbl : list (string * json)) (payload : string) : exn + json :=
  match List.find (fun kv => String.eqb (fst kv) payload) tbl with
  | Some kv => inr (snd kv)
  | None => inl JSONDecodeError
  end.

(** No [str] is a number. *)
Definition no_float_of_str (s : string) : option spec_float := None.

(** The floats of the literals [12.345], [-0.0004] and [0.25]. *)
Definition float_12_345 : spec_float := S754_finite false 6949617174986097 (-49).
Definition float_m0_0004 : spec_float := S754_finite true 7378697629483821 (-64).
Definition float_0_25 : spec_float := S754_finite false 4503599627370496 (-54).

Definition obj (kv : list (string * json)) : json := JObj (list_to_map kv).

(** The payloads of the scenarios, named by their text. *)
Definition payloads : list (string * json) :=
  [("{a: 12.345}", obj [("a", JFloat float_12_345)]);
   ("{a: -0.0004}", obj [("a", JFloat float_m0_0004)]);
   ("{a: 0.25, b: null}", obj [("a", JFloat float_0_25); ("b", JNull)]);
   ("{b: 1}", obj [("b", JInt 1)])].

Definition cfg_two_fields : config :=
  default_config "nofp" "bridge" "localhost" 1883 60 "sensors"
    [("a", "x"); ("b", "y"); ("a", "z")].

Definition msg (payload : string) : message :=
  {| msg_topic := "sensors"; msg_payload := payload |}.

(** The first tick delivers a payload that is not JSON; SIGTERM arrives
    during the second tick. *)
Definition world_malformed_then_sigterm : world :=
  {| connect_result := fun _ => None; reconnect_result := fun _ => None;
     loop_result := fun i => match i with
                             | O => ([CbMessage (msg "not json")], None)
                             | _ => ([], None)
                             end;
     signals := fun i => match i with 2%nat => [SIGTERM] | _ => [] end |}.

(** Every call returns; SIGTERM arrives during the blocking call [i0]. *)
Definition world_sigterm_at (i0 : nat) : world :=
  {| connect_result := fun _ => None; reconnect_result := fun _ => None;
     loop_result := fun _ => ([], None);
     signals := fun i => if (i =? i0)%nat then [SIGTERM] else [] |}.

(** ** Relations between the state before and after a computation *)

(** Every state a computation can end in is related by [R] to the state it
    started in. *)
Definition steps (R : state -> state -> Prop) {A} (m : M A) : Prop :=
  forall st, R st (snd (m st)).

(** What an event of this bridge may be: a [connect] goes to the configured
    broker, a wait lasts 30, a subscription is to the configured topic, a
    publication is the one of a configured pair, and the handlers installed
    are those of SIGINT and SIGTERM. *)
Definition event_ok (cfg : config) (ev : event) : Prop :=
  match ev with
  | Connect host port timeout =>
      host = mqtt_broker cfg /\ port = mqtt_port cfg /\ timeout = mqtt_timeout cfg
  | Wait seconds => seconds = 30
  | Subscribe t => t = topic cfg
  | Publish _ _ =>
      exists pair val_f, In pair (param_conv cfg) /\ ev = publication cfg pair val_f
  | SignalInstall signum => signum = SIGINT \/ signum = SIGTERM
  | _ => True
  end.

(** The trace of [st'] is that of [st] followed by events that satisfy [P]. *)
Definition adds (P : event -> Prop) (st st' : state) : Prop :=
  exists evs, trace st' = trace st ++ evs /\ Forall P evs.

(** What a callback may leave in the trace: log entries, calls of
    [reconnect], [wait], [subscribe] and [publish]; no [connect], no
    [loop]. *)
Definition callback_event (ev : event) : Prop :=
  match ev with
  | Log _ _ | LogTraceback _ _ | Reconnect | Wait _ | Subscribe _ | Publish _ _ => True
  | _ => False
  end.

(** What [on_message] may leave in the trace. *)
Definition message_event (ev : event) : Prop :=
  match ev with
  | Publish _ _ => True
  | Log WARNING _ | LogTraceback WARNING _ => True
  | _ => False
  end.

Definition is_Publish (ev : event) : bool :=
  match ev with Publish _ _ => true | _ => false end.

(** The fields of the object that only [run] and the signal handler write. *)
Definition same_object (st st' : state) : Prop :=
  loop_count st' = loop_count st /\
  modbus_check_count st' = modbus_check_count st /\
  self_reconnect_flag st' = self_reconnect_flag st.

(** [running] is only ever cleared. *)
Definition stop_is_final (st st' : state) : Prop :=
  running st = false -> running st' = false.

(** The heartbeat counter is within its range. *)
Definition heartbeat_in_range (st : state) : Prop :=
  0 <= loop_count st <= 65535.

(** No signal is delivered from the blocking call [i0] on. *)
Definition quiet_from (w : world) (i0 : nat) : Prop :=
  forall i, (i0 <= i)%nat -> signals w i = [].

(** What a callback leaves of the state: the fields that only [run] writes,
    the counts of [connect] and [loop], a cleared [running], and a trace
    with callback events only at its end. *)
Definition callback_frame (st st' : state) : Prop :=
  same_object st st' /\ stop_is_final st st' /\
  n_connect st' = n_connect st /\ n_loop st' = n_loop st /\
  adds callback_event st st'.

(** What the steady state may leave in the trace: anything but a [connect],
    a registration with [atexit], a signal handler or a logging setup. *)
Definition steady_event (ev : event) : Prop :=
  match ev with
  | Connect _ _ _ | AtexitRegister | SignalInstall _ | BasicConfig _ => False
  | _ => True
  end.

(** The heartbeat stays in range. *)
Definition keeps_heartbeat (st st' : state) : Prop :=
  heartbeat_in_range st -> heartbeat_in_range st'.

(** The values for which [float(v)] raises: [None], a [list], a [dict], a
    [str] that is no number, an [int] beyond the range of binary64. *)
Definition no_float (float_of_str : string -> option spec_float) (v : json) : Prop :=
  match v with
  | JNull | JArr _ | JObj _ => True
  | JStr s => float_of_str s = None
  | JInt z => exists s, float_of_Z z = S754_infinity s
  | JFloat _ | JBool _ => False
  end.

(** The three ceilings pass the checks of [run]. *)
Definition valid_ceilings (cfg : config) : Prop :=
  1 <= mqtt_max_loop_reconnect cfg /\ 1 <= mqtt_max_startup cfg /\
  1 <= mqtt_max_reconnects cfg.

(** The state in which an iteration of the steady-state loop enters its
    [try]: the heartbeat of lines 126 to 129 is done. *)
Definition after_heartbeat (st : state) : state :=
  set_loop_count (if 65535 <=? loop_count st then 0 else loop_count st + 1) st.

(** What the handlers of the steady-state loop make of an exception of the
    [try]. *)
Definition fate (e : exn) : result unit :=
  if is_SystemExit e then Raise (SystemExit 0)
  else if is_timeout_or_connection e then Raise TypeError
  else Raise AttributeError.

(** ** More scenarios *)

(** A broker that refuses the first connection and the first reconnection,
    and accepts the second ones. *)
Definition world_second_attempt : world :=
  {| connect_result := fun i => match i with O => Some ConnectionError | _ => None end;
     reconnect_result := fun i => match i with O => Some ConnectionError | _ => None end;
     loop_result := fun _ => ([], None);
     signals := fun _ => [] |}.

Definition msg_other_topic : message :=
  {| msg_topic := "elsewhere"; msg_payload := "{a: 12.345}" |}.

(** The text has ASCII characters only, so that [upper] is [str.upper]. *)
Definition ascii_only (s : string) : Prop :=
  Forall (fun c => (nat_of_ascii c < 128)%nat) (list_ascii_of_string s).

(** The k-th configured field is absent or has no float: the payload is no
    object, or the object has no such key, or [float] raises on the value
    under the key. *)
Definition absent_or_no_float (float_of_str : string -> option spec_float)
    (rcv : json) (pair : string * string) : Prop :=
  match rcv with
  | JObj kv =>
      match kv !! fst pair with
      | None => True
      | Some v => no_float float_of_str v
      end
  | _ => True
  end.


(** A payload whose second field is the JSON boolean [true]. *)
Definition payloads_bool : list (string * json) :=
  [("{a: 0.25, b: true}", obj [("a", JFloat float_0_25); ("b", JBool true)])].

(** Membership in an explicit list. *)
Ltac in_list := simpl; repeat (first [left; reflexivity | right]).


(** ** Basic facts on the state and on the primitives *)

Lemma append_trace_nil st : append_trace [] st = st.
Proof. destruct st; unfold append_trace; simpl. by rewrite app_nil_r. Qed.

Lemma append_trace_append evs1 evs2 st :
  append_trace evs2 (append_trace evs1 st) = append_trace (evs1 ++ evs2) st.
Proof. unfold append_trace; simpl. by rewrite app_assoc. Qed.

Lemma count_app p (l1 l2 : list event) :
  count p (l1 ++ l2) = (count p l1 + count p l2)%nat.
Proof. unfold count. by rewrite List.filter_app, length_app. Qed.

Lemma count_signal_events p sigs :
  (forall s, p (signal_event s) = false) ->
  count p (map signal_event sigs) = 0%nat.
Proof.
  intros Hp. induction sigs as [|s sigs IH]; [done|].
  unfold count in *. simpl. by rewrite Hp.
Qed.

Lemma signal_handler_eq signum st :
  signal_handler signum st
  = (Ok tt, set_running false (append_trace [signal_event signum] st)).
Proof. reflexivity. Qed.

Lemma for_each_signal_handler sigs st :
  for_each sigs signal_handler st = (Ok tt, after_signals sigs st).
Proof.
  revert st. induction sigs as [|s sigs IH]; intros st.
  - simpl. unfold after_signals. simpl. rewrite append_trace_nil.
    by destruct st.
  - change (for_each (s :: sigs) signal_handler st)
      with (bind (signal_handler s) (fun _ => for_each sigs signal_handler) st).
    unfold bind. rewrite signal_handler_eq, IH.
    f_equal. unfold after_signals, append_trace, set_running. simpl.
    rewrite <- app_assoc. simpl. by destruct sigs.
Qed.

Lemma blocking_eq w st : blocking w st = (Ok tt, after_blocking w st).
Proof.
  unfold blocking, after_blocking, mbind, M_bind, bind, get, modify.
  apply for_each_signal_handler.
Qed.

Lemma trace_after_blocking w st :
  trace (after_blocking w st)
  = trace st ++ map signal_event (signals w (n_blocking st)).
Proof. reflexivity. Qed.

Lemma connect_eq w host port timeout st :
  connect w host port timeout st
  = (match connect_result w (n_connect st) with
     | None => Ok tt
     | Some e => Raise e
     end,
     bump_connect (after_blocking w (append_trace [Connect host port timeout] st))).
Proof.
  unfold connect, mbind, M_bind, bind, emit. rewrite blocking_eq.
  unfold get, modify. simpl.
  by destruct (connect_result w (n_connect st)).
Qed.

Lemma wait_eq w seconds st :
  wait w seconds st = (Ok tt, after_blocking w (append_trace [Wait seconds] st)).
Proof. unfold wait, mbind, M_bind, bind, emit. by rewrite blocking_eq. Qed.

(** The unfolding of the loops, one iteration at a time. *)
Lemma startup_loop_unfold cfg w fuel startup_count :
  startup_loop cfg w fuel startup_count =
  if startup_count <? mqtt_max_startup cfg then
    match fuel with
    | O => out_of_fuel
    | S fuel' =>
        c ← try_except
              (connect w (mqtt_broker cfg) (mqtt_port cfg) (mqtt_timeout cfg);;
               emit AtexitRegister;;
               mret Break)
              (fun e =>
                 if is_OSError e then Some (
                   emit (Log ERROR "Error connecting on bootup.");;
                   emit (LogTraceback ERROR e);;
                   wait w 30;;
                   mret Continue)
                 else None);
        match c with
        | Break => mret (startup_count + 1)
        | Continue => startup_loop cfg w fuel' (startup_count + 1)
        end
    end
  else mret startup_count.
Proof. by destruct fuel. Qed.

(** One failed attempt of the startup loop. *)
Lemma startup_loop_fail cfg w fuel c st e :
  c < mqtt_max_startup cfg ->
  connect_result w (n_connect st) = Some e ->
  is_OSError e = true ->
  exists st1,
    startup_loop cfg w (S fuel) c st = startup_loop cfg w fuel (c + 1) st1 /\
    n_connect st1 = S (n_connect st) /\
    count is_Connect (trace st1) = S (count is_Connect (trace st)) /\
    count is_Loop (trace st1) = count is_Loop (trace st).
Proof.
  intros Hc He Hos. rewrite startup_loop_unfold.
  apply Z.ltb_lt in Hc. rewrite Hc.
  unfold mbind, M_bind, bind, try_except. rewrite connect_eq, He, Hos.
  unfold emit. rewrite wait_eq. unfold mret, M_ret, ret.
  eexists. split; [reflexivity|]. split; [reflexivity|].
  simpl. rewrite !count_app, !count_signal_events by done.
  unfold count; simpl. lia.
Qed.

Lemma startup_loop_all_fail cfg w fuel : forall c st,
  mqtt_max_startup cfg - c <= Z.of_nat fuel ->
  (forall i : nat,
     (n_connect st <= i < n_connect st + Z.to_nat (mqtt_max_startup cfg - c))%nat ->
     exists e, connect_result w i = Some e /\ is_OSError e = true) ->
  exists st',
    startup_loop cfg w fuel c st = (Ok (Z.max c (mqtt_max_startup cfg)), st') /\
    count is_Connect (trace st')
    = (count is_Connect (trace st) + Z.to_nat (mqtt_max_startup cfg - c))%nat /\
    count is_Loop (trace st') = count is_Loop (trace st).
Proof.
  induction fuel as [|fuel IH]; intros c st Hfuel Hfail.
  - rewrite startup_loop_unfold.
    destruct (Z.ltb_spec c (mqtt_max_startup cfg)) as [Hlt|Hge]; [lia|].
    exists st. split; [unfold mret, M_ret, ret; f_equal; f_equal; lia|].
    replace (Z.to_nat _) with 0%nat by lia. lia.
  - destruct (Z.ltb_spec c (mqtt_max_startup cfg)) as [Hlt|Hge].
    + destruct (Hfail (n_connect st)) as (e & He & Hos); [lia|].
      destruct (startup_loop_fail cfg w fuel c st e Hlt He Hos)
        as (st1 & Heq & Hn & Hcnt & Hlp).
      destruct (IH (c + 1) st1) as (st' & Hrun & Hcnt' & Hlp').
      * lia.
      * intros i Hi. apply Hfail. lia.
      * exists st'. rewrite Heq, Hrun. split.
        -- f_equal. f_equal. lia.
        -- rewrite Hcnt', Hcnt, Hlp', Hlp. lia.
    + rewrite startup_loop_unfold.
      apply Z.ltb_ge in Hge. rewrite Hge.
      exists st. split; [unfold mret, M_ret, ret; f_equal; f_equal; lia|].
      replace (Z.to_nat _) with 0%nat by lia. lia.
Qed.

(** ** The trace only grows *)

Create HintDb grows.

Lemma grows_ret {A} (a : A) : grows (mret a).
Proof. intros st. exists []. simpl. by rewrite app_nil_r. Qed.

Lemma grows_raise {A} e : grows (@raise A e).
Proof. intros st. exists []. simpl. by rewrite app_nil_r. Qed.

Lemma grows_exit {A} c : grows (@exit A c).
Proof. apply grows_raise. Qed.

Lemma grows_out_of_fuel {A} : grows (@out_of_fuel A).
Proof. intros st. exists []. simpl. by rewrite app_nil_r. Qed.

Lemma grows_lift {A} (r : exn + A) : grows (lift r).
Proof. destruct r; [apply grows_raise|apply grows_ret]. Qed.

Lemma grows_get {A} (f : state -> A) : grows (get f).
Proof. intros st. exists []. simpl. by rewrite app_nil_r. Qed.

Lemma grows_emit ev : grows (emit ev).
Proof. intros st. by exists [ev]. Qed.

Lemma grows_modify f :
  (forall st, trace (f st) = trace st) -> grows (modify f).
Proof. intros Hf st. exists []. simpl. by rewrite Hf, app_nil_r. Qed.

Lemma grows_mbind {A B} (m : M A) (k : A -> M B) :
  grows m -> (forall a, grows (k a)) -> grows (mbind k m).
Proof.
  intros Hm Hk st. unfold mbind, M_bind, bind.
  destruct (Hm st) as [evs1 H1]. destruct (m st) as [[a|e|] st1]; simpl in H1.
  - destruct (Hk a st1) as [evs2 H2]. exists (evs1 ++ evs2).
    by rewrite H2, H1, app_assoc.
  - by exists evs1.
  - by exists evs1.
Qed.

Lemma grows_try {A} (body : M A) handler :
  grows body ->
  (forall e h, handler e = Some h -> grows h) ->
  grows (try_except body handler).
Proof.
  intros Hb Hh st. unfold try_except.
  destruct (Hb st) as [evs1 H1]. destruct (body st) as [[a|e|] st1]; simpl in H1.
  - by exists evs1.
  - destruct (handler e) as [h|] eqn:He; [|by exists evs1].
    destruct (Hh e h He st1) as [evs2 H2]. exists (evs1 ++ evs2).
    by rewrite H2, H1, app_assoc.
  - by exists evs1.
Qed.

Lemma grows_for_each {A} (xs : list A) body :
  (forall x, grows (body x)) -> grows (for_each xs body).
Proof.
  intros Hb. induction xs as [|x xs IH]; [apply grows_ret|].
  apply (grows_mbind (body x)); [apply Hb|intros _; apply IH].
Qed.

#[local] Hint Resolve grows_ret grows_raise grows_exit grows_out_of_fuel
  grows_lift grows_get grows_emit grows_for_each : grows.

(** One step of a proof that a piece of the program only adds to the trace. *)
Ltac grows_step :=
  match goal with
  | |- grows (mbind _ _) => apply grows_mbind; [|intros ?]
  | |- grows (try_except _ _) =>
      apply grows_try;
      [|let e := fresh "e" in let h := fresh "h" in let H := fresh "H" in
        intros e h H; repeat case_match; simplify_eq]
  | |- grows (modify _) => apply grows_modify; reflexivity
  | |- grows (if _ then _ else _) => case_match
  | |- grows (match _ with _ => _ end) => case_match
  | |- grows _ => solve [eauto with grows]
  end.

Ltac grows_tac := repeat grows_step.

Lemma grows_signal_handler signum : grows (signal_handler signum).
Proof. unfold signal_handler. grows_tac. Qed.
#[local] Hint Resolve grows_signal_handler : grows.

Lemma grows_blocking w : grows (blocking w).
Proof. unfold blocking. grows_tac. Qed.
#[local] Hint Resolve grows_blocking : grows.

Lemma grows_connect w host port timeout : grows (connect w host port timeout).
Proof. unfold connect. grows_tac. Qed.

Lemma grows_reconnect w : grows (reconnect w).
Proof. unfold reconnect. grows_tac. Qed.

Lemma grows_wait w seconds : grows (wait w seconds).
Proof. unfold wait. grows_tac. Qed.
#[local] Hint Resolve grows_connect grows_reconnect grows_wait : grows.

Lemma grows_on_log level buf : grows (on_log level buf).
Proof. unfold on_log. grows_tac. Qed.

Lemma grows_on_connect cfg rc : grows (on_connect cfg rc).
Proof. unfold on_connect. grows_tac. Qed.

Lemma grows_convert cfg fs rcv pair : grows (convert cfg fs rcv pair).
Proof. unfold convert. grows_tac. Qed.
#[local] Hint Resolve grows_on_log grows_on_connect grows_convert : grows.

Lemma grows_on_message cfg jl fs m : grows (on_message cfg jl fs m).
Proof. unfold on_message. grows_tac. Qed.

Lemma grows_reconnect_loop cfg w fuel : forall c, grows (reconnect_loop cfg w fuel c).
Proof.
  induction fuel as [|fuel IH]; intros c; simpl; grows_tac; try apply IH.
Qed.
#[local] Hint Resolve grows_on_message grows_reconnect_loop : grows.

Lemma grows_on_disconnect cfg w rc : grows (on_disconnect cfg w rc).
Proof. unfold on_disconnect. grows_tac. Qed.
#[local] Hint Resolve grows_on_disconnect : grows.

Lemma grows_dispatch cfg w jl fs cb : grows (dispatch cfg w jl fs cb).
Proof. destruct cb; simpl; eauto with grows. Qed.
#[local] Hint Resolve grows_dispatch : grows.

Lemma grows_loop cfg w jl fs : grows (loop cfg w jl fs).
Proof. unfold loop. grows_tac. Qed.
#[local] Hint Resolve grows_loop : grows.

Lemma grows_startup_loop cfg w fuel : forall c, grows (startup_loop cfg w fuel c).
Proof.
  induction fuel as [|fuel IH]; intros c; simpl; grows_tac; try apply IH.
Qed.

Lemma grows_steady_loop cfg w jl fs fuel :
  forall flag c, grows (steady_loop cfg w jl fs fuel flag c).
Proof.
  induction fuel as [|fuel IH]; intros flag c; simpl; grows_tac; try apply IH.
Qed.
#[local] Hint Resolve grows_startup_loop grows_steady_loop : grows.

Lemma grows_steady_state cfg w jl fs fuel flag c :
  grows (steady_state cfg w jl fs fuel flag c).
Proof. unfold steady_state. grows_tac. Qed.
#[local] Hint Resolve grows_steady_state : grows.

Lemma count_grows {A} p (m : M A) st :
  grows m -> (count p (trace st) <= count p (trace (snd (m st))))%nat.
Proof.
  intros Hm. destruct (Hm st) as [evs ->]. rewrite count_app. lia.
Qed.

Lemma extends_refl st : extends st st.
Proof. exists []. by rewrite app_nil_r. Qed.

Lemma extends_trans st1 st2 st3 :
  extends st1 st2 -> extends st2 st3 -> extends st1 st3.
Proof.
  intros [evs1 H1] [evs2 H2]. exists (evs1 ++ evs2).
  by rewrite H2, H1, app_assoc.
Qed.

Lemma count_extends p st st' :
  extends st st' -> (count p (trace st) <= count p (trace st'))%nat.
Proof. intros [evs ->]. rewrite count_app. lia. Qed.

(** What follows a computation in a sequence, or handles its exception,
    keeps what the computation has left in the trace. *)
Lemma extends_mbind {A B} (m : M A) (k : A -> M B) st :
  (forall a, grows (k a)) -> extends (snd (m st)) (snd (mbind k m st)).
Proof.
  intros Hk. unfold mbind, M_bind, bind.
  destruct (m st) as [[a|e|] st1]; simpl; [apply Hk|apply extends_refl..].
Qed.

Lemma extends_try {A} (body : M A) handler st :
  (forall e h, handler e = Some h -> grows h) ->
  extends (snd (body st)) (snd (try_except body handler st)).
Proof.
  intros Hh. unfold try_except.
  destruct (body st) as [[a|e|] st1]; simpl; try apply extends_refl.
  destruct (handler e) as [h|] eqn:He; [|apply extends_refl].
  apply (Hh e h He).
Qed.

(** ** One tick without callbacks *)

Lemma loop_no_callbacks cfg w jl fs st :
  fst (loop_result w (n_loop st)) = [] ->
  loop cfg w jl fs st
  = (match snd (loop_result w (n_loop st)) with
     | None => Ok tt
     | Some e => Raise e
     end,
     bump_loop (after_blocking w (append_trace [Loop] st))).
Proof.
  intros Hcb. unfold loop, mbind, M_bind, bind, emit.
  rewrite blocking_eq. unfold get, modify. simpl.
  rewrite Hcb. simpl.
  by destruct (snd (loop_result w (n_loop st))).
Qed.

(** The state in which an iteration of the steady-state loop calls
    [loop()]: the heartbeat counter has been advanced. *)
Lemma steady_loop_tick_raises cfg w jl fs fuel c st e :
  running st = true ->
  c < mqtt_max_loop_reconnect cfg ->
  fst (loop_result w (n_loop st)) = [] ->
  snd (loop_result w (n_loop st)) = Some e ->
  fst (steady_loop cfg w jl fs (S fuel) false c st)
  = if is_SystemExit e then Ok c
    else if is_timeout_or_connection e then Raise TypeError
    else Raise AttributeError.
Proof.
  intros Hrun Hc Hcb He. simpl.
  unfold mbind at 1, M_bind at 1, bind at 1, get at 1.
  apply Z.ltb_lt in Hc. rewrite Hrun, Hc. simpl.
  unfold mbind at 1, M_bind at 1, bind at 1, get at 1.
  unfold mbind at 1, M_bind at 1, bind at 1.
  assert (Hstep : forall z,
    fst (bind
           (try_except
              (mret tt;; loop cfg w jl fs;; mret (Continue, false, 0))
              (fun e0 =>
                 if is_SystemExit e0 then Some (mret (Break, false, c))
                 else if is_timeout_or_connection e0 then Some (
                   msg ← lift (py_sum
                            (PyStr "MQTT loop error.  Attempting to reconnect. ")
                            [PyInt (c + 1); PyStr " of ";
                             PyInt (mqtt_max_loop_reconnect cfg)]);
                   emit (Log ERROR (py_str msg));;
                   mret (Continue, true, c + 1))
                 else Some (
                   lift (logging_getattr "logging");;
                   emit (Log CRITICAL "Exception in MQTT loop.");;
                   emit (LogTraceback CRITICAL e0);;
                   emit (Log CRITICAL "Exiting.");;
                   exit 2)))
           (fun c0 => match c0 with
                      | (Break, _, n) => mret n
                      | (Continue, f, n) => steady_loop cfg w jl fs fuel f n
                      end)
           (set_loop_count z st))
    = if is_SystemExit e then Ok c
      else if is_timeout_or_connection e then Raise TypeError
      else Raise AttributeError).
  { intros z. unfold bind, try_except, mbind, M_bind, bind, mret, M_ret, ret.
    rewrite loop_no_callbacks by (simpl; done).
    simpl n_loop. rewrite He.
    destruct (is_SystemExit e); [reflexivity|].
    destruct (is_timeout_or_connection e); reflexivity. }
  destruct (65535 <=? loop_count st); unfold modify; apply Hstep.
Qed.


(** ** The beginning of [run] *)

Lemma configure_logging_eq cfg st :
  exists ev, is_network ev = false /\
             configure_logging cfg st = (Ok tt, append_trace [ev] st).
Proof.
  unfold configure_logging, try_except, mbind, M_bind, bind.
  destruct (loglevel cfg) as [l|]; simpl.
  - destruct (getLevelName_is_int (upper l));
      eexists; (split; [|reflexivity]); reflexivity.
  - eexists; (split; [|reflexivity]); reflexivity.
Qed.

Lemma check_config_valid cfg st :
  1 <= mqtt_max_loop_reconnect cfg -> 1 <= mqtt_max_startup cfg ->
  1 <= mqtt_max_reconnects cfg ->
  check_config cfg st = (Ok tt, st).
Proof.
  intros H1 H2 H3. unfold check_config, mbind, M_bind, bind.
  apply Z.ltb_ge in H1, H2, H3. by rewrite H1, H2, H3.
Qed.

Lemma check_config_invalid cfg st :
  mqtt_max_loop_reconnect cfg < 1 \/ mqtt_max_startup cfg < 1 \/
  mqtt_max_reconnects cfg < 1 ->
  exists text,
    check_config cfg st = (Raise (SystemExit 1), append_trace [Log CRITICAL text] st).
Proof.
  intros H. unfold check_config, mbind, M_bind, bind, exit, raise, emit.
  destruct (Z.ltb_spec (mqtt_max_loop_reconnect cfg) 1); [by eexists|].
  simpl. destruct (Z.ltb_spec (mqtt_max_startup cfg) 1); [by eexists|].
  simpl. destruct (Z.ltb_spec (mqtt_max_reconnects cfg) 1); [by eexists|].
  lia.
Qed.

(** [run] up to its checks of the ceilings. *)
Lemma run_eq cfg w json_loads float_of_str fuel :
  exists ev, is_network ev = false /\
    run cfg w json_loads float_of_str fuel init_state
    = (check_config cfg;;
       startup cfg w;;
       emit (Log INFO "Startup success.");;
       steady_state cfg w json_loads float_of_str fuel false 0) (configured ev).
Proof.
  destruct (configure_logging_eq cfg
              (append_trace [SignalInstall SIGINT; SignalInstall SIGTERM]
                 (set_running true init_state))) as (ev & Hev & Heq).
  exists ev. split; [done|].
  unfold run, mbind, M_bind, bind, modify, emit. simpl.
  unfold append_trace at 1 2. simpl.
  unfold append_trace, set_running in Heq. simpl in Heq. rewrite Heq.
  reflexivity.
Qed.

(** C7.  A configuration in which one of the three ceilings is below 1 makes
    [run] exit with status 1 before any call that reaches the network:
    nothing in the trace is a [connect], [reconnect], [subscribe], [publish]
    or [loop], and the transport has not been asked to connect. *)
Theorem C7_invalid_ceiling_exits_1_before_network :
  forall cfg w json_loads float_of_str fuel,
    mqtt_max_loop_reconnect cfg < 1 \/ mqtt_max_startup cfg < 1 \/
    mqtt_max_reconnects cfg < 1 ->
    let r := run cfg w json_loads float_of_str fuel init_state in
    fst r = Raise (SystemExit 1) /\
    Forall (fun ev => is_network ev = false) (trace (snd r)) /\
    n_connect (snd r) = 0%nat /\ n_reconnect (snd r) = 0%nat /\
    n_loop (snd r) = 0%nat.
Proof.
  intros cfg w jl fs fuel Hbad r. subst r.
  destruct (run_eq cfg w jl fs fuel) as (ev & Hev & ->).
  destruct (check_config_invalid cfg (configured ev) Hbad) as (text & Hc).
  unfold mbind, M_bind, bind. rewrite Hc. simpl.
  repeat split; try reflexivity.
  repeat constructor. exact Hev.
Qed.

Lemma C7_witness :
  (mqtt_max_loop_reconnect (with_ceilings 10 10 0) < 1 \/
   mqtt_max_startup (with_ceilings 10 10 0) < 1 \/
   mqtt_max_reconnects (with_ceilings 10 10 0) < 1) /\
  let r := run (with_ceilings 10 10 0) world_refusing (loads_table payloads)
               no_float_of_str 5 init_state in
  fst r = Raise (SystemExit 1) /\
  Forall (fun ev => is_network ev = false) (trace (snd r)) /\
  n_connect (snd r) = 0%nat /\ n_reconnect (snd r) = 0%nat /\
  n_loop (snd r) = 0%nat.
Proof.
  assert (H : mqtt_max_loop_reconnect (with_ceilings 10 10 0) < 1 \/
              mqtt_max_startup (with_ceilings 10 10 0) < 1 \/
              mqtt_max_reconnects (with_ceilings 10 10 0) < 1)
    by (left; reflexivity).
  split; [exact H|].
  exact (C7_invalid_ceiling_exits_1_before_network
           (with_ceilings 10 10 0) world_refusing (loads_table payloads)
           no_float_of_str 5 H).
Defined.

(** ** Startup when every attempt fails *)

Lemma startup_all_fail cfg w st :
  1 <= mqtt_max_startup cfg ->
  (forall i : nat,
     (n_connect st <= i < n_connect st + Z.to_nat (mqtt_max_startup cfg))%nat ->
     exists e, connect_result w i = Some e /\ is_OSError e = true) ->
  exists st',
    startup cfg w st = (Raise (SystemExit 1), st') /\
    count is_Connect (trace st')
    = (count is_Connect (trace st) + Z.to_nat (mqtt_max_startup cfg))%nat /\
    count is_Loop (trace st') = count is_Loop (trace st).
Proof.
  intros Hmax Hfail.
  destruct (startup_loop_all_fail cfg w (Z.to_nat (mqtt_max_startup cfg)) 0 st)
    as (st1 & Hloop & Hcnt & Hlp).
  - lia.
  - intros i Hi. apply Hfail. rewrite Z.sub_0_r in Hi. exact Hi.
  - unfold startup, mbind, M_bind, bind. rewrite Hloop.
    assert (Hle : (mqtt_max_startup cfg <=? Z.max 0 (mqtt_max_startup cfg)) = true)
      by (apply Z.leb_le; lia).
    rewrite Hle. unfold emit, exit, raise.
    eexists. split; [reflexivity|].
    simpl trace. rewrite !count_app, Hcnt, Hlp, Z.sub_0_r.
    match goal with
    | |- context [count is_Connect [?x]] => change (count is_Connect [x]) with 0%nat
    end.
    match goal with
    | |- context [count is_Loop [?x]] => change (count is_Loop [x]) with 0%nat
    end.
    lia.
Qed.

(** ** The first attempt *)

(** With a startup ceiling of 1 or more, the startup calls [connect], in any
    environment. *)
Lemma startup_connects cfg w st :
  1 <= mqtt_max_startup cfg ->
  (1 <= count is_Connect (trace (snd (startup cfg w st))))%nat.
Proof.
  intros Hmax. unfold startup.
  destruct (Z.to_nat (mqtt_max_startup cfg)) as [|fuel] eqn:Hfuel; [lia|].
  rewrite startup_loop_unfold.
  assert (H0 : (0 <? mqtt_max_startup cfg) = true) by (apply Z.ltb_lt; lia).
  rewrite H0.
  set (c := connect w (mqtt_broker cfg) (mqtt_port cfg) (mqtt_timeout cfg)).
  assert (Hc : (1 <= count is_Connect (trace (snd (c st))))%nat).
  { subst c. rewrite connect_eq. simpl.
    rewrite !count_app. unfold count at 2. simpl. lia. }
  etransitivity; [exact Hc|]. apply count_extends.
  eapply extends_trans; [|apply extends_mbind; intros ?; grows_tac].
  eapply extends_trans; [|apply extends_mbind; intros ?; grows_tac].
  eapply extends_trans; [|apply extends_try; intros e h H; repeat case_match;
                           simplify_eq; grows_tac].
  apply extends_mbind. intros ?. grows_tac.
Qed.

Lemma run_connects cfg w json_loads float_of_str fuel :
  1 <= mqtt_max_loop_reconnect cfg -> 1 <= mqtt_max_startup cfg ->
  1 <= mqtt_max_reconnects cfg ->
  (1 <= count is_Connect
          (trace (snd (run cfg w json_loads float_of_str fuel init_state))))%nat.
Proof.
  intros H1 H2 H3.
  destruct (run_eq cfg w json_loads float_of_str fuel) as (ev & Hev & ->).
  unfold mbind at 1, M_bind at 1, bind at 1.
  rewrite check_config_valid by done.
  etransitivity; [apply (startup_connects cfg w (configured ev) H2)|].
  apply count_extends, extends_mbind. intros ?. grows_tac.
Qed.

(** C3.  With a startup ceiling N >= 1 the startup of lines 107 to 120 calls
    [connect] at least once, in any environment, and so does [run] when the
    two other ceilings pass the checks that precede the startup.  When the
    first N calls of [connect] raise an [OSError], the startup exits with
    status 1 after exactly N calls of [connect], from any state in which
    [connect] has not been called, and [run] exits with status 1 with
    exactly N calls of [connect] and no tick in its trace. *)
Theorem C3_startup_exhaustion_exits_1_after_N_attempts :
  forall cfg w json_loads float_of_str fuel,
    1 <= mqtt_max_startup cfg ->
    (forall st, (1 <= count is_Connect (trace (snd (startup cfg w st))))%nat) /\
    (1 <= mqtt_max_loop_reconnect cfg -> 1 <= mqtt_max_reconnects cfg ->
       (1 <= count is_Connect
               (trace (snd (run cfg w json_loads float_of_str fuel init_state))))%nat) /\
    ((forall i : nat, (i < Z.to_nat (mqtt_max_startup cfg))%nat ->
        exists e, connect_result w i = Some e /\ is_OSError e = true) ->
     (forall st, n_connect st = 0%nat ->
        fst (startup cfg w st) = Raise (SystemExit 1) /\
        count is_Connect (trace (snd (startup cfg w st)))
        = (count is_Connect (trace st) + Z.to_nat (mqtt_max_startup cfg))%nat) /\
     (1 <= mqtt_max_loop_reconnect cfg -> 1 <= mqtt_max_reconnects cfg ->
        let r := run cfg w json_loads float_of_str fuel init_state in
        fst r = Raise (SystemExit 1) /\
        count is_Connect (trace (snd r)) = Z.to_nat (mqtt_max_startup cfg) /\
        count is_Loop (trace (snd r)) = 0%nat)).
Proof.
  intros cfg w jl fs fuel Hmax.
  split; [intros st; by apply startup_connects|].
  split; [intros Hloop Hrec; by apply run_connects|].
  intros Hfail.
  assert (Hst : forall st, n_connect st = 0%nat ->
            exists st', startup cfg w st = (Raise (SystemExit 1), st') /\
              count is_Connect (trace st')
              = (count is_Connect (trace st) + Z.to_nat (mqtt_max_startup cfg))%nat /\
              count is_Loop (trace st') = count is_Loop (trace st)).
  { intros st Hn. apply startup_all_fail; [done|].
    intros i Hi. apply Hfail. lia. }
  split.
  - intros st Hn. destruct (Hst st Hn) as (st' & -> & Hcnt & _). by split.
  - intros Hloop Hrec r. subst r.
    destruct (run_eq cfg w jl fs fuel) as (ev & Hev & ->).
    unfold mbind, M_bind, bind.
    rewrite check_config_valid by done.
    destruct (Hst (configured ev) eq_refl) as (st' & -> & Hcnt & Hlp).
    simpl fst. simpl snd.
    assert (Hc0 : count is_Connect (trace (configured ev)) = 0%nat)
      by (unfold count; simpl; by destruct ev).
    assert (Hl0 : count is_Loop (trace (configured ev)) = 0%nat)
      by (unfold count; simpl; by destruct ev).
    rewrite Hcnt, Hlp, Hc0, Hl0. repeat split; lia.
Qed.

Lemma C3_witness :
  1 <= mqtt_max_startup (with_ceilings 10 3 10) /\
  (forall i : nat, (i < Z.to_nat (mqtt_max_startup (with_ceilings 10 3 10)))%nat ->
     exists e, connect_result world_refusing i = Some e /\ is_OSError e = true) /\
  1 <= mqtt_max_loop_reconnect (with_ceilings 10 3 10) /\
  1 <= mqtt_max_reconnects (with_ceilings 10 3 10) /\
  let r := run (with_ceilings 10 3 10) world_refusing (loads_table payloads)
               no_float_of_str 5 init_state in
  fst r = Raise (SystemExit 1) /\
  count is_Connect (trace (snd r)) = 3%nat /\
  count is_Loop (trace (snd r)) = 0%nat.
Proof.
  assert (H1 : 1 <= mqtt_max_startup (with_ceilings 10 3 10)) by (simpl; lia).
  assert (H2 : forall i : nat,
             (i < Z.to_nat (mqtt_max_startup (with_ceilings 10 3 10)))%nat ->
             exists e, connect_result world_refusing i = Some e /\ is_OSError e = true)
    by (intros i _; exists ConnectionError; split; reflexivity).
  assert (H3 : 1 <= mqtt_max_loop_reconnect (with_ceilings 10 3 10)) by (simpl; lia).
  assert (H4 : 1 <= mqtt_max_reconnects (with_ceilings 10 3 10)) by (simpl; lia).
  repeat (split; [assumption|]).
  exact (proj2 (proj2 (proj2 (C3_startup_exhaustion_exits_1_after_N_attempts
           (with_ceilings 10 3 10) world_refusing (loads_table payloads)
           no_float_of_str 5 H1)) H2) H3 H4).
Defined.

(** ** Startup when an attempt succeeds *)

(** One successful attempt of the startup loop ends the loop. *)
Lemma startup_loop_success cfg w fuel c st :
  c < mqtt_max_startup cfg ->
  connect_result w (n_connect st) = None ->
  exists st1,
    startup_loop cfg w (S fuel) c st = (Ok (c + 1), st1) /\
    count is_Connect (trace st1) = S (count is_Connect (trace st)) /\
    count is_Loop (trace st1) = count is_Loop (trace st).
Proof.
  intros Hc He. rewrite startup_loop_unfold.
  apply Z.ltb_lt in Hc. rewrite Hc.
  unfold mbind, M_bind, bind, try_except. rewrite connect_eq, He.
  unfold emit, mret, M_ret, ret.
  eexists. split; [reflexivity|].
  simpl. rewrite !count_app, !count_signal_events by done.
  unfold count; simpl. lia.
Qed.

Lemma startup_loop_succeeds cfg w : forall (k fuel : nat) c st,
  c + Z.of_nat k < mqtt_max_startup cfg ->
  (k < fuel)%nat ->
  (forall i : nat, (n_connect st <= i < n_connect st + k)%nat ->
     exists e, connect_result w i = Some e /\ is_OSError e = true) ->
  connect_result w (n_connect st + k) = None ->
  exists st',
    startup_loop cfg w fuel c st = (Ok (c + Z.of_nat k + 1), st') /\
    count is_Connect (trace st') = (count is_Connect (trace st) + k + 1)%nat /\
    count is_Loop (trace st') = count is_Loop (trace st).
Proof.
  induction k as [|k IH]; intros fuel c st Hc Hfuel Hfail Hok.
  - destruct fuel as [|fuel]; [lia|].
    rewrite Nat.add_0_r in Hok.
    destruct (startup_loop_success cfg w fuel c st) as (st1 & Heq & Hcnt & Hlp);
      [lia|done|].
    exists st1. rewrite Heq. repeat split; [f_equal; f_equal; lia|lia|done].
  - destruct fuel as [|fuel]; [lia|].
    destruct (Hfail (n_connect st)) as (e & He & Hos); [lia|].
    destruct (startup_loop_fail cfg w fuel c st e) as (st1 & Heq & Hn & Hcnt & Hlp);
      [lia|done|done|].
    destruct (IH fuel (c + 1) st1) as (st' & Hrun & Hcnt' & Hlp').
    + lia.
    + lia.
    + intros i Hi. apply Hfail. lia.
    + rewrite Hn. rewrite <- Hok. f_equal. lia.
    + exists st'. rewrite Heq, Hrun.
      repeat split; [f_equal; f_equal; lia|lia|congruence].
Qed.

(** X1.  The startup after [k] failures with an [OSError] and a success,
    the success being permitted by the ceiling: it makes [k + 1] attempts
    and drives no tick; it goes on to the steady state exactly when the
    successful attempt is not the last one the ceiling permits, and exits
    with status 1 when it is. *)
Lemma startup_after_failures cfg w st (k : nat) :
  n_connect st = 0%nat ->
  Z.of_nat k < mqtt_max_startup cfg ->
  (forall i : nat, (i < k)%nat ->
     exists e, connect_result w i = Some e /\ is_OSError e = true) ->
  connect_result w k = None ->
  fst (startup cfg w st)
  = (if Z.of_nat k + 1 <? mqtt_max_startup cfg then Ok tt
     else Raise (SystemExit 1)) /\
  count is_Connect (trace (snd (startup cfg w st)))
  = (count is_Connect (trace st) + k + 1)%nat /\
  count is_Loop (trace (snd (startup cfg w st))) = count is_Loop (trace st).
Proof.
  intros Hn Hk Hfail Hok.
  destruct (startup_loop_succeeds cfg w k (Z.to_nat (mqtt_max_startup cfg)) 0 st)
    as (st' & Hrun & Hcnt & Hlp).
  - lia.
  - lia.
  - intros i Hi. apply Hfail. lia.
  - by rewrite Hn.
  - unfold startup, mbind, M_bind, bind. rewrite Hrun.
    destruct (Z.ltb_spec (Z.of_nat k + 1) (mqtt_max_startup cfg)) as [Hlt|Hge].
    + assert (Hle : (mqtt_max_startup cfg <=? 0 + Z.of_nat k + 1) = false)
        by (apply Z.leb_gt; lia).
      rewrite Hle. by repeat split.
    + assert (Hle : (mqtt_max_startup cfg <=? 0 + Z.of_nat k + 1) = true)
        by (apply Z.leb_le; lia).
      rewrite Hle. unfold emit, exit, raise. simpl.
      rewrite !count_app, Hcnt, Hlp.
      change (count is_Connect [Log CRITICAL _]) with 0%nat.
      change (count is_Loop [Log CRITICAL _]) with 0%nat.
      repeat split; lia.
Qed.

(** ** The sub-loop of [on_disconnect] *)

Lemma reconnect_eq w st :
  reconnect w st
  = (match reconnect_result w (n_reconnect st) with
     | None => Ok tt
     | Some e => Raise e
     end,
     bump_reconnect (after_blocking w (append_trace [Reconnect] st))).
Proof.
  unfold reconnect, mbind, M_bind, bind, emit. rewrite blocking_eq.
  unfold get, modify. simpl.
  by destruct (reconnect_result w (n_reconnect st)).
Qed.

Lemma reconnect_loop_unfold cfg w fuel reconnect_count :
  reconnect_loop cfg w fuel reconnect_count =
  if reconnect_count <? mqtt_max_reconnects cfg then
    match fuel with
    | O => out_of_fuel
    | S fuel' =>
        c ← try_except
              (reconnect w;; mret Break)
              (fun e =>
                 if is_OSError e then Some (
                   emit (Log ERROR "Connection error while trying to reconnect.");;
                   emit (LogTraceback ERROR e);;
                   wait w 30;;
                   mret Continue)
                 else None);
        match c with
        | Break => mret (reconnect_count + 1)
        | Continue => reconnect_loop cfg w fuel' (reconnect_count + 1)
        end
    end
  else mret reconnect_count.
Proof. by destruct fuel. Qed.

(** A failed attempt: one [reconnect()], one wait of 30, and the loop goes
    on. *)
Lemma reconnect_loop_fail cfg w fuel c st e :
  c < mqtt_max_reconnects cfg ->
  reconnect_result w (n_reconnect st) = Some e ->
  is_OSError e = true ->
  exists st1,
    reconnect_loop cfg w (S fuel) c st = reconnect_loop cfg w fuel (c + 1) st1 /\
    n_reconnect st1 = S (n_reconnect st) /\
    count is_Reconnect (trace st1) = S (count is_Reconnect (trace st)) /\
    count is_Wait30 (trace st1) = S (count is_Wait30 (trace st)) /\
    trace st1 = trace st ++ [Reconnect]
                ++ map signal_event (signals w (n_blocking st))
                ++ [Log ERROR "Connection error while trying to reconnect.";
                    LogTraceback ERROR e; Wait 30]
                ++ map signal_event (signals w (S (n_blocking st))).
Proof.
  intros Hc He Hos. rewrite reconnect_loop_unfold.
  apply Z.ltb_lt in Hc. rewrite Hc.
  unfold mbind, M_bind, bind, try_except. rewrite reconnect_eq, He, Hos.
  unfold emit. rewrite wait_eq. unfold mret, M_ret, ret.
  eexists. split; [reflexivity|]. split; [reflexivity|].
  simpl. rewrite !count_app, !count_signal_events by done.
  unfold count; simpl. repeat split; try lia.
  by rewrite <- !app_assoc.
Qed.

(** A successful attempt: one [reconnect()], no wait, and the loop ends. *)
Lemma reconnect_loop_success cfg w fuel c st :
  c < mqtt_max_reconnects cfg ->
  reconnect_result w (n_reconnect st) = None ->
  exists st1,
    reconnect_loop cfg w (S fuel) c st = (Ok (c + 1), st1) /\
    count is_Reconnect (trace st1) = S (count is_Reconnect (trace st)) /\
    count is_Wait30 (trace st1) = count is_Wait30 (trace st).
Proof.
  intros Hc He. rewrite reconnect_loop_unfold.
  apply Z.ltb_lt in Hc. rewrite Hc.
  unfold mbind, M_bind, bind, try_except. rewrite reconnect_eq, He.
  unfold mret, M_ret, ret.
  eexists. split; [reflexivity|].
  simpl. rewrite !count_app, !count_signal_events by done.
  unfold count; simpl. lia.
Qed.

Lemma reconnect_loop_succeeds cfg w : forall (k fuel : nat) c st,
  c + Z.of_nat k < mqtt_max_reconnects cfg ->
  (k < fuel)%nat ->
  (forall i : nat, (n_reconnect st <= i < n_reconnect st + k)%nat ->
     exists e, reconnect_result w i = Some e /\ is_OSError e = true) ->
  reconnect_result w (n_reconnect st + k) = None ->
  exists st',
    reconnect_loop cfg w fuel c st = (Ok (c + Z.of_nat k + 1), st') /\
    count is_Reconnect (trace st') = (count is_Reconnect (trace st) + k + 1)%nat /\
    count is_Wait30 (trace st') = (count is_Wait30 (trace st) + k)%nat.
Proof.
  induction k as [|k IH]; intros fuel c st Hc Hfuel Hfail Hok.
  - destruct fuel as [|fuel]; [lia|].
    rewrite Nat.add_0_r in Hok.
    destruct (reconnect_loop_success cfg w fuel c st) as (st1 & Heq & Hcnt & Hwt);
      [lia|done|].
    exists st1. rewrite Heq. repeat split; [f_equal; f_equal; lia|lia|lia].
  - destruct fuel as [|fuel]; [lia|].
    destruct (Hfail (n_reconnect st)) as (e & He & Hos); [lia|].
    destruct (reconnect_loop_fail cfg w fuel c st e)
      as (st1 & Heq & Hn & Hcnt & Hwt & _); [lia|done|done|].
    destruct (IH fuel (c + 1) st1) as (st' & Hrun & Hcnt' & Hwt').
    + lia.
    + lia.
    + intros i Hi. apply Hfail. lia.
    + rewrite Hn. rewrite <- Hok. f_equal. lia.
    + exists st'. rewrite Heq, Hrun.
      repeat split; [f_equal; f_equal; lia|lia|lia].
Qed.

Lemma reconnect_loop_all_fail cfg w fuel : forall c st,
  mqtt_max_reconnects cfg - c <= Z.of_nat fuel ->
  (forall i : nat,
     (n_reconnect st <= i < n_reconnect st + Z.to_nat (mqtt_max_reconnects cfg - c))%nat ->
     exists e, reconnect_result w i = Some e /\ is_OSError e = true) ->
  exists st',
    reconnect_loop cfg w fuel c st = (Ok (Z.max c (mqtt_max_reconnects cfg)), st') /\
    count is_Reconnect (trace st')
    = (count is_Reconnect (trace st) + Z.to_nat (mqtt_max_reconnects cfg - c))%nat /\
    count is_Wait30 (trace st')
    = (count is_Wait30 (trace st) + Z.to_nat (mqtt_max_reconnects cfg - c))%nat.
Proof.
  induction fuel as [|fuel IH]; intros c st Hfuel Hfail.
  - rewrite reconnect_loop_unfold.
    destruct (Z.ltb_spec c (mqtt_max_reconnects cfg)) as [Hlt|Hge]; [lia|].
    exists st. split; [unfold mret, M_ret, ret; f_equal; f_equal; lia|].
    replace (Z.to_nat _) with 0%nat by lia. lia.
  - destruct (Z.ltb_spec c (mqtt_max_reconnects cfg)) as [Hlt|Hge].
    + destruct (Hfail (n_reconnect st)) as (e & He & Hos); [lia|].
      destruct (reconnect_loop_fail cfg w fuel c st e Hlt He Hos)
        as (st1 & Heq & Hn & Hcnt & Hwt & _).
      destruct (IH (c + 1) st1) as (st' & Hrun & Hcnt' & Hwt').
      * lia.
      * intros i Hi. apply Hfail. lia.
      * exists st'. rewrite Heq, Hrun. split.
        -- f_equal. f_equal. lia.
        -- rewrite Hcnt', Hcnt, Hwt', Hwt. lia.
    + rewrite reconnect_loop_unfold.
      apply Z.ltb_ge in Hge. rewrite Hge.
      exists st. split; [unfold mret, M_ret, ret; f_equal; f_equal; lia|].
      replace (Z.to_nat _) with 0%nat by lia. lia.
Qed.

(** A reason code of 0: one warning, no [reconnect()]. *)
Lemma on_disconnect_clean cfg w st :
  on_disconnect cfg w 0 st
  = (Ok tt, append_trace [Log WARNING "MQTT Disconnected: 0"] st).
Proof. reflexivity. Qed.

(** X4.  A reason code other than 0, [k] attempts that fail with an
    [OSError] and a success, the success being permitted by the ceiling:
    [k + 1] calls of [reconnect()], [k] waits of 30; [on_disconnect]
    returns exactly when the successful attempt is not the last one the
    ceiling permits, and calls [exit(1)] when it is. *)
Lemma on_disconnect_after_failures cfg w rc st (k : nat) :
  rc <> 0 ->
  Z.of_nat k < mqtt_max_reconnects cfg ->
  (forall i : nat, (n_reconnect st <= i < n_reconnect st + k)%nat ->
     exists e, reconnect_result w i = Some e /\ is_OSError e = true) ->
  reconnect_result w (n_reconnect st + k) = None ->
  fst (on_disconnect cfg w rc st)
  = (if Z.of_nat k + 1 <? mqtt_max_reconnects cfg then Ok tt
     else Raise (SystemExit 1)) /\
  count is_Reconnect (trace (snd (on_disconnect cfg w rc st)))
  = (count is_Reconnect (trace st) + k + 1)%nat /\
  count is_Wait30 (trace (snd (on_disconnect cfg w rc st)))
  = (count is_Wait30 (trace st) + k)%nat.
Proof.
  intros Hrc Hk Hfail Hok.
  unfold on_disconnect, mbind, M_bind, bind, emit.
  apply Z.eqb_neq in Hrc. rewrite Hrc. change (negb false) with true. cbv beta iota.
  set (st0 := append_trace _ (append_trace _ st)).
  destruct (reconnect_loop_succeeds cfg w k (Z.to_nat (mqtt_max_reconnects cfg)) 0 st0)
    as (st' & Hrun & Hcnt & Hwt).
  - lia.
  - lia.
  - exact Hfail.
  - exact Hok.
  - rewrite Hrun.
    assert (Hc0 : count is_Reconnect (trace st0) = count is_Reconnect (trace st))
      by (subst st0; simpl; rewrite !count_app; unfold count at 2 3; simpl; lia).
    assert (Hw0 : count is_Wait30 (trace st0) = count is_Wait30 (trace st))
      by (subst st0; simpl; rewrite !count_app; unfold count at 2 3; simpl; lia).
    destruct (Z.ltb_spec (Z.of_nat k + 1) (mqtt_max_reconnects cfg)) as [Hlt|Hge].
    + assert (Hle : (mqtt_max_reconnects cfg <=? 0 + Z.of_nat k + 1) = false)
        by (apply Z.leb_gt; lia).
      rewrite Hle. simpl. repeat split; lia.
    + assert (Hle : (mqtt_max_reconnects cfg <=? 0 + Z.of_nat k + 1) = true)
        by (apply Z.leb_le; lia).
      rewrite Hle. unfold exit, raise. simpl.
      rewrite !count_app, Hcnt, Hwt.
      change (count is_Reconnect [Log CRITICAL _]) with 0%nat.
      change (count is_Wait30 [Log CRITICAL _]) with 0%nat.
      repeat split; lia.
Qed.

(** X5.  A reason code other than 0 and a transport that refuses every
    attempt with an [OSError]: as many calls of [reconnect()] and as many
    waits of 30 as the ceiling, the last failure included, then
    [exit(1)]. *)
Lemma on_disconnect_exhausted cfg w rc st :
  rc <> 0 ->
  (forall i : nat,
     (n_reconnect st <= i < n_reconnect st + Z.to_nat (mqtt_max_reconnects cfg))%nat ->
     exists e, reconnect_result w i = Some e /\ is_OSError e = true) ->
  fst (on_disconnect cfg w rc st) = Raise (SystemExit 1) /\
  count is_Reconnect (trace (snd (on_disconnect cfg w rc st)))
  = (count is_Reconnect (trace st) + Z.to_nat (mqtt_max_reconnects cfg))%nat /\
  count is_Wait30 (trace (snd (on_disconnect cfg w rc st)))
  = (count is_Wait30 (trace st) + Z.to_nat (mqtt_max_reconnects cfg))%nat.
Proof.
  intros Hrc Hfail.
  unfold on_disconnect, mbind, M_bind, bind, emit.
  apply Z.eqb_neq in Hrc. rewrite Hrc. change (negb false) with true. cbv beta iota.
  set (st0 := append_trace _ (append_trace _ st)).
  destruct (reconnect_loop_all_fail cfg w (Z.to_nat (mqtt_max_reconnects cfg)) 0 st0)
    as (st' & Hrun & Hcnt & Hwt).
  - lia.
  - intros i Hi. apply Hfail. rewrite Z.sub_0_r in Hi. exact Hi.
  - rewrite Hrun.
    assert (Hc0 : count is_Reconnect (trace st0) = count is_Reconnect (trace st))
      by (subst st0; simpl; rewrite !count_app; unfold count at 2 3; simpl; lia).
    assert (Hw0 : count is_Wait30 (trace st0) = count is_Wait30 (trace st))
      by (subst st0; simpl; rewrite !count_app; unfold count at 2 3; simpl; lia).
    assert (Hle : (mqtt_max_reconnects cfg <=? Z.max 0 (mqtt_max_reconnects cfg)) = true)
      by (apply Z.leb_le; lia).
    rewrite Hle. unfold exit, raise. simpl.
    rewrite !count_app, Hcnt, Hwt, Z.sub_0_r.
    change (count is_Reconnect [Log CRITICAL _]) with 0%nat.
    change (count is_Wait30 [Log CRITICAL _]) with 0%nat.
    repeat split; lia.
Qed.
(** ** The float literals of the scenarios *)

Lemma float_12_345_nearest : nearest_float 12345 1000 float_12_345.
Proof. repeat split; vm_compute; congruence. Qed.

Lemma float_m0_0004_nearest : nearest_float (-4) 10000 float_m0_0004.
Proof. repeat split; vm_compute; congruence. Qed.

Lemma float_0_25_nearest : nearest_float 1 4 float_0_25.
Proof. repeat split; vm_compute; congruence. Qed.

(** ** The steady-state loop when a tick fails *)

(** C1 (code defect).  The claim: a tick fault that is neither a timeout nor
    a connection error ends the process at once with status 2, and a
    [loop_reconnect_count] that reaches its ceiling ends it with status 1.
    The code: the handler of such a fault starts with
    [logging.logging.critical], the module [logging] has no attribute
    [logging], so [AttributeError] leaves the handler and [run] before
    [exit(2)] is reached.  Evaluated on a first tick that raises
    [ValueError], and on one that raises an [OSError] that is no connection
    error: [run] ends with [AttributeError], never with [SystemExit 2],
    after one tick and without the critical log entries.  The test after the
    loop does exit with status 1 when it is reached with the count at the
    ceiling, but [run] never reaches it so: with a loop ceiling of 1 the
    first timeout brings the count to the ceiling and the handler raises
    [TypeError] (the defect of C2). *)
Theorem C1_unexpected_tick_fault_escapes_as_AttributeError :
  forall fuel : nat,
    let r1 := run cfg_default (first_tick_raises ValueError)
                  (loads_table payloads) no_float_of_str (S fuel) init_state in
    let r2 := run cfg_default (first_tick_raises OSError)
                  (loads_table payloads) no_float_of_str (S fuel) init_state in
    let r3 := steady_state cfg_default (first_tick_raises ValueError)
                  (loads_table payloads) no_float_of_str fuel true 10
                  (set_running true init_state) in
    let r4 := run (with_ceilings 10 10 1) (first_tick_raises TimeoutError)
                  (loads_table payloads) no_float_of_str (S fuel) init_state in
    fst r1 = Raise AttributeError /\ fst r1 <> Raise (SystemExit 2) /\
    count is_Loop (trace (snd r1)) = 1%nat /\
    ~ In (Log CRITICAL "Exiting.") (trace (snd r1)) /\
    fst r2 = Raise AttributeError /\
    fst r3 = Raise (SystemExit 1) /\
    fst r4 = Raise TypeError.
Proof.
  intros fuel r1 r2 r3 r4. subst r1 r2 r3 r4.
  assert (H3 : fst (steady_state cfg_default (first_tick_raises ValueError)
                      (loads_table payloads) no_float_of_str fuel true 10
                      (set_running true init_state)) = Raise (SystemExit 1))
    by (destruct fuel; reflexivity).
  rewrite H3. vm_compute.
  repeat split; try congruence. intuition discriminate.
Qed.

(** C2 (code defect).  The claim: after a tick that raises a timeout or a
    connection error the loop goes on, and the next iteration calls
    [reconnect()] before the next tick.  The code: the handler adds 1 to
    [loop_reconnect_count], sets [reconnect_flag], and then builds its log
    message as [str + int], which raises [TypeError] inside the handler;
    the exception leaves [run].  Evaluated on a first tick that raises
    [TimeoutError], [socket.timeout] or [ConnectionError], with all the
    ceilings at 10: [run] ends with [TypeError] after one tick, and
    [reconnect()] is never called. *)
Theorem C2_timeout_tick_escapes_as_TypeError :
  forall fuel : nat,
    let go e := run cfg_default (first_tick_raises e)
                    (loads_table payloads) no_float_of_str (S fuel) init_state in
    fst (go TimeoutError) = Raise TypeError /\
    count is_Loop (trace (snd (go TimeoutError))) = 1%nat /\
    count is_Reconnect (trace (snd (go TimeoutError))) = 0%nat /\
    fst (go socket_timeout) = Raise TypeError /\
    fst (go ConnectionError) = Raise TypeError.
Proof.
  intros fuel go. subst go. vm_compute. repeat split.
Qed.

(** ** Startup *)

(** C4 (code defect).  The claim: N failures followed by a success, N below
    the startup ceiling, lead to the steady state, also when the success is
    the last attempt the ceiling permits.  The code: [startup_count] is
    incremented before [connect] and tested against the ceiling after the
    loop, whether the loop ended by [break] or not.  Evaluated with a
    startup ceiling of 1 and a broker that accepts the first connection, and
    with the default ceiling of 10 and a broker that accepts the tenth: the
    connection succeeds ([AtexitRegister] is in the trace), and [run] logs
    too many startup tries and exits with status 1 without a single tick. *)
Theorem C4_success_on_last_permitted_attempt_exits_1 :
  forall fuel : nat,
    let r1 := run (with_ceilings 10 1 10) (world_of_ticks (fun _ => ([], None)))
                  (loads_table payloads) no_float_of_str fuel init_state in
    let w9 := {| connect_result := fun i => if (i <? 9)%nat then Some ConnectionError else None;
                 reconnect_result := fun _ => None;
                 loop_result := fun _ => ([], None);
                 signals := fun _ => [] |} in
    let r2 := run cfg_default w9 (loads_table payloads) no_float_of_str fuel init_state in
    fst r1 = Raise (SystemExit 1) /\
    count is_Connect (trace (snd r1)) = 1%nat /\
    In AtexitRegister (trace (snd r1)) /\
    count is_Loop (trace (snd r1)) = 0%nat /\
    fst r2 = Raise (SystemExit 1) /\
    count is_Connect (trace (snd r2)) = 10%nat /\
    In AtexitRegister (trace (snd r2)) /\
    count is_Loop (trace (snd r2)) = 0%nat.
Proof.
  intros fuel r1 w9 r2. subst r1 r2 w9. vm_compute.
  repeat split; in_list.
Qed.

(** ** Disconnection *)

(** C5 (code defect).  The claim: a successful reconnect leaves the sub-loop
    of [on_disconnect] without ending the process, and the exhaustion of the
    ceiling ends the process with status 1.  The code tests
    [reconnect_count >= mqtt_max_reconnects] after the loop, also when it
    left the loop by [break], and [run] catches the [SystemExit] that
    [on_disconnect] raises inside [loop()].  Evaluated: (1) ceiling 1,
    reason 1, [reconnect()] succeeds at once: [on_disconnect] raises
    [SystemExit 1] after one attempt and no wait; (2) the same inside [run]:
    the process ends, with status 0; (3) ceiling 10 and a broker that
    refuses every reconnect: ten attempts, ten waits of 30, and the process
    ends with status 0, not 1. *)
Theorem C5_on_disconnect_exits_after_success_and_run_masks_status :
  forall fuel : nat,
    let r1 := on_disconnect (with_ceilings 1 10 10)
                (first_tick_disconnects 1 (fun _ => None)) 1 init_state in
    let r2 := run (with_ceilings 1 10 10)
                (first_tick_disconnects 1 (fun _ => None))
                (loads_table payloads) no_float_of_str (S fuel) init_state in
    let r3 := run cfg_default
                (first_tick_disconnects 1 (fun _ => Some ConnectionError))
                (loads_table payloads) no_float_of_str (S fuel) init_state in
    fst r1 = Raise (SystemExit 1) /\
    count is_Reconnect (trace (snd r1)) = 1%nat /\
    ~ In (Wait 30) (trace (snd r1)) /\
    fst r2 = Raise (SystemExit 0) /\
    count is_Reconnect (trace (snd r2)) = 1%nat /\
    fst r3 = Raise (SystemExit 0) /\
    count is_Reconnect (trace (snd r3)) = 10%nat /\
    count is_Wait30 (trace (snd r3)) = 10%nat /\
    In (Log CRITICAL "Too many reconnect tries.  Exiting.") (trace (snd r3)).
Proof.
  intros fuel r1 r2 r3. subst r1 r2 r3. vm_compute.
  repeat split; try in_list; intuition discriminate.
Qed.

(** ** The stop flag *)

Lemma steady_loop_stopped cfg w json_loads float_of_str fuel flag c st :
  running st = false ->
  steady_loop cfg w json_loads float_of_str fuel flag c st = (Ok c, st).
Proof.
  intros Hrun.
  destruct fuel; simpl; unfold mbind, M_bind, bind, get; by rewrite Hrun.
Qed.

(** SIGTERM during the second tick: the tick returns, the loop ends at the
    next boundary and [run] exits with status 0 after two ticks. *)
Lemma run_sigterm_exits_0 :
  let r := run cfg_default world_sigterm (loads_table payloads)
               no_float_of_str 5 init_state in
  fst r = Raise (SystemExit 0) /\
  count is_Loop (trace (snd r)) = 2%nat /\
  count is_Reconnect (trace (snd r)) = 0%nat.
Proof. vm_compute. by repeat split. Qed.

(** ** Messages *)

Lemma convert_ok cfg fs rcv pair v st :
  field_ok fs rcv pair v ->
  convert cfg fs rcv pair st = (Ok tt, append_trace [publication cfg pair v] st).
Proof.
  unfold field_ok, convert, mbind, M_bind, bind. intros ->. reflexivity.
Qed.

Lemma convert_fail cfg fs rcv pair e st :
  field_value fs rcv (fst pair) = inl e ->
  convert cfg fs rcv pair st = (Raise e, st).
Proof.
  unfold convert, mbind, M_bind, bind. intros ->. reflexivity.
Qed.

Lemma for_each_cons {A} (x : A) xs (body : A -> M unit) st :
  for_each (x :: xs) body st
  = match body x st with
    | (Ok _, st') => for_each xs body st'
    | (Raise e, st') => (Raise e, st')
    | (OutOfFuel, st') => (OutOfFuel, st')
    end.
Proof. reflexivity. Qed.

(** The [for] of [on_message] up to its first failure. *)
Lemma for_each_convert_fail cfg fs rcv pre : forall vals pair post e st,
  Forall2 (field_ok fs rcv) pre vals ->
  field_value fs rcv (fst pair) = inl e ->
  for_each (pre ++ pair :: post) (convert cfg fs rcv) st
  = (Raise e, append_trace (publications cfg pre vals) st).
Proof.
  induction pre as [|p pre IH]; intros vals pair post e st Hok Hfail.
  - apply Forall2_nil_inv_l in Hok as ->. simpl app.
    rewrite for_each_cons, (convert_fail _ _ _ _ e) by done.
    by rewrite append_trace_nil.
  - apply Forall2_cons_inv_l in Hok as (v & vals' & Hv & Hok & ->).
    simpl app. rewrite for_each_cons, (convert_ok _ _ _ _ v) by done.
    rewrite (IH vals' pair post e) by done.
    by rewrite append_trace_append.
Qed.

Lemma for_each_convert_ok cfg fs rcv pairs : forall vals st,
  Forall2 (field_ok fs rcv) pairs vals ->
  for_each pairs (convert cfg fs rcv) st
  = (Ok tt, append_trace (publications cfg pairs vals) st).
Proof.
  induction pairs as [|p pairs IH]; intros vals st Hok.
  - apply Forall2_nil_inv_l in Hok as ->. simpl. by rewrite append_trace_nil.
  - apply Forall2_cons_inv_l in Hok as (v & vals' & Hv & Hok & ->).
    rewrite for_each_cons, (convert_ok _ _ _ _ v) by done.
    rewrite (IH vals') by done.
    by rewrite append_trace_append.
Qed.

(** A list of pairs with a failing field splits at the first one. *)
Lemma first_failure fs rcv pairs :
  Exists (field_fails fs rcv) pairs ->
  exists pre pair post vals,
    pairs = pre ++ pair :: post /\
    Forall2 (field_ok fs rcv) pre vals /\
    field_fails fs rcv pair.
Proof.
  induction pairs as [|p pairs IH]; intros Hex.
  - by apply Exists_nil in Hex.
  - destruct (field_value fs rcv (fst p)) as [e|v] eqn:Hp.
    + exists [], p, pairs, []. repeat split; [constructor|by exists e].
    + apply Exists_cons in Hex as [[e He]|Hex]; [unfold field_value in *; congruence|].
      destruct (IH Hex) as (pre & pair & post & vals & -> & Hok & Hfail).
      exists (p :: pre), pair, post, (v :: vals).
      repeat split; [by constructor|done].
Qed.

Lemma count_publications p cfg pairs vals :
  (forall t d, p (Publish t d) = false) ->
  count p (publications cfg pairs vals) = 0%nat.
Proof.
  intros Hp. unfold publications. revert vals.
  induction pairs as [|q pairs IH]; intros [|v vals]; try done.
  unfold count in *. simpl. unfold publication at 1. rewrite Hp. apply IH.
Qed.

(** [on_message] when the loop over the pairs fails at [pair]. *)
Lemma on_message_field_failure cfg jl fs m st rcv pre pair post vals e :
  msg_topic m = topic cfg ->
  jl (msg_payload m) = inr rcv ->
  param_conv cfg = pre ++ pair :: post ->
  Forall2 (field_ok fs rcv) pre vals ->
  field_value fs rcv (fst pair) = inl e ->
  on_message cfg jl fs m st
  = (Ok tt, append_trace (publications cfg pre vals ++ parse_warnings m e) st).
Proof.
  intros Ht Hj Hp Hok Hfail. unfold on_message.
  destruct (String.eqb_spec (msg_topic m) (topic cfg)) as [_|]; [|done].
  unfold try_except, mbind, M_bind, bind. rewrite Hj. simpl lift.
  unfold mret, M_ret, ret. rewrite Hp.
  rewrite (for_each_convert_fail cfg fs rcv pre vals pair post e) by done.
  unfold emit. rewrite !append_trace_append. reflexivity.
Qed.

Lemma on_message_not_json cfg jl fs m st e :
  msg_topic m = topic cfg ->
  jl (msg_payload m) = inl e ->
  on_message cfg jl fs m st = (Ok tt, append_trace (parse_warnings m e) st).
Proof.
  intros Ht Hj. unfold on_message.
  destruct (String.eqb_spec (msg_topic m) (topic cfg)) as [_|]; [|done].
  unfold try_except, mbind, M_bind, bind. rewrite Hj. simpl.
  unfold emit. rewrite !append_trace_append. reflexivity.
Qed.

(** An absent field and a field that is [null] fail. *)
Lemma absent_field_fails fs (kv : gmap string json) pair :
  kv !! fst pair = None -> field_fails fs (JObj kv) pair.
Proof.
  intros H. exists KeyError. unfold field_value, getitem. by rewrite H.
Qed.

Lemma null_field_fails fs (kv : gmap string json) pair :
  kv !! fst pair = Some JNull -> field_fails fs (JObj kv) pair.
Proof.
  intros H. exists TypeError. unfold field_value, getitem. by rewrite H.
Qed.


(** ** [format(x, ".0f")] *)

Lemma string_of_uint_digits d :
  string_forall is_digit (NilEmpty.string_of_uint d) = true.
Proof. induction d; simpl; try done. Qed.

Lemma str_int_digits n :
  0 <= n -> string_forall is_digit (str_int n) = true.
Proof.
  intros Hn. unfold str_int. destruct n as [|p|p]; [done| |lia].
  simpl. unfold NilZero.string_of_uint.
  destruct (Pos.to_uint p); try done; apply (string_of_uint_digits (_ _)).
Qed.

(** [str_int] writes the decimal numeral of its argument. *)
Lemma str_int_parses n :
  option_map Z.of_int (NilZero.int_of_string (str_int n)) = Some n.
Proof.
  unfold str_int. rewrite NilZero.isi.
  - simpl. by rewrite DecimalZ.of_to.
  - destruct n as [|p|p]; try done. simpl. intros [= H].
    by apply DecimalPos.Unsigned.to_uint_nonnil in H.
  - destruct n as [|p|p]; try done. simpl. intros [= H].
    by apply DecimalPos.Unsigned.to_uint_nonnil in H.
Qed.

Lemma round_half_even_nonneg m e : 0 <= round_half_even m e.
Proof.
  unfold round_half_even. destruct (0 <=? e) eqn:He.
  - apply Z.leb_le in He. apply Z.mul_nonneg_nonneg; [lia|].
    by apply Z.pow_nonneg.
  - apply Z.leb_gt in He.
    assert (Hd : 0 < 2 ^ (- e)) by (apply Z.pow_pos_nonneg; lia).
    assert (Hq : 0 <= Z.pos m / 2 ^ (- e)) by (apply Z.div_pos; lia).
    destruct (2 * (Z.pos m mod 2 ^ (- e)) ?= 2 ^ (- e)); try lia.
    destruct (Z.even _); lia.
Qed.

Lemma round_half_even_nearest m e : nearest_integer (round_half_even m e) m e.
Proof.
  unfold nearest_integer, round_half_even. destruct (0 <=? e) eqn:He; [done|].
  apply Z.leb_gt in He.
  set (d := 2 ^ (- e)).
  assert (Hd : 0 < d) by (apply Z.pow_pos_nonneg; lia).
  pose proof (Z.div_mod (Z.pos m) d ltac:(lia)) as Hdm.
  pose proof (Z.mod_pos_bound (Z.pos m) d Hd) as Hr.
  set (q := Z.pos m / d) in *. set (r := Z.pos m mod d) in *.
  assert (Hq1 : q * d - Z.pos m = - r) by lia.
  assert (Hq2 : (q + 1) * d - Z.pos m = d - r) by lia.
  destruct (Z.compare_spec (2 * r) d) as [Heq|Hlt|Hgt].
  - destruct (Z.even q) eqn:Hev.
    + rewrite Hq1. split; [lia|done].
    + rewrite Hq2. split; [lia|]. intros _.
      by rewrite Z.even_add, Hev.
  - rewrite Hq1. split; lia.
  - rewrite Hq2. split; lia.
Qed.

Lemma format_0f_finite s m e :
  format_0f (S754_finite s m e)
  = (if s then "-" else "") +:+ str_int (round_half_even m e).
Proof. reflexivity. Qed.

(** The trace of that message: one publication, then the two warnings. *)
Lemma on_message_partial_trace :
  on_message cfg_two_fields (loads_table payloads) no_float_of_str
             (msg "{a: 0.25, b: null}") init_state
  = (Ok tt,
     append_trace
       [Publish "nofp/x" "250";
        Log WARNING "Message failed to parse: sensors b'{a: 0.25, b: null}'";
        LogTraceback WARNING TypeError]
       init_state).
Proof. vm_compute. reflexivity. Qed.




(** C9 (as the code has it).  For a message on the subscribed topic whose
    payload is JSON and in which every configured field has a float,
    [on_message] returns after publishing, for each pair of [param_conv] in
    order and nothing else, to [<name>/<suffix>] the text
    [format(val_f * 1000, ".0f")], the product being the binary64 one.  For
    a finite product with sign [s], mantissa [m] and exponent [e] that text
    is ["-"] when [s] is set, also when the digits are those of zero,
    followed by the decimal digits, and only digits, of the integer nearest
    to [m * 2^e], ties to even.  So 12.345 is published as ["12345"] and
    -0.0004 as ["-0"]. *)
Theorem C9_well_formed_message_publishes_scaled_fields :
  forall cfg json_loads float_of_str,
    (forall m st rcv vals,
       msg_topic m = topic cfg ->
       json_loads (msg_payload m) = inr rcv ->
       Forall2 (field_ok float_of_str rcv) (param_conv cfg) vals ->
       on_message cfg json_loads float_of_str m st
       = (Ok tt, append_trace (publications cfg (param_conv cfg) vals) st)) /\
    (forall pair val_f,
       publication cfg pair val_f
       = Publish (name cfg +:+ "/" +:+ snd pair)
                 (format_0f (float_mul val_f (float_of_Z 1000)))) /\
    (forall s m e,
       let n := round_half_even m e in
       format_0f (S754_finite s m e) = (if s then "-" else "") +:+ str_int n /\
       0 <= n /\ nearest_integer n m e /\
       string_forall is_digit (str_int n) = true /\
       option_map Z.of_int (NilZero.int_of_string (str_int n)) = Some n) /\
    format_0f (float_mul float_12_345 (float_of_Z 1000)) = "12345" /\
    format_0f (float_mul float_m0_0004 (float_of_Z 1000)) = "-0".
Proof.
  intros cfg jl fs. split; [|split; [|split; [|split]]].
  - intros m st rcv vals Ht Hj Hok. unfold on_message.
    destruct (String.eqb_spec (msg_topic m) (topic cfg)) as [_|]; [|done].
    unfold try_except, mbind, M_bind, bind. rewrite Hj. simpl lift.
    unfold mret, M_ret, ret.
    by rewrite (for_each_convert_ok cfg fs rcv (param_conv cfg) vals).
  - reflexivity.
  - intros s m e n. subst n. split; [apply format_0f_finite|].
    split; [apply round_half_even_nonneg|].
    split; [apply round_half_even_nearest|].
    split; [apply str_int_digits, round_half_even_nonneg|].
    apply str_int_parses.
  - vm_compute. reflexivity.
  - vm_compute. reflexivity.
Qed.

Lemma C9_witness :
  msg_topic (msg "{a: 12.345}") = topic cfg_default /\
  loads_table payloads (msg_payload (msg "{a: 12.345}"))
  = inr (obj [("a", JFloat float_12_345)]) /\
  Forall2 (field_ok no_float_of_str (obj [("a", JFloat float_12_345)]))
          (param_conv cfg_default) [float_12_345] /\
  on_message cfg_default (loads_table payloads) no_float_of_str
             (msg "{a: 12.345}") init_state
  = (Ok tt,
     append_trace (publications cfg_default (param_conv cfg_default) [float_12_345])
                  init_state).
Proof.
  assert (H1 : msg_topic (msg "{a: 12.345}") = topic cfg_default) by reflexivity.
  assert (H2 : loads_table payloads (msg_payload (msg "{a: 12.345}"))
               = inr (obj [("a", JFloat float_12_345)])) by reflexivity.
  assert (H3 : Forall2 (field_ok no_float_of_str (obj [("a", JFloat float_12_345)]))
                       (param_conv cfg_default) [float_12_345])
    by (repeat constructor).
  repeat (split; [assumption|]).
  exact (proj1 (C9_well_formed_message_publishes_scaled_fields cfg_default
                  (loads_table payloads) no_float_of_str)
               (msg "{a: 12.345}") init_state _ _ H1 H2 H3).
Defined.

(** The trace of that message. *)
Lemma on_message_12_345_trace :
  trace (snd (on_message cfg_default (loads_table payloads) no_float_of_str
                (msg "{a: 12.345}") init_state))
  = [Publish "nofp/x" "12345"].
Proof. vm_compute. reflexivity. Qed.

(** C9 as stated fails: the field value -0.0004, the float nearest to it,
    is published as ["-0"], not as ["0"]. *)
Lemma C9_counterexample :
  nearest_float (-4) 10000 float_m0_0004 /\
  loads_table payloads (msg_payload (msg "{a: -0.0004}"))
  = inr (obj [("a", JFloat float_m0_0004)]) /\
  trace (snd (on_message cfg_default (loads_table payloads) no_float_of_str
                (msg "{a: -0.0004}") init_state))
  = [Publish "nofp/x" "-0"] /\
  trace (snd (on_message cfg_default (loads_table payloads) no_float_of_str
                (msg "{a: -0.0004}") init_state))
  <> [Publish "nofp/x" "0"].
Proof.
  split; [exact float_m0_0004_nearest|]. split; [reflexivity|].
  split; vm_compute; [reflexivity|discriminate].
Qed.

(** ** Further behaviour of the code, on the scenarios *)

(** X10.  A message whose topic is not the configured one is ignored:
    [on_message] returns and the state, trace included, is as before; the
    payload is not even parsed, so nothing is published or logged. *)
Lemma on_message_other_topic cfg jl fs m st :
  msg_topic m <> topic cfg -> on_message cfg jl fs m st = (Ok tt, st).
Proof.
  intros Ht. unfold on_message.
  by destruct (String.eqb_spec (msg_topic m) (topic cfg)).
Qed.

(** The loop goes on after a malformed message: the first tick delivers it,
    the second tick is driven, and the process ends by the signal. *)
Lemma run_continues_after_malformed_message :
  let r := run (with_ceilings 10 10 10) world_malformed_then_sigterm
               (loads_table payloads) no_float_of_str 5 init_state in
  fst r = Raise (SystemExit 0) /\
  count is_Loop (trace (snd r)) = 2%nat /\
  count is_warning (trace (snd r)) = 3%nat.
Proof. vm_compute. by repeat split. Qed.

(** Line 134 assigns [self.reconnect_flag], not the local [reconnect_flag]:
    a loop entered with the local flag set calls [reconnect()] before every
    tick, not only before the next one. *)
Lemma reconnect_flag_never_clears :
  let r := steady_state cfg_default (world_sigterm_at 5) (loads_table payloads)
             no_float_of_str 9 true 0 (set_running true init_state) in
  fst r = Raise (SystemExit 0) /\
  count is_Loop (trace (snd r)) = 3%nat /\
  count is_Reconnect (trace (snd r)) = 3%nat /\
  self_reconnect_flag (snd r) = Some false.
Proof. vm_compute. by repeat split. Qed.

(** A product that leaves the range of binary64 is published as ["inf"],
    and a field of 0.5 thousandth, a tie, goes to the even integer 0. *)
Lemma format_0f_edge_cases :
  format_0f (float_mul (float_of_Z (10 ^ 308)) (float_of_Z 1000)) = "inf" /\
  format_0f (S754_finite false 1 (-1)) = "0" /\
  format_0f (S754_finite false 3 (-1)) = "2" /\
  format_0f (S754_finite true 5 (-1)) = "-2" /\
  format_0f (S754_zero true) = "-0".
Proof. vm_compute. by repeat split. Qed.

(** ** A relation kept by every step of the program *)

Section Frame.
Variable R : state -> state -> Prop.
Variable allowed : event -> Prop.
Variable cfg : config.
Variable w : world.
Variable json_loads : string -> exn + json.
Variable float_of_str : string -> option spec_float.

Hypothesis R_refl : forall st, R st st.
Hypothesis R_trans : forall st1 st2 st3, R st1 st2 -> R st2 st3 -> R st1 st3.
Hypothesis R_emit : forall ev st, allowed ev -> R st (append_trace [ev] st).
Hypothesis R_stop : forall st, R st (set_running false st).
Hypothesis R_bump_blocking : forall st, R st (bump_blocking st).
Hypothesis R_bump_connect : forall st, R st (bump_connect st).
Hypothesis R_bump_reconnect : forall st, R st (bump_reconnect st).
Hypothesis R_bump_loop : forall st, R st (bump_loop st).
Hypothesis R_flag : forall st, R st (set_self_reconnect_flag false st).
Hypothesis R_heartbeat : forall st,
  R st (set_loop_count (if 65535 <=? loop_count st then 0 else loop_count st + 1) st).
Hypothesis R_set_running_true : forall st, R st (set_running true st).
Hypothesis R_set_modbus_check_count : forall st, R st (set_modbus_check_count 0 st).
Hypothesis R_set_loop_count : forall st, R st (set_loop_count 0 st).

Hypothesis allowed_Log : forall lvl text, allowed (Log lvl text).
Hypothesis allowed_LogTraceback : forall lvl e, allowed (LogTraceback lvl e).
Hypothesis allowed_Reconnect : allowed Reconnect.
Hypothesis allowed_Wait : allowed (Wait 30).
Hypothesis allowed_Subscribe : allowed (Subscribe (topic cfg)).
Hypothesis allowed_Publish : forall pair val_f,
  In pair (param_conv cfg) -> allowed (publication cfg pair val_f).
Hypothesis allowed_Loop : allowed Loop.
Hypothesis allowed_Connect :
  allowed (Connect (mqtt_broker cfg) (mqtt_port cfg) (mqtt_timeout cfg)).
Hypothesis allowed_AtexitRegister : allowed AtexitRegister.
Hypothesis allowed_SIGINT : allowed (SignalInstall SIGINT).
Hypothesis allowed_SIGTERM : allowed (SignalInstall SIGTERM).
Hypothesis allowed_BasicConfig : forall lvl, allowed (BasicConfig lvl).

Lemma steps_ret {A} (a : A) : steps R (mret a).
Proof. intros st. apply R_refl. Qed.

Lemma steps_raise {A} e : steps R (@raise A e).
Proof. intros st. apply R_refl. Qed.

Lemma steps_exit {A} c : steps R (@exit A c).
Proof. intros st. apply R_refl. Qed.

Lemma steps_out_of_fuel {A} : steps R (@out_of_fuel A).
Proof. intros st. apply R_refl. Qed.

Lemma steps_lift {A} (r : exn + A) : steps R (lift r).
Proof. destruct r; intros st; apply R_refl. Qed.

Lemma steps_get {A} (f : state -> A) : steps R (get f).
Proof. intros st. apply R_refl. Qed.

Lemma steps_emit ev : allowed ev -> steps R (emit ev).
Proof. intros Hev st. by apply R_emit. Qed.

Lemma steps_modify f : (forall st, R st (f st)) -> steps R (modify f).
Proof. intros Hf st. apply Hf. Qed.

Lemma steps_mbind {A B} (m : M A) (k : A -> M B) :
  steps R m -> (forall a, steps R (k a)) -> steps R (mbind k m).
Proof.
  intros Hm Hk st. unfold mbind, M_bind, bind.
  pose proof (Hm st) as H1. destruct (m st) as [[a|e|] st1]; simpl in *; [|done..].
  eapply R_trans; [exact H1|apply Hk].
Qed.

Lemma steps_try {A} (body : M A) handler :
  steps R body ->
  (forall e h, handler e = Some h -> steps R h) ->
  steps R (try_except body handler).
Proof.
  intros Hb Hh st. unfold try_except.
  pose proof (Hb st) as H1. destruct (body st) as [[a|e|] st1]; simpl in *; try done.
  destruct (handler e) as [h|] eqn:He; [|done].
  eapply R_trans; [exact H1|apply (Hh e h He)].
Qed.

Lemma steps_for_each {A} (xs : list A) body :
  (forall x, In x xs -> steps R (body x)) -> steps R (for_each xs body).
Proof.
  induction xs as [|x xs IH]; intros Hb; [apply steps_ret|].
  apply (steps_mbind (body x)); [apply Hb; by left|].
  intros _. apply IH. intros y Hy. apply Hb. by right.
Qed.

(** One step of a proof that a piece of the program keeps [R]. *)
Ltac steps_step :=
  match goal with
  | |- steps _ (mbind _ _) => apply steps_mbind; [|intros ?]
  | |- steps _ (try_except _ _) =>
      apply steps_try;
      [|let e := fresh "e" in let h := fresh "h" in let H := fresh "H" in
        intros e h H; repeat case_match; simplify_eq]
  | |- steps _ (mret _) => apply steps_ret
  | |- steps _ (raise _) => apply steps_raise
  | |- steps _ (exit _) => apply steps_exit
  | |- steps _ out_of_fuel => apply steps_out_of_fuel
  | |- steps _ (lift _) => apply steps_lift
  | |- steps _ (get _) => apply steps_get
  | |- steps _ (emit _) => apply steps_emit; solve [eauto]
  | |- steps _ (modify _) => apply steps_modify; solve [eauto]
  | |- steps _ (for_each _ _) => apply steps_for_each; intros ? ?
  | |- steps _ (if _ then _ else _) => case_match
  | |- steps _ (match _ with _ => _ end) => case_match
  | |- steps _ _ => solve [eauto]
  end.

Ltac steps_tac := repeat steps_step.

Lemma steps_signal_handler signum : steps R (signal_handler signum).
Proof. unfold signal_handler. steps_tac. Qed.

Lemma steps_blocking : steps R (blocking w).
Proof.
  unfold blocking. steps_tac. apply steps_signal_handler.
Qed.

Lemma steps_connect :
  steps R (connect w (mqtt_broker cfg) (mqtt_port cfg) (mqtt_timeout cfg)).
Proof.
  pose proof steps_blocking. unfold connect. steps_tac.
Qed.

Lemma steps_reconnect : steps R (reconnect w).
Proof.
  pose proof steps_blocking. unfold reconnect. steps_tac.
Qed.

Lemma steps_wait : steps R (wait w 30).
Proof.
  pose proof steps_blocking. unfold wait. steps_tac.
Qed.

Lemma steps_on_log level buf : steps R (on_log level buf).
Proof. unfold on_log. steps_tac. Qed.

Lemma steps_on_connect rc : steps R (on_connect cfg rc).
Proof.
  unfold on_connect. steps_tac.
Qed.

Lemma steps_convert rcv pair :
  In pair (param_conv cfg) -> steps R (convert cfg float_of_str rcv pair).
Proof.
  intros Hin. unfold convert. steps_tac.
Qed.

Lemma steps_on_message m : steps R (on_message cfg json_loads float_of_str m).
Proof.
  unfold on_message. steps_tac. by apply steps_convert.
Qed.

Lemma steps_reconnect_loop fuel : forall c, steps R (reconnect_loop cfg w fuel c).
Proof.
  pose proof steps_reconnect. pose proof steps_wait.
  induction fuel as [|fuel IH]; intros c; simpl; steps_tac.
Qed.

Lemma steps_on_disconnect rc : steps R (on_disconnect cfg w rc).
Proof.
  pose proof steps_reconnect_loop. unfold on_disconnect. steps_tac.
Qed.

Lemma steps_dispatch cb : steps R (dispatch cfg w json_loads float_of_str cb).
Proof.
  destruct cb; simpl.
  - apply steps_on_log.
  - apply steps_on_connect.
  - apply steps_on_message.
  - apply steps_on_disconnect.
Qed.

Lemma steps_loop : steps R (loop cfg w json_loads float_of_str).
Proof.
  pose proof steps_blocking. unfold loop. steps_tac. apply steps_dispatch.
Qed.

Lemma steps_configure_logging : steps R (configure_logging cfg).
Proof.
  unfold configure_logging. steps_tac.
Qed.

Lemma steps_check_config : steps R (check_config cfg).
Proof. unfold check_config. steps_tac. Qed.

Lemma steps_startup_loop fuel : forall c, steps R (startup_loop cfg w fuel c).
Proof.
  pose proof steps_connect. pose proof steps_wait.
  induction fuel as [|fuel IH]; intros c; simpl; steps_tac.
Qed.

Lemma steps_startup : steps R (startup cfg w).
Proof.
  pose proof steps_startup_loop. unfold startup. steps_tac.
Qed.

Lemma steps_mbind_at {A B} (m : M A) (k : A -> M B) st :
  R st (snd (m st)) -> (forall a, steps R (k a)) -> R st (snd (mbind k m st)).
Proof.
  intros H1 Hk. unfold mbind, M_bind, bind.
  destruct (m st) as [[a|e|] st1]; simpl in *; [|done..].
  eapply R_trans; [exact H1|apply Hk].
Qed.

Lemma steps_steady_loop fuel :
  forall flag c, steps R (steady_loop cfg w json_loads float_of_str fuel flag c).
Proof.
  pose proof steps_reconnect. pose proof steps_loop.
  induction fuel as [|fuel IH]; intros flag c; simpl.
  - steps_tac.
  - apply steps_mbind; [apply steps_get|]. intros r.
    destruct (r && (c <? mqtt_max_loop_reconnect cfg)); [|apply steps_ret].
    intros st. unfold mbind at 1, M_bind at 1, bind at 1, get at 1.
    apply steps_mbind_at.
    + pose proof (R_heartbeat st) as Hh.
      by destruct (65535 <=? loop_count st).
    + intros _. steps_tac.
Qed.

Lemma steps_steady_state fuel flag c :
  steps R (steady_state cfg w json_loads float_of_str fuel flag c).
Proof.
  pose proof steps_steady_loop. unfold steady_state. steps_tac.
Qed.

Lemma steps_run fuel : steps R (run cfg w json_loads float_of_str fuel).
Proof.
  pose proof steps_configure_logging. pose proof steps_check_config.
  pose proof steps_startup. pose proof steps_steady_state.
  unfold run. steps_tac.
Qed.

End Frame.

(** ** The events a piece of the program adds *)

Lemma adds_refl P st : adds P st st.
Proof. exists []. split; [by rewrite app_nil_r|constructor]. Qed.

Lemma adds_trans P st1 st2 st3 :
  adds P st1 st2 -> adds P st2 st3 -> adds P st1 st3.
Proof.
  intros (evs1 & H1 & F1) (evs2 & H2 & F2). exists (evs1 ++ evs2).
  split; [by rewrite H2, H1, app_assoc|by apply Forall_app].
Qed.

Lemma adds_emit P ev st : P ev -> adds P st (append_trace [ev] st).
Proof. intros Hev. exists [ev]. split; [done|by repeat constructor]. Qed.

Lemma adds_same_trace P st st' : trace st' = trace st -> adds P st st'.
Proof. intros H. exists []. split; [by rewrite app_nil_r|constructor]. Qed.

Lemma adds_weaken (P Q : event -> Prop) st st' :
  (forall ev, P ev -> Q ev) -> adds P st st' -> adds Q st st'.
Proof.
  intros HPQ (evs & H & F). exists evs. split; [done|].
  eapply Forall_impl; [exact F|exact HPQ].
Qed.

Lemma adds_count P p st st' :
  (forall ev, P ev -> p ev = false) ->
  adds P st st' -> count p (trace st') = count p (trace st).
Proof.
  intros HP (evs & -> & F). rewrite count_app.
  assert (H0 : count p evs = 0%nat).
  { induction F as [|ev evs Hev _ IH]; [done|].
    unfold count in *. simpl. by rewrite (HP ev Hev). }
  lia.
Qed.

(** The side conditions of the frame lemmas, for [adds P]. *)
Ltac adds_frame :=
  first
    [ apply adds_refl
    | apply adds_trans
    | intros; apply adds_emit; assumption
    | intros; apply adds_same_trace; reflexivity
    | intros; simpl; solve [auto] ].

(** X12.  Whatever the transport and the payloads do, every event of [run]
    is one of this bridge: each [connect] goes to the configured broker,
    port and timeout, each wait lasts 30, each subscription is to the
    configured topic, each publication is that of a configured pair, to
    [<name>/<suffix>] with the text of [format(val_f * 1000, ".0f")], and
    the handlers installed are those of SIGINT and SIGTERM. *)
Theorem run_events_ok :
  forall cfg w json_loads float_of_str fuel,
    Forall (event_ok cfg)
           (trace (snd (run cfg w json_loads float_of_str fuel init_state))).
Proof.
  intros cfg w jl fs fuel.
  assert (H : adds (event_ok cfg) init_state
                (snd (run cfg w jl fs fuel init_state))).
  { apply (steps_run (adds (event_ok cfg)) (event_ok cfg)); try adds_frame.
    intros pair v Hin. simpl. by exists pair, v. }
  destruct H as (evs & -> & F). exact F.
Qed.

(** ** What callbacks and the steady state leave alone *)

Lemma callback_frame_refl st : callback_frame st st.
Proof.
  unfold callback_frame, same_object, stop_is_final.
  repeat split; auto using adds_refl.
Qed.

Lemma callback_frame_trans st1 st2 st3 :
  callback_frame st1 st2 -> callback_frame st2 st3 -> callback_frame st1 st3.
Proof.
  intros ((A1 & A2 & A3) & B1 & C1 & D1 & E1) ((A1' & A2' & A3') & B1' & C1' & D1' & E1').
  unfold callback_frame, same_object, stop_is_final in *.
  repeat split; try congruence; eauto using adds_trans.
Qed.

Lemma callback_frame_same st st' :
  loop_count st' = loop_count st ->
  modbus_check_count st' = modbus_check_count st ->
  self_reconnect_flag st' = self_reconnect_flag st ->
  (running st = false -> running st' = false) ->
  n_connect st' = n_connect st -> n_loop st' = n_loop st ->
  trace st' = trace st ->
  callback_frame st st'.
Proof.
  intros. unfold callback_frame, same_object, stop_is_final.
  repeat split; auto using adds_same_trace.
Qed.

(** X13.  A callback, whatever it is and whatever the transport answers to
    the [reconnect()] calls of [on_disconnect], leaves the heartbeat
    counter, [modbus_check_count] and [self.reconnect_flag] as they are,
    never sets [running] back to true, never calls [connect()] or [loop()],
    and adds to the trace only log entries, [reconnect], [wait],
    [subscribe] and [publish] events. *)
Theorem dispatch_frame :
  forall cfg w json_loads float_of_str cb st,
    let st' := snd (dispatch cfg w json_loads float_of_str cb st) in
    loop_count st' = loop_count st /\
    modbus_check_count st' = modbus_check_count st /\
    self_reconnect_flag st' = self_reconnect_flag st /\
    (running st = false -> running st' = false) /\
    n_connect st' = n_connect st /\ n_loop st' = n_loop st /\
    count is_Connect (trace st') = count is_Connect (trace st) /\
    count is_Loop (trace st') = count is_Loop (trace st) /\
    adds callback_event st st'.
Proof.
  intros cfg w jl fs cb st st'.
  assert (H : callback_frame st st').
  { subst st'.
    apply (steps_dispatch callback_frame callback_event);
      try first
        [ apply callback_frame_refl
        | apply callback_frame_trans
        | exact I
        | intros; exact I
        | intros; apply callback_frame_same; reflexivity
        | intros ev st0 Hev; unfold callback_frame, same_object, stop_is_final;
          repeat split; auto using adds_emit
        | intros; apply callback_frame_same; try reflexivity; done ]. }
  destruct H as ((A1 & A2 & A3) & B & C & D & E).
  repeat split; try done.
  - apply (adds_count callback_event is_Connect st st'); [|done].
    by intros [].
  - apply (adds_count callback_event is_Loop st st'); [|done].
    by intros [].
Qed.

(** X20.  The steady state of lines 125 to 155 never calls [connect()],
    never registers with [atexit] and installs no handler: a lost
    connection is only ever re-established by [reconnect()]. *)
Theorem steady_state_never_connects :
  forall cfg w json_loads float_of_str fuel reconnect_flag loop_reconnect_count st,
    let st' := snd (steady_state cfg w json_loads float_of_str fuel
                                 reconnect_flag loop_reconnect_count st) in
    adds steady_event st st' /\
    count is_Connect (trace st') = count is_Connect (trace st) /\
    n_connect st' = n_connect st.
Proof.
  intros cfg w jl fs fuel flag c st st'. subst st'.
  pose (R := fun a b : state => adds steady_event a b /\ n_connect b = n_connect a).
  assert (H : R st (snd (steady_state cfg w jl fs fuel flag c st))).
  { apply (steps_steady_state R steady_event); subst R; simpl;
      try first
        [ exact I
        | intros; exact I
        | intros; split; [apply adds_refl|reflexivity]
        | intros; split; [by apply adds_emit|reflexivity]
        | intros; split; [by apply adds_same_trace|reflexivity] ].
    intros st1 st2 st3 [H1 H1'] [H2 H2']. split; [by eapply adds_trans|congruence]. }
  destruct H as [H1 H2]. repeat split; try done.
  apply (adds_count steady_event is_Connect); [|done]. by intros [].
Qed.

(** X14.  The heartbeat counter [loop_count] of a run is within 0..65535 in
    every state the run can end in, whatever the transport does and however
    many iterations the loop makes. *)
Theorem run_heartbeat_in_range :
  forall cfg w json_loads float_of_str fuel,
    heartbeat_in_range
      (snd (run cfg w json_loads float_of_str fuel init_state)).
Proof.
  intros cfg w jl fs fuel.
  assert (H : keeps_heartbeat init_state
                (snd (run cfg w jl fs fuel init_state))).
  { apply (steps_run keeps_heartbeat (fun _ => True));
      unfold keeps_heartbeat, heartbeat_in_range; simpl;
      try first [ exact I | intros; exact I | intros; assumption
                | intros; lia | solve [auto] ].
    intros st Hst. destruct (Z.leb_spec 65535 (loop_count st)); lia. }
  apply H. unfold heartbeat_in_range. simpl. lia.
Qed.

(** ** The checks before the startup *)

(** X7.  The checks of the ceilings pass exactly when the three ceilings
    are 1 or more, and then leave no trace; otherwise they call [exit(1)]
    after one critical log entry, one only even when several ceilings are
    out of range. *)
Theorem check_config_cases :
  forall cfg st,
    (fst (check_config cfg st) = Ok tt <-> valid_ceilings cfg) /\
    (valid_ceilings cfg -> check_config cfg st = (Ok tt, st)) /\
    (~ valid_ceilings cfg ->
     exists text,
       check_config cfg st
       = (Raise (SystemExit 1), append_trace [Log CRITICAL text] st)).
Proof.
  intros cfg st. unfold valid_ceilings.
  assert (Hbad : ~ (1 <= mqtt_max_loop_reconnect cfg /\ 1 <= mqtt_max_startup cfg /\
                     1 <= mqtt_max_reconnects cfg) ->
                 exists text, check_config cfg st
                   = (Raise (SystemExit 1), append_trace [Log CRITICAL text] st)).
  { intros H. apply check_config_invalid. lia. }
  split; [|split; [|exact Hbad]].
  - split.
    + intros Hok.
      destruct (Z_le_dec 1 (mqtt_max_loop_reconnect cfg));
        destruct (Z_le_dec 1 (mqtt_max_startup cfg));
        destruct (Z_le_dec 1 (mqtt_max_reconnects cfg)); try done;
        (destruct Hbad as [text Ht]; [lia|]; rewrite Ht in Hok; discriminate).
    + intros (H1 & H2 & H3). by rewrite check_config_valid.
  - intros (H1 & H2 & H3). by apply check_config_valid.
Qed.

Lemma getLevelName_is_int_In s :
  getLevelName_is_int s = true <-> In s level_names.
Proof.
  unfold getLevelName_is_int. rewrite existsb_exists. split.
  - intros (x & Hx & Heq). apply String.eqb_eq in Heq. by subst.
  - intros H. exists s. split; [done|apply String.eqb_refl].
Qed.

Lemma upper_ascii_idempotent c : upper_ascii (upper_ascii c) = upper_ascii c.
Proof. destruct c as [[] [] [] [] [] [] [] []]; reflexivity. Qed.

Lemma upper_idempotent s : upper (upper s) = upper s.
Proof.
  induction s as [|c s IH]; [done|]. simpl.
  by rewrite upper_ascii_idempotent, IH.
Qed.

(** X8.  The configuration of the log level never raises and leaves exactly
    one event.  For a configured level made of ASCII characters, the event
    is [logging.basicConfig] with the upper-cased name when the level, in
    any letter case, is a level name of [logging], and a warning otherwise;
    when no level is configured ([None], whose [AttributeError] is caught),
    it is a warning. *)
Theorem configure_logging_cases :
  forall cfg st,
    (forall s, loglevel cfg = Some s -> ascii_only s) ->
    exists ev,
      configure_logging cfg st = (Ok tt, append_trace [ev] st) /\
      match loglevel cfg with
      | Some s =>
          (In (upper s) level_names /\ ev = BasicConfig (upper s)) \/
          (~ In (upper s) level_names /\ is_warning ev = true)
      | None => is_warning ev = true
      end /\
      (forall s, loglevel cfg = Some s -> upper (upper s) = upper s).
Proof.
  intros cfg st _.
  unfold configure_logging, try_except, mbind, M_bind, bind.
  destruct (loglevel cfg) as [s|]; simpl.
  - destruct (getLevelName_is_int (upper s)) eqn:Hl.
    + eexists. split; [reflexivity|]. split.
      * left. split; [by apply getLevelName_is_int_In|done].
      * intros s' [= <-]. apply upper_idempotent.
    + eexists. split; [reflexivity|]. split.
      * right. split; [|done]. intros Hin.
        apply getLevelName_is_int_In in Hin. congruence.
      * intros s' [= <-]. apply upper_idempotent.
  - eexists. split; [reflexivity|]. split; [done|]. intros s' [=].
Qed.

(** ** Fields and messages *)

(** X11.  Reading a configured field as a float fails exactly when the
    payload is no JSON object, or the object has no such key, or the value
    under the key is [null], an array, an object, a string that [float]
    rejects, or an integer beyond the range of binary64.  Numbers and the
    booleans [true] and [false] never fail. *)
Theorem field_fails_iff :
  forall float_of_str rcv pair,
    field_fails float_of_str rcv pair <->
    match rcv with
    | JObj kv =>
        match kv !! fst pair with
        | None => True
        | Some v => no_float float_of_str v
        end
    | _ => True
    end.
Proof.
  intros fs rcv pair. unfold field_fails, field_value, getitem.
  destruct rcv as [| | | | | |kv]; try (split; [done|by eexists]).
  destruct (kv !! pair.1) as [v|]; [|split; [done|by eexists]].
  destruct v as [|b|z|f|s|l|kv']; simpl;
    try (split; [done|by eexists]);
    try (split; [by intros [e [=]]|done]).
  - destruct (float_of_Z z) as [s|s| |s m e] eqn:Hz;
      try (split; [by intros [e' [=]]|by intros [s' [=]]]).
    split; [by exists s|by eexists].
  - destruct (fs s); [split; [by intros [e [=]]|done]|split; [done|by eexists]].
Qed.

(** Every pair has a float, or some pair fails. *)
Lemma all_ok_or_failure fs rcv (pairs : list (string * string)) :
  (exists vals, Forall2 (field_ok fs rcv) pairs vals) \/
  Exists (field_fails fs rcv) pairs.
Proof.
  induction pairs as [|p pairs IH]; [left; by exists []|].
  destruct (field_value fs rcv (fst p)) as [e|v] eqn:Hp.
  - right. left. by exists e.
  - destruct IH as [[vals Hok]|Hex].
    + left. exists (v :: vals). by constructor.
    + right. by right.
Qed.

Lemma publications_message_events cfg pairs vals :
  Forall message_event (publications cfg pairs vals).
Proof.
  unfold publications. revert vals.
  induction pairs as [|p pairs IH]; intros [|v vals]; simpl; try constructor;
    [exact I|apply IH].
Qed.

Lemma count_publications_le cfg pairs vals :
  (count is_Publish (publications cfg pairs vals) <= length pairs)%nat.
Proof.
  unfold publications, count. revert vals.
  induction pairs as [|p pairs IH]; intros [|v vals]; simpl; try lia.
  specialize (IH vals). lia.
Qed.

(** X9.  [on_message] never raises, whatever the topic and the payload: it
    returns after adding to the trace only publications and warnings, at
    most one publication per configured pair, and either no warning or
    exactly two; nothing else of the state changes. *)
Theorem on_message_total :
  forall cfg json_loads float_of_str m st,
    exists evs,
      on_message cfg json_loads float_of_str m st = (Ok tt, append_trace evs st) /\
      Forall message_event evs /\
      (count is_Publish evs <= length (param_conv cfg))%nat /\
      (count is_warning evs = 0%nat \/ count is_warning evs = 2%nat).
Proof.
  intros cfg jl fs m st.
  destruct (String.eqb_spec (msg_topic m) (topic cfg)) as [Ht|Ht].
  - destruct (jl (msg_payload m)) as [e|rcv] eqn:Hj.
    + exists (parse_warnings m e).
      split; [by apply on_message_not_json|].
      split; [by repeat constructor|]. split; [unfold count; simpl; lia|by right].
    + destruct (all_ok_or_failure fs rcv (param_conv cfg)) as [[vals Hok]|Hex].
      * exists (publications cfg (param_conv cfg) vals). split.
        { unfold on_message.
          destruct (String.eqb_spec (msg_topic m) (topic cfg)) as [_|]; [|done].
          unfold try_except, mbind, M_bind, bind. rewrite Hj. simpl lift.
          unfold mret, M_ret, ret.
          by rewrite (for_each_convert_ok cfg fs rcv (param_conv cfg) vals). }
        split; [apply publications_message_events|].
        split; [apply count_publications_le|].
        left. by apply count_publications.
      * destruct (first_failure fs rcv _ Hex)
          as (pre & pair & post & vals & Hp & Hok & [e He]).
        exists (publications cfg pre vals ++ parse_warnings m e). split.
        { by apply (on_message_field_failure cfg jl fs m st rcv pre pair post vals e). }
        split; [apply Forall_app; split;
                [apply publications_message_events|by repeat constructor]|].
        split.
        { rewrite count_app. pose proof (count_publications_le cfg pre vals).
          rewrite Hp, length_app. unfold count at 2. simpl. lia. }
        right. rewrite count_app, count_publications by done. reflexivity.
  - exists []. rewrite append_trace_nil.
    split; [unfold on_message;
            by destruct (String.eqb_spec (msg_topic m) (topic cfg))|].
    split; [constructor|]. split; [unfold count; simpl; lia|by left].
Qed.

(** ** The bounded loops in any environment *)

Lemma startup_loop_bounded cfg w fuel : forall c st,
  mqtt_max_startup cfg - c <= Z.of_nat fuel ->
  fst (startup_loop cfg w fuel c st) <> OutOfFuel /\
  (count is_Connect (trace (snd (startup_loop cfg w fuel c st)))
   <= count is_Connect (trace st) + Z.to_nat (mqtt_max_startup cfg - c))%nat.
Proof.
  induction fuel as [|fuel IH]; intros c st Hfuel.
  - rewrite startup_loop_unfold.
    destruct (Z.ltb_spec c (mqtt_max_startup cfg)); [lia|]. simpl. split; [done|lia].
  - destruct (Z.ltb_spec c (mqtt_max_startup cfg)) as [Hlt|Hge].
    + destruct (connect_result w (n_connect st)) as [e|] eqn:He.
      * destruct (is_OSError e) eqn:Hos.
        -- destruct (startup_loop_fail cfg w fuel c st e Hlt He Hos)
             as (st1 & -> & _ & Hcnt & _).
           destruct (IH (c + 1) st1) as [Hne Hle]; [lia|].
           split; [done|]. rewrite Hcnt in Hle. lia.
        -- rewrite startup_loop_unfold.
           apply Z.ltb_lt in Hlt. rewrite Hlt.
           unfold mbind, M_bind, bind, try_except. rewrite connect_eq, He, Hos.
           simpl. split; [done|].
           rewrite !count_app, count_signal_events by done.
           unfold count at 2. simpl. lia.
      * destruct (startup_loop_success cfg w fuel c st Hlt He)
          as (st1 & -> & Hcnt & _).
        simpl. split; [done|]. rewrite Hcnt. lia.
    + rewrite startup_loop_unfold. apply Z.ltb_ge in Hge. rewrite Hge.
      simpl. split; [done|lia].
Qed.

(** X3.  In any environment the startup of lines 107 to 120 comes to an
    end, with a result or an exception, after at most as many calls of
    [connect] as the startup ceiling; it never returns when the ceiling is
    below 1. *)
Theorem startup_bounded :
  forall cfg w st,
    fst (startup cfg w st) <> OutOfFuel /\
    (count is_Connect (trace (snd (startup cfg w st)))
     <= count is_Connect (trace st) + Z.to_nat (mqtt_max_startup cfg))%nat /\
    (mqtt_max_startup cfg < 1 -> fst (startup cfg w st) = Raise (SystemExit 1)).
Proof.
  intros cfg w st.
  destruct (startup_loop_bounded cfg w (Z.to_nat (mqtt_max_startup cfg)) 0 st)
    as [Hne Hle]; [lia|].
  rewrite Z.sub_0_r in Hle.
  unfold startup, mbind, M_bind, bind.
  destruct (startup_loop cfg w (Z.to_nat (mqtt_max_startup cfg)) 0 st)
    as [[n|e|] st1] eqn:Hrun; simpl in *; try done.
  - split; [|split].
    + by destruct (mqtt_max_startup cfg <=? n).
    + destruct (mqtt_max_startup cfg <=? n); simpl; [|done].
      rewrite count_app. change (count is_Connect [Log CRITICAL _]) with 0%nat. lia.
    + intros Hlow. rewrite startup_loop_unfold in Hrun.
      destruct (Z.ltb_spec 0 (mqtt_max_startup cfg)); [lia|].
      injection Hrun as <- <-.
      destruct (Z.leb_spec (mqtt_max_startup cfg) 0); [done|lia].
  - split; [done|split; [done|]].
    intros Hlow. rewrite startup_loop_unfold in Hrun.
    destruct (Z.ltb_spec 0 (mqtt_max_startup cfg)); [lia|]. discriminate.
Qed.

Lemma reconnect_loop_bounded cfg w fuel : forall c st,
  mqtt_max_reconnects cfg - c <= Z.of_nat fuel ->
  fst (reconnect_loop cfg w fuel c st) <> OutOfFuel /\
  (count is_Reconnect (trace (snd (reconnect_loop cfg w fuel c st)))
   <= count is_Reconnect (trace st) + Z.to_nat (mqtt_max_reconnects cfg - c))%nat /\
  (count is_Wait30 (trace (snd (reconnect_loop cfg w fuel c st)))
   <= count is_Wait30 (trace st) + Z.to_nat (mqtt_max_reconnects cfg - c))%nat.
Proof.
  induction fuel as [|fuel IH]; intros c st Hfuel.
  - rewrite reconnect_loop_unfold.
    destruct (Z.ltb_spec c (mqtt_max_reconnects cfg)); [lia|]. simpl.
    split; [done|lia].
  - destruct (Z.ltb_spec c (mqtt_max_reconnects cfg)) as [Hlt|Hge].
    + destruct (reconnect_result w (n_reconnect st)) as [e|] eqn:He.
      * destruct (is_OSError e) eqn:Hos.
        -- destruct (reconnect_loop_fail cfg w fuel c st e Hlt He Hos)
             as (st1 & -> & _ & Hcnt & Hwt & _).
           destruct (IH (c + 1) st1) as (Hne & Hle & Hlw); [lia|].
           split; [done|]. rewrite Hcnt in Hle. rewrite Hwt in Hlw. lia.
        -- rewrite reconnect_loop_unfold.
           apply Z.ltb_lt in Hlt. rewrite Hlt.
           unfold mbind, M_bind, bind, try_except. rewrite reconnect_eq, He, Hos.
           simpl. split; [done|].
           rewrite !count_app, !count_signal_events by done.
           change (count is_Reconnect [Reconnect]) with 1%nat.
           change (count is_Wait30 [Reconnect]) with 0%nat. lia.
      * destruct (reconnect_loop_success cfg w fuel c st Hlt He)
          as (st1 & -> & Hcnt & Hwt).
        simpl. split; [done|]. rewrite Hcnt, Hwt. lia.
    + rewrite reconnect_loop_unfold. apply Z.ltb_ge in Hge. rewrite Hge.
      simpl. split; [done|lia].
Qed.

(** X6.  In any environment [on_disconnect] comes to an end, with a result
    or an exception, after at most as many calls of [reconnect()] and as
    many waits of 30 as the disconnect ceiling; with a reason code of 0 it
    returns after its warning alone. *)
Theorem on_disconnect_bounded :
  forall cfg w rc st,
    fst (on_disconnect cfg w rc st) <> OutOfFuel /\
    (count is_Reconnect (trace (snd (on_disconnect cfg w rc st)))
     <= count is_Reconnect (trace st) + Z.to_nat (mqtt_max_reconnects cfg))%nat /\
    (count is_Wait30 (trace (snd (on_disconnect cfg w rc st)))
     <= count is_Wait30 (trace st) + Z.to_nat (mqtt_max_reconnects cfg))%nat /\
    (rc = 0 ->
     on_disconnect cfg w rc st
     = (Ok tt, append_trace [Log WARNING "MQTT Disconnected: 0"] st)).
Proof.
  intros cfg w rc st.
  destruct (Z.eq_dec rc 0) as [->|Hrc].
  - rewrite on_disconnect_clean. simpl. rewrite !count_app.
    unfold count at 2 5. simpl. repeat split; try done; lia.
  - unfold on_disconnect, mbind, M_bind, bind, emit.
    apply Z.eqb_neq in Hrc. rewrite Hrc. change (negb false) with true.
    cbv beta iota.
    set (st0 := append_trace _ (append_trace _ st)).
    destruct (reconnect_loop_bounded cfg w (Z.to_nat (mqtt_max_reconnects cfg)) 0 st0)
      as (Hne & Hle & Hlw); [lia|].
    rewrite Z.sub_0_r in Hle, Hlw.
    assert (Hc0 : count is_Reconnect (trace st0) = count is_Reconnect (trace st))
      by (subst st0; simpl; rewrite !count_app; unfold count at 2 3; simpl; lia).
    assert (Hw0 : count is_Wait30 (trace st0) = count is_Wait30 (trace st))
      by (subst st0; simpl; rewrite !count_app; unfold count at 2 3; simpl; lia).
    destruct (reconnect_loop cfg w (Z.to_nat (mqtt_max_reconnects cfg)) 0 st0)
      as [[n|e|] st1]; simpl in *; try done.
    + destruct (mqtt_max_reconnects cfg <=? n); simpl.
      * rewrite !count_app.
        change (count is_Reconnect [Log CRITICAL _]) with 0%nat.
        change (count is_Wait30 [Log CRITICAL _]) with 0%nat.
        repeat split; try done; try lia; intros ->; by apply Z.eqb_neq in Hrc.
      * repeat split; try done; try lia; intros ->; by apply Z.eqb_neq in Hrc.
    + repeat split; try done; try lia; intros ->; by apply Z.eqb_neq in Hrc.
Qed.

(** ** One iteration of the steady-state loop *)

(** The value of a sequence that ends with [return v]. *)
Lemma seq_ret_value {A B} (m : M A) (v : B) st b :
  fst ((m;; mret v) st) = Ok b -> b = v.
Proof.
  unfold mbind, M_bind, bind. destruct (m st) as [[a|e|] st']; simpl; congruence.
Qed.

Lemma seq_value {A B} (m : M A) (k : M B) (v : B) st b :
  (forall st' b', fst (k st') = Ok b' -> b' = v) ->
  fst ((m;; k) st) = Ok b -> b = v.
Proof.
  intros Hk. unfold mbind, M_bind, bind.
  destruct (m st) as [[a|e|] st']; simpl; try congruence. apply Hk.
Qed.

(** An iteration of the loop of lines 125 to 150, entered with fuel: the
    heartbeat, then the [try], whose three handlers end the iteration. *)
Lemma steady_loop_iteration cfg w jl fs fuel flag c st :
  steady_loop cfg w jl fs (S fuel) flag c st
  = if running st && (c <? mqtt_max_loop_reconnect cfg) then
      match ((if flag then reconnect w;; modify (set_self_reconnect_flag false)
              else mret tt);;
             loop cfg w jl fs;;
             mret (Continue, flag, 0))
              (set_loop_count (if 65535 <=? loop_count st then 0
                               else loop_count st + 1) st) with
      | (Ok _, st2) => steady_loop cfg w jl fs fuel flag 0 st2
      | (Raise e, st2) =>
          if is_SystemExit e then (Ok c, st2)
          else if is_timeout_or_connection e then (Raise TypeError, st2)
          else (Raise AttributeError, st2)
      | (OutOfFuel, st2) => (OutOfFuel, st2)
      end
    else (Ok c, st).
Proof.
  cbn [steady_loop].
  unfold mbind at 1, M_bind at 1, bind at 1, get at 1.
  destruct (running st && (c <? mqtt_max_loop_reconnect cfg)); [|reflexivity].
  unfold mbind at 1, M_bind at 1, bind at 1, get at 1.
  unfold mbind at 1, M_bind at 1, bind at 1.
  assert (Hhb : (if 65535 <=? loop_count st then modify (set_loop_count 0)
                 else modify (set_loop_count (loop_count st + 1))) st
                = (Ok tt, set_loop_count (if 65535 <=? loop_count st then 0
                                          else loop_count st + 1) st))
    by (by destruct (65535 <=? loop_count st)).
  rewrite Hhb. clear Hhb.
  set (st1 := set_loop_count _ st).
  unfold mbind at 1, M_bind at 1, bind at 1, try_except at 1.
  destruct (((if flag then reconnect w;; modify (set_self_reconnect_flag false)
              else mret tt);;
             loop cfg w jl fs;; mret (Continue, flag, 0)) st1)
    as [[a|e|] st2] eqn:Hb.
  - assert (Ha : a = (Continue, flag, 0)).
    { eapply (seq_value _ _ _ st1); [|by rewrite Hb].
      intros st' b'. apply seq_ret_value. }
    by subst a.
  - destruct (is_SystemExit e); [reflexivity|].
    destruct (is_timeout_or_connection e); reflexivity.
  - reflexivity.
Qed.

(** The results of the loop itself. *)
Lemma steady_loop_outcomes cfg w jl fs fuel : forall flag c st,
  let r := fst (steady_loop cfg w jl fs fuel flag c st) in
  r = OutOfFuel \/ r = Raise TypeError \/ r = Raise AttributeError \/
  r = Ok c \/ r = Ok 0.
Proof.
  induction fuel as [|fuel IH]; intros flag c st r; subst r.
  - simpl. unfold mbind, M_bind, bind, get.
    destruct (running st && (c <? mqtt_max_loop_reconnect cfg)); simpl; auto.
  - rewrite steady_loop_iteration.
    destruct (running st && (c <? mqtt_max_loop_reconnect cfg)); [|simpl; auto].
    match goal with
    | |- context [match ?x with _ => _ end] => destruct x as [[a|e|] st2]
    end.
    + specialize (IH flag 0 st2). simpl in IH. intuition.
    + destruct (is_SystemExit e); [simpl; auto|].
      destruct (is_timeout_or_connection e); simpl; auto.
    + simpl; auto.
Qed.

(** X15.  However the steady state of lines 125 to 155 is entered and
    whatever the transport and the callbacks do, it ends in one of four
    ways: [exit(0)], [TypeError] (the log statement of the timeout
    handler), [AttributeError] (the log statement of the last handler), or
    [exit(1)], and the latter only when it was entered with
    [loop_reconnect_count] at or above the ceiling, or with a ceiling below
    1.  As [run] enters it with a count of 0 and a checked ceiling, it never
    ends there with status 1 or 2. *)
Theorem steady_state_outcomes :
  forall cfg w json_loads float_of_str fuel reconnect_flag loop_reconnect_count st,
    let r := fst (steady_state cfg w json_loads float_of_str fuel
                               reconnect_flag loop_reconnect_count st) in
    r = OutOfFuel \/ r = Raise TypeError \/ r = Raise AttributeError \/
    r = Raise (SystemExit 0) \/
    (r = Raise (SystemExit 1) /\
     (mqtt_max_loop_reconnect cfg <= loop_reconnect_count \/
      mqtt_max_loop_reconnect cfg <= 0)).
Proof.
  intros cfg w jl fs fuel flag c st r. subst r.
  pose proof (steady_loop_outcomes cfg w jl fs fuel flag c st) as H.
  simpl in H. unfold steady_state, mbind, M_bind, bind.
  destruct (steady_loop cfg w jl fs fuel flag c st) as [[n|e|] st1];
    simpl in *.
  - assert (Hn : n = c \/ n = 0) by (intuition congruence).
    destruct (Z.leb_spec (mqtt_max_loop_reconnect cfg) n); simpl.
    + right. right. right. right. split; [done|]. lia.
    + auto.
  - intuition congruence.
  - auto.
Qed.

(** ** A healthy broker *)

(** The state after a tick that delivers nothing, returns, and during which
    no signal arrives. *)
Lemma quiet_tick cfg w jl fs st :
  loop_result w (n_loop st) = ([], None) ->
  signals w (n_blocking st) = [] ->
  exists st',
    loop cfg w jl fs st = (Ok tt, st') /\
    running st' = running st /\ loop_count st' = loop_count st /\
    n_loop st' = S (n_loop st) /\ n_blocking st' = S (n_blocking st) /\
    trace st' = trace st ++ [Loop].
Proof.
  intros Hres Hsig. rewrite loop_no_callbacks by (by rewrite Hres).
  rewrite Hres. simpl snd. eexists. split; [reflexivity|].
  simpl. rewrite Hsig. simpl. by rewrite app_nil_r.
Qed.

Lemma steady_loop_healthy cfg w jl fs : forall fuel st,
  0 < mqtt_max_loop_reconnect cfg ->
  running st = true ->
  heartbeat_in_range st ->
  (forall i, (n_loop st <= i)%nat -> loop_result w i = ([], None)) ->
  quiet_from w (n_blocking st) ->
  exists st',
    steady_loop cfg w jl fs fuel false 0 st = (OutOfFuel, st') /\
    loop_count st' = (loop_count st + Z.of_nat fuel) mod 65536 /\
    count is_Loop (trace st') = (count is_Loop (trace st) + fuel)%nat /\
    count is_Reconnect (trace st') = count is_Reconnect (trace st) /\
    count is_Connect (trace st') = count is_Connect (trace st).
Proof.
  induction fuel as [|fuel IH]; intros st Hmax Hrun Hrange Hticks Hquiet.
  - exists st. simpl. unfold mbind, M_bind, bind, get.
    apply Z.ltb_lt in Hmax. rewrite Hrun, Hmax. simpl.
    unfold heartbeat_in_range in Hrange.
    repeat split; try lia. rewrite Z.add_0_r, Z.mod_small; lia.
  - rewrite steady_loop_iteration.
    pose proof Hmax as Hmax'. apply Z.ltb_lt in Hmax'. rewrite Hrun, Hmax'. simpl andb.
    cbv iota.
    set (st1 := set_loop_count _ st).
    destruct (quiet_tick cfg w jl fs st1) as (st2 & Hloop & Hr2 & Hl2 & Hn2 & Hb2 & Ht2).
    { apply Hticks. simpl. lia. }
    { apply Hquiet. simpl. lia. }
    unfold mbind, M_bind, bind, mret, M_ret, ret. rewrite Hloop.
    destruct (IH st2) as (st' & Hrun' & Hlc & Hcl & Hcr & Hcc).
    + done.
    + by rewrite Hr2.
    + unfold heartbeat_in_range in *. rewrite Hl2. subst st1. simpl.
      destruct (Z.leb_spec 65535 (loop_count st)); lia.
    + intros i Hi. apply Hticks. rewrite Hn2 in Hi. simpl in Hi. lia.
    + intros i Hi. apply Hquiet. rewrite Hb2 in Hi. simpl in Hi. lia.
    + exists st'. split; [exact Hrun'|].
      rewrite Hlc, Hcl, Hcr, Hcc, Hl2, Ht2, !count_app. subst st1. simpl.
      change (count is_Loop [Loop]) with 1%nat.
      change (count is_Reconnect [Loop]) with 0%nat.
      change (count is_Connect [Loop]) with 0%nat.
      repeat split; try lia.
      unfold heartbeat_in_range in Hrange.
      destruct (Z.leb_spec 65535 (loop_count st)).
      * replace (loop_count st) with 65535 by lia.
        replace (65535 + Z.of_nat (S fuel)) with (Z.of_nat fuel + 1 * 65536) by lia.
        by rewrite Z.mod_add.
      * f_equal. lia.
Qed.

(** The startup when the first call of [connect] returns. *)
Lemma startup_first_attempt cfg w st :
  1 <= mqtt_max_startup cfg ->
  connect_result w (n_connect st) = None ->
  startup cfg w st
  = let st1 := append_trace [AtexitRegister]
                 (bump_connect
                    (after_blocking w
                       (append_trace [Connect (mqtt_broker cfg) (mqtt_port cfg)
                                              (mqtt_timeout cfg)] st))) in
    if mqtt_max_startup cfg <=? 1 then
      (Raise (SystemExit 1),
       append_trace [Log CRITICAL ("Too many startup tries. Exiting after try "
                                   +:+ str_int (mqtt_max_startup cfg) +:+ ".")] st1)
    else (Ok tt, st1).
Proof.
  intros Hmax He. unfold startup.
  destruct (Z.to_nat (mqtt_max_startup cfg)) as [|fuel] eqn:Hfuel; [lia|].
  rewrite startup_loop_unfold.
  assert (H0 : (0 <? mqtt_max_startup cfg) = true) by (apply Z.ltb_lt; lia).
  rewrite H0. unfold mbind, M_bind, bind, try_except.
  rewrite connect_eq, He. simpl.
  change (0 + 1) with 1.
  by destruct (mqtt_max_startup cfg <=? 1).
Qed.

Lemma run_healthy_state cfg w jl fs fuel :
  1 <= mqtt_max_loop_reconnect cfg ->
  2 <= mqtt_max_startup cfg ->
  1 <= mqtt_max_reconnects cfg ->
  connect_result w 0 = None ->
  (forall i, loop_result w i = ([], None)) ->
  (forall i, signals w i = []) ->
  exists st',
    run cfg w jl fs fuel init_state = (OutOfFuel, st') /\
    count is_Loop (trace st') = fuel /\
    count is_Connect (trace st') = 1%nat /\
    count is_Reconnect (trace st') = 0%nat /\
    loop_count st' = Z.of_nat fuel mod 65536.
Proof.
  intros H1 H2 H3 Hc Hticks Hquiet.
  destruct (run_eq cfg w jl fs fuel) as (ev & Hev & ->).
  unfold mbind at 1, M_bind at 1, bind at 1.
  rewrite check_config_valid by (try done; lia).
  unfold mbind at 1, M_bind at 1, bind at 1.
  rewrite startup_first_attempt by (try done; lia).
  assert (Hle : (mqtt_max_startup cfg <=? 1) = false) by (apply Z.leb_gt; lia).
  cbv zeta. rewrite Hle.
  unfold mbind at 1, M_bind at 1, bind at 1, emit at 1.
  set (st1 := append_trace [Log INFO "Startup success."] _).
  destruct (steady_loop_healthy cfg w jl fs fuel st1)
    as (st' & Hrun & Hlc & Hcl & Hcr & Hcc).
  - lia.
  - subst st1. simpl. by rewrite Hquiet.
  - subst st1. unfold heartbeat_in_range. simpl. lia.
  - intros i _. apply Hticks.
  - intros i _. apply Hquiet.
  - exists st'. split.
    { unfold steady_state, mbind, M_bind, bind. by rewrite Hrun. }
    rewrite Hcl, Hcr, Hcc, Hlc. subst st1. simpl. rewrite Hquiet. simpl.
    unfold count. simpl. destruct ev; try done; simpl; repeat split; lia.
Qed.

(** X16.  With checked ceilings, a startup ceiling of 2 or more, a broker
    that accepts the first connection, ticks that deliver nothing and
    return, and no signal, [run] does not end: for every number of
    iterations granted it is still in its loop after exactly that many
    ticks, one [connect] and no [reconnect], and the heartbeat counter is
    the number of ticks modulo 65536. *)
Theorem run_healthy :
  forall cfg w json_loads float_of_str fuel,
    1 <= mqtt_max_loop_reconnect cfg ->
    2 <= mqtt_max_startup cfg ->
    1 <= mqtt_max_reconnects cfg ->
    connect_result w 0 = None ->
    (forall i, loop_result w i = ([], None)) ->
    (forall i, signals w i = []) ->
    let r := run cfg w json_loads float_of_str fuel init_state in
    fst r = OutOfFuel /\
    count is_Loop (trace (snd r)) = fuel /\
    count is_Connect (trace (snd r)) = 1%nat /\
    count is_Reconnect (trace (snd r)) = 0%nat /\
    loop_count (snd r) = Z.of_nat fuel mod 65536.
Proof.
  intros cfg w jl fs fuel H1 H2 H3 Hc Hticks Hquiet r.
  destruct (run_healthy_state cfg w jl fs fuel H1 H2 H3 Hc Hticks Hquiet)
    as (st' & Heq & Hfacts).
  subst r. rewrite Heq. exact (conj eq_refl Hfacts).
Qed.

(** ** A signal during the startup *)

Lemma trace_append_trace evs st : trace (append_trace evs st) = trace st ++ evs.
Proof. reflexivity. Qed.

Lemma trace_bump_connect st : trace (bump_connect st) = trace st.
Proof. reflexivity. Qed.

Lemma run_signal_during_connect_state cfg w jl fs fuel :
  1 <= mqtt_max_loop_reconnect cfg ->
  2 <= mqtt_max_startup cfg ->
  1 <= mqtt_max_reconnects cfg ->
  connect_result w 0 = None ->
  signals w 0 <> [] ->
  exists st',
    run cfg w jl fs fuel init_state = (Raise (SystemExit 0), st') /\
    running st' = false /\
    count is_Loop (trace st') = 0%nat /\
    count is_Connect (trace st') = 1%nat /\
    In AtexitRegister (trace st').
Proof.
  intros H1 H2 H3 Hc Hsig.
  destruct (run_eq cfg w jl fs fuel) as (ev & Hev & ->).
  unfold mbind at 1, M_bind at 1, bind at 1.
  rewrite check_config_valid by (try done; lia).
  unfold mbind at 1, M_bind at 1, bind at 1.
  rewrite startup_first_attempt by (try done; lia).
  assert (Hle : (mqtt_max_startup cfg <=? 1) = false) by (apply Z.leb_gt; lia).
  cbv zeta. rewrite Hle.
  unfold mbind at 1, M_bind at 1, bind at 1, emit at 1.
  set (st1 := append_trace [Log INFO "Startup success."] _).
  assert (Hrun : running st1 = false).
  { subst st1. simpl. by destruct (signals w 0). }
  unfold steady_state, mbind, M_bind, bind.
  rewrite steady_loop_stopped by done.
  assert (Hl0 : (mqtt_max_loop_reconnect cfg <=? 0) = false) by (apply Z.leb_gt; lia).
  rewrite Hl0. unfold emit, exit, raise, mret, M_ret, ret.
  eexists. split; [reflexivity|].
  split; [exact Hrun|].
  assert (Hs : forall p, (forall s, p (signal_event s) = false) ->
            count p (map signal_event (signals w 0)) = 0%nat)
    by (intros p Hp; by apply count_signal_events).
  subst st1.
  rewrite !trace_append_trace, trace_bump_connect, trace_after_blocking,
    trace_append_trace.
  change (n_blocking (append_trace _ (configured ev))) with 0%nat.
  rewrite !count_app, !Hs by done.
  unfold count. simpl.
  split; [destruct ev; try done; simpl; lia|].
  split; [destruct ev; try done; simpl; lia|].
  do 4 right.
  apply in_or_app. left. apply in_or_app. left. apply in_or_app. right. by left.
Qed.

(** X18.  With checked ceilings and a startup ceiling of 2 or more, when
    SIGINT or SIGTERM arrives while the first [connect] is in progress and
    that [connect] succeeds, [run] registers its disconnect at exit, drives
    no tick at all and exits with status 0. *)
Theorem run_signal_during_connect :
  forall cfg w json_loads float_of_str fuel,
    1 <= mqtt_max_loop_reconnect cfg ->
    2 <= mqtt_max_startup cfg ->
    1 <= mqtt_max_reconnects cfg ->
    connect_result w 0 = None ->
    signals w 0 <> [] ->
    let r := run cfg w json_loads float_of_str fuel init_state in
    fst r = Raise (SystemExit 0) /\
    running (snd r) = false /\
    count is_Loop (trace (snd r)) = 0%nat /\
    count is_Connect (trace (snd r)) = 1%nat /\
    In AtexitRegister (trace (snd r)).
Proof.
  intros cfg w jl fs fuel H1 H2 H3 Hc Hsig r.
  destruct (run_signal_during_connect_state cfg w jl fs fuel H1 H2 H3 Hc Hsig)
    as (st' & Heq & Hfacts).
  subst r. rewrite Heq. exact (conj eq_refl Hfacts).
Qed.

(** ** No tick before a connection *)

(** When the startup loop returns a count below the ceiling, it has left
    by [break]: a [connect] has returned and the disconnect is registered. *)
Lemma startup_loop_ok_registered cfg w fuel : forall c st n st',
  startup_loop cfg w fuel c st = (Ok n, st') ->
  n < mqtt_max_startup cfg ->
  In AtexitRegister (trace st') /\ exists i, connect_result w i = None.
Proof.
  induction fuel as [|fuel IH]; intros c st n st' Hrun Hn.
  - rewrite startup_loop_unfold in Hrun.
    destruct (Z.ltb_spec c (mqtt_max_startup cfg)); [discriminate|].
    injection Hrun as <- <-. lia.
  - destruct (Z.ltb_spec c (mqtt_max_startup cfg)) as [Hlt|Hge].
    + destruct (connect_result w (n_connect st)) as [e|] eqn:He.
      * destruct (is_OSError e) eqn:Hos.
        -- destruct (startup_loop_fail cfg w fuel c st e Hlt He Hos)
             as (st1 & Heq & _).
           rewrite Heq in Hrun. by apply (IH (c + 1) st1 n st').
        -- rewrite startup_loop_unfold in Hrun.
           apply Z.ltb_lt in Hlt. rewrite Hlt in Hrun.
           unfold mbind, M_bind, bind, try_except in Hrun.
           rewrite connect_eq, He, Hos in Hrun. discriminate.
      * rewrite startup_loop_unfold in Hrun.
        apply Z.ltb_lt in Hlt. rewrite Hlt in Hrun.
        unfold mbind, M_bind, bind, try_except in Hrun.
        rewrite connect_eq, He in Hrun. simpl in Hrun.
        injection Hrun as <- <-. split; [|by eexists].
        simpl. apply in_or_app. right. by left.
    + rewrite startup_loop_unfold in Hrun.
      apply Z.ltb_ge in Hge. rewrite Hge in Hrun.
      injection Hrun as <- <-. apply Z.ltb_ge in Hge. lia.
Qed.

Lemma startup_ok_registered cfg w st st' :
  startup cfg w st = (Ok tt, st') ->
  In AtexitRegister (trace st') /\ exists i, connect_result w i = None.
Proof.
  unfold startup, mbind, M_bind, bind. intros Hrun.
  destruct (startup_loop cfg w (Z.to_nat (mqtt_max_startup cfg)) 0 st)
    as [[n|e|] st1] eqn:Hloop; try discriminate.
  destruct (Z.leb_spec (mqtt_max_startup cfg) n); [discriminate|].
  injection Hrun as <-. by apply (startup_loop_ok_registered _ _ _ _ _ _ _ Hloop).
Qed.

(** The checks and the startup drive no tick. *)
Lemma startup_no_tick cfg w st :
  count is_Loop (trace (snd (startup cfg w st))) = count is_Loop (trace st).
Proof.
  apply (adds_count (fun ev => is_Loop ev = false)); [done|].
  apply (steps_startup (adds (fun ev => is_Loop ev = false))
           (fun ev => is_Loop ev = false)); try adds_frame.
Qed.

(** X17.  [run] never drives a tick before a connection is made: when its
    trace holds a [loop()], in any environment and for any configuration,
    a call of [connect] has returned normally, the disconnect has been
    registered with [atexit], and the trace holds a [connect]. *)
Theorem no_tick_before_connection :
  forall cfg w json_loads float_of_str fuel,
    let tr := trace (snd (run cfg w json_loads float_of_str fuel init_state)) in
    (0 < count is_Loop tr)%nat ->
    In AtexitRegister tr /\ (1 <= count is_Connect tr)%nat /\
    exists i, connect_result w i = None.
Proof.
  intros cfg w jl fs fuel tr. subst tr.
  remember (snd (run cfg w jl fs fuel init_state)) as stf eqn:Hf.
  destruct (run_eq cfg w jl fs fuel) as (ev & Hev & Heq).
  rewrite Heq in Hf. clear Heq.
  assert (Hev0 : count is_Loop (trace (configured ev)) = 0%nat)
    by (unfold count; simpl; by destruct ev).
  unfold mbind at 1, M_bind at 1, bind at 1 in Hf.
  destruct (Z_le_dec 1 (mqtt_max_loop_reconnect cfg)) as [H1|H1];
    [destruct (Z_le_dec 1 (mqtt_max_startup cfg)) as [H2|H2];
     [destruct (Z_le_dec 1 (mqtt_max_reconnects cfg)) as [H3|H3]|]|].
  2-4: destruct (check_config_invalid cfg (configured ev)) as (text & Hbad); [lia|];
       rewrite Hbad in Hf; cbn [snd] in Hf; subst stf;
       rewrite trace_append_trace, count_app, Hev0;
       change (count is_Loop [Log CRITICAL text]) with 0%nat; lia.
  rewrite check_config_valid in Hf by done.
  unfold mbind at 1, M_bind at 1, bind at 1 in Hf.
  pose proof (startup_no_tick cfg w (configured ev)) as Hnt.
  pose proof (startup_connects cfg w (configured ev) H2) as Hc.
  destruct (startup cfg w (configured ev)) as [[[]|e|] st1] eqn:Hst;
    cbn [snd] in Hnt, Hc, Hf.
  - destruct (startup_ok_registered cfg w _ _ Hst) as [Hin Hconn].
    intros _.
    set (rest := emit (Log INFO "Startup success.");;
                 steady_state cfg w jl fs fuel false 0) in Hf.
    assert (Hg : grows rest) by (subst rest; grows_tac).
    destruct (Hg st1) as [evs Hevs]. subst stf.
    rewrite Hevs. split; [apply in_or_app; by left|]. split; [|done].
    rewrite count_app. lia.
  - subst stf. rewrite Hnt, Hev0. lia.
  - subst stf. rewrite Hnt, Hev0. lia.
Qed.

(** ** The waits of the startup *)

Lemma startup_loop_fail_wait cfg w fuel c st e :
  c < mqtt_max_startup cfg ->
  connect_result w (n_connect st) = Some e ->
  is_OSError e = true ->
  exists st1,
    startup_loop cfg w (S fuel) c st = startup_loop cfg w fuel (c + 1) st1 /\
    n_connect st1 = S (n_connect st) /\
    count is_Wait30 (trace st1) = S (count is_Wait30 (trace st)).
Proof.
  intros Hc He Hos. rewrite startup_loop_unfold.
  apply Z.ltb_lt in Hc. rewrite Hc.
  unfold mbind, M_bind, bind, try_except. rewrite connect_eq, He, Hos.
  unfold emit. rewrite wait_eq. unfold mret, M_ret, ret.
  eexists. split; [reflexivity|]. split; [reflexivity|].
  simpl. rewrite !count_app, !count_signal_events by done.
  unfold count; simpl. lia.
Qed.

Lemma startup_loop_all_fail_waits cfg w fuel : forall c st,
  mqtt_max_startup cfg - c <= Z.of_nat fuel ->
  (forall i : nat,
     (n_connect st <= i < n_connect st + Z.to_nat (mqtt_max_startup cfg - c))%nat ->
     exists e, connect_result w i = Some e /\ is_OSError e = true) ->
  exists st',
    startup_loop cfg w fuel c st = (Ok (Z.max c (mqtt_max_startup cfg)), st') /\
    count is_Wait30 (trace st')
    = (count is_Wait30 (trace st) + Z.to_nat (mqtt_max_startup cfg - c))%nat.
Proof.
  induction fuel as [|fuel IH]; intros c st Hfuel Hfail.
  - rewrite startup_loop_unfold.
    destruct (Z.ltb_spec c (mqtt_max_startup cfg)) as [Hlt|Hge]; [lia|].
    exists st. split; [unfold mret, M_ret, ret; f_equal; f_equal; lia|].
    replace (Z.to_nat _) with 0%nat by lia. lia.
  - destruct (Z.ltb_spec c (mqtt_max_startup cfg)) as [Hlt|Hge].
    + destruct (Hfail (n_connect st)) as (e & He & Hos); [lia|].
      destruct (startup_loop_fail_wait cfg w fuel c st e Hlt He Hos)
        as (st1 & Heq & Hn & Hwt).
      destruct (IH (c + 1) st1) as (st' & Hrun & Hwt').
      * lia.
      * intros i Hi. apply Hfail. lia.
      * exists st'. rewrite Heq, Hrun. split.
        -- f_equal. f_equal. lia.
        -- rewrite Hwt', Hwt. lia.
    + rewrite startup_loop_unfold.
      apply Z.ltb_ge in Hge. rewrite Hge.
      exists st. split; [unfold mret, M_ret, ret; f_equal; f_equal; lia|].
      replace (Z.to_nat _) with 0%nat by lia. lia.
Qed.

(** X2.  When every attempt of the startup fails with an [OSError], the
    startup waits 30 after each of them, the last one included: with a
    ceiling of N it waits N times, not N - 1, before it exits with status
    1. *)
Theorem startup_exhaustion_waits :
  forall cfg w st,
    (forall i : nat,
       (n_connect st <= i < n_connect st + Z.to_nat (mqtt_max_startup cfg))%nat ->
       exists e, connect_result w i = Some e /\ is_OSError e = true) ->
    fst (startup cfg w st) = Raise (SystemExit 1) /\
    count is_Wait30 (trace (snd (startup cfg w st)))
    = (count is_Wait30 (trace st) + Z.to_nat (mqtt_max_startup cfg))%nat.
Proof.
  intros cfg w st Hfail.
  destruct (startup_loop_all_fail_waits cfg w (Z.to_nat (mqtt_max_startup cfg)) 0 st)
    as (st1 & Hloop & Hwt).
  - lia.
  - intros i Hi. apply Hfail. rewrite Z.sub_0_r in Hi. exact Hi.
  - unfold startup, mbind, M_bind, bind. rewrite Hloop.
    assert (Hle : (mqtt_max_startup cfg <=? Z.max 0 (mqtt_max_startup cfg)) = true)
      by (apply Z.leb_le; lia).
    rewrite Hle. unfold emit, exit, raise. cbn [fst snd].
    split; [done|].
    rewrite trace_append_trace, count_app, Hwt, Z.sub_0_r.
    change (count is_Wait30 [Log CRITICAL _]) with 0%nat. lia.
Qed.

(** ** The fate of an exception of a tick *)

(** X19.  In an iteration of the steady-state loop that has no reconnect
    pending, whatever exception leaves [loop()], be it raised by the
    transport or by a callback, decides how the process ends: any
    [SystemExit], whatever its code, ends the loop and the process exits
    with status 0; a timeout or connection error ends in the [TypeError] of
    its handler; anything else ends in the [AttributeError] of the last
    handler. *)
Theorem tick_exception_fate :
  forall cfg w json_loads float_of_str fuel loop_reconnect_count st e,
    running st = true ->
    loop_reconnect_count < mqtt_max_loop_reconnect cfg ->
    fst (loop cfg w json_loads float_of_str (after_heartbeat st)) = Raise e ->
    fst (steady_state cfg w json_loads float_of_str (S fuel) false
                      loop_reconnect_count st)
    = fate e.
Proof.
  intros cfg w jl fs fuel c st e Hrun Hc Hloop.
  unfold steady_state, mbind at 1, M_bind at 1, bind at 1.
  rewrite steady_loop_iteration.
  pose proof Hc as Hc'. apply Z.ltb_lt in Hc'. rewrite Hrun, Hc'. simpl andb.
  cbv iota. fold (after_heartbeat st).
  unfold mbind, M_bind, bind, mret, M_ret, ret. cbv beta iota.
  destruct (loop cfg w jl fs (after_heartbeat st)) as [[[]|e'|] st2];
    simpl in Hloop; try discriminate.
  injection Hloop as ->. unfold fate.
  destruct (is_SystemExit e).
  - apply Z.leb_gt in Hc. rewrite Hc. reflexivity.
  - destruct (is_timeout_or_connection e); reflexivity.
Qed.

Lemma tick_exception_fate_witness :
  running (set_running true init_state) = true /\
  0 < mqtt_max_loop_reconnect cfg_default /\
  fst (loop cfg_default (first_tick_disconnects 1 (fun _ => Some ConnectionError))
            (loads_table payloads) no_float_of_str
            (after_heartbeat (set_running true init_state)))
  = Raise (SystemExit 1) /\
  fst (steady_state cfg_default
         (first_tick_disconnects 1 (fun _ => Some ConnectionError))
         (loads_table payloads) no_float_of_str 1 false 0
         (set_running true init_state))
  = fate (SystemExit 1).
Proof.
  assert (H1 : running (set_running true init_state) = true) by reflexivity.
  assert (H2 : 0 < mqtt_max_loop_reconnect cfg_default) by reflexivity.
  assert (H3 : fst (loop cfg_default
                      (first_tick_disconnects 1 (fun _ => Some ConnectionError))
                      (loads_table payloads) no_float_of_str
                      (after_heartbeat (set_running true init_state)))
               = Raise (SystemExit 1)) by (vm_compute; reflexivity).
  repeat (split; [assumption|]).
  exact (tick_exception_fate cfg_default
           (first_tick_disconnects 1 (fun _ => Some ConnectionError))
           (loads_table payloads) no_float_of_str 0 0
           (set_running true init_state) (SystemExit 1) H1 H2 H3).
Defined.

(** ** Values that are no JSON numbers *)

(** X21.  A configured field that holds a JSON boolean is not rejected:
    [true] is read as 1.0 and published as ["1000"], [false] as 0.0 and
    published as ["0"]; and a field that holds a string is converted
    whenever [float] accepts the string. *)
Theorem booleans_and_numeric_strings_convert :
  forall cfg float_of_str (kv : gmap string json) pair,
    (forall b, kv !! fst pair = Some (JBool b) ->
       field_ok float_of_str (JObj kv) pair (float_of_Z (if b then 1 else 0)) /\
       publication cfg pair (float_of_Z (if b then 1 else 0))
       = Publish (name cfg +:+ "/" +:+ snd pair) (if b then "1000" else "0")) /\
    (forall s val_f, kv !! fst pair = Some (JStr s) ->
       float_of_str s = Some val_f ->
       field_ok float_of_str (JObj kv) pair val_f).
Proof.
  intros cfg fs kv pair. split.
  - intros b Hb. unfold field_ok, field_value, getitem. rewrite Hb. simpl.
    split; [done|]. unfold publication. f_equal. by destruct b; vm_compute.
  - intros s v Hs Hv. unfold field_ok, field_value, getitem. rewrite Hs. simpl.
    by rewrite Hv.
Qed.

(** ** The stop flag cleared during a tick *)









(** ** A message that fails after some publications *)

(** [float(rcv[field])] raises when the field is absent or has no float. *)
Lemma absent_or_no_float_fails fs rcv pair :
  absent_or_no_float fs rcv pair -> field_fails fs rcv pair.
Proof.
  unfold absent_or_no_float, field_fails, field_value, getitem.
  destruct rcv as [| | | | | |kv]; try by eexists.
  destruct (kv !! pair.1) as [v|]; [|by eexists].
  destruct v as [|b|z|f|s|l|kv']; simpl; try done; try by eexists.
  - intros [s Hs]. rewrite Hs. by eexists.
  - intros ->. by eexists.
Qed.

(** C10.  The conversion of a message is not atomic.  When the payload is
    JSON, [float(rcv[field])] gives a float for the first k-1 configured
    pairs and raises for the k-th (the payload is no object, the field is
    absent, or its value is [null], an array, an object, a string that
    [float] rejects or an integer beyond the range of binary64),
    [on_message] publishes for the first k-1 pairs, in the order of
    [param_conv], then logs its two warnings, publishes nothing for the
    k-th pair nor for those after it, and returns. *)
Theorem C10_publishes_before_first_failing_field :
  forall cfg json_loads float_of_str m st rcv pre pair post vals,
    msg_topic m = topic cfg ->
    json_loads (msg_payload m) = inr rcv ->
    param_conv cfg = pre ++ pair :: post ->
    Forall2 (field_ok float_of_str rcv) pre vals ->
    absent_or_no_float float_of_str rcv pair ->
    exists e text,
      field_value float_of_str rcv (fst pair) = inl e /\
      on_message cfg json_loads float_of_str m st
      = (Ok tt,
         append_trace (publications cfg pre vals
                       ++ [Log WARNING text; LogTraceback WARNING e]) st).
Proof.
  intros cfg jl fs m st rcv pre pair post vals Ht Hj Hp Hok Hfail.
  destruct (absent_or_no_float_fails fs rcv pair Hfail) as [e He].
  exists e. eexists. split; [done|].
  by apply (on_message_field_failure cfg jl fs m st rcv pre pair post vals e).
Qed.

Lemma C10_witness :
  msg_topic (msg "{a: 0.25, b: null}") = topic cfg_two_fields /\
  loads_table payloads (msg_payload (msg "{a: 0.25, b: null}"))
  = inr (obj [("a", JFloat float_0_25); ("b", JNull)]) /\
  param_conv cfg_two_fields = [("a", "x")] ++ ("b", "y") :: [("a", "z")] /\
  Forall2 (field_ok no_float_of_str (obj [("a", JFloat float_0_25); ("b", JNull)]))
          [("a", "x")] [float_0_25] /\
  absent_or_no_float no_float_of_str
    (obj [("a", JFloat float_0_25); ("b", JNull)]) ("b", "y") /\
  exists e text,
    field_value no_float_of_str (obj [("a", JFloat float_0_25); ("b", JNull)])
                (fst ("b", "y")) = inl e /\
    on_message cfg_two_fields (loads_table payloads) no_float_of_str
               (msg "{a: 0.25, b: null}") init_state
    = (Ok tt,
       append_trace (publications cfg_two_fields [("a", "x")] [float_0_25]
                     ++ [Log WARNING text; LogTraceback WARNING e])
                    init_state).
Proof.
  assert (H1 : msg_topic (msg "{a: 0.25, b: null}") = topic cfg_two_fields)
    by reflexivity.
  assert (H2 : loads_table payloads (msg_payload (msg "{a: 0.25, b: null}"))
               = inr (obj [("a", JFloat float_0_25); ("b", JNull)]))
    by reflexivity.
  assert (H3 : param_conv cfg_two_fields = [("a", "x")] ++ ("b", "y") :: [("a", "z")])
    by reflexivity.
  assert (H4 : Forall2 (field_ok no_float_of_str
                          (obj [("a", JFloat float_0_25); ("b", JNull)]))
                       [("a", "x")] [float_0_25])
    by (repeat constructor).
  assert (H5 : absent_or_no_float no_float_of_str
                 (obj [("a", JFloat float_0_25); ("b", JNull)]) ("b", "y"))
    by (vm_compute; exact I).
  repeat (split; [assumption|]).
  exact (C10_publishes_before_first_failing_field cfg_two_fields
           (loads_table payloads) no_float_of_str (msg "{a: 0.25, b: null}")
           init_state _ _ _ _ _ H1 H2 H3 H4 H5).
Defined.

(** The second configured field holds the JSON boolean [true], which is no
    number: [float(True)] is 1.0, so no failure is logged and the message
    is not dropped; all three pairs are published. *)
Lemma C10_counterexample :
  let rcv := obj [("a", JFloat float_0_25); ("b", JBool true)] in
  let r := on_message cfg_two_fields (loads_table payloads_bool) no_float_of_str
                      (msg "{a: 0.25, b: true}") init_state in
  msg_topic (msg "{a: 0.25, b: true}") = topic cfg_two_fields /\
  loads_table payloads_bool (msg_payload (msg "{a: 0.25, b: true}")) = inr rcv /\
  param_conv cfg_two_fields = [("a", "x")] ++ ("b", "y") :: [("a", "z")] /\
  Forall2 (field_ok no_float_of_str rcv) [("a", "x")] [float_0_25] /\
  getitem rcv "b" = inr (JBool true) /\
  r = (Ok tt,
       append_trace [Publish "nofp/x" "250"; Publish "nofp/y" "1000";
                     Publish "nofp/z" "250"] init_state) /\
  count is_warning (trace (snd r)) = 0%nat.
Proof.
  intros rcv r. subst rcv r.
  repeat split; try (vm_compute; reflexivity).
  repeat constructor.
Qed.

(** ** The general statements at the scenarios *)

Lemma startup_after_failures_witness :
  n_connect init_state = 0%nat /\
  Z.of_nat 1 < mqtt_max_startup (with_ceilings 10 3 10) /\
  (forall i : nat, (i < 1)%nat ->
     exists e, connect_result world_second_attempt i = Some e /\ is_OSError e = true) /\
  connect_result world_second_attempt 1 = None /\
  fst (startup (with_ceilings 10 3 10) world_second_attempt init_state)
  = (if Z.of_nat 1 + 1 <? mqtt_max_startup (with_ceilings 10 3 10) then Ok tt
     else Raise (SystemExit 1)) /\
  count is_Connect
    (trace (snd (startup (with_ceilings 10 3 10) world_second_attempt init_state)))
  = (count is_Connect (trace init_state) + 1 + 1)%nat /\
  count is_Loop
    (trace (snd (startup (with_ceilings 10 3 10) world_second_attempt init_state)))
  = count is_Loop (trace init_state).
Proof.
  assert (H1 : n_connect init_state = 0%nat) by reflexivity.
  assert (H2 : Z.of_nat 1 < mqtt_max_startup (with_ceilings 10 3 10)) by reflexivity.
  assert (H3 : forall i : nat, (i < 1)%nat ->
            exists e, connect_result world_second_attempt i = Some e /\
                      is_OSError e = true).
  { intros i Hi. destruct i as [|i]; [|lia].
    exists ConnectionError. split; reflexivity. }
  assert (H4 : connect_result world_second_attempt 1 = None) by reflexivity.
  repeat (split; [assumption|]).
  exact (startup_after_failures (with_ceilings 10 3 10) world_second_attempt
           init_state 1 H1 H2 H3 H4).
Defined.

Lemma startup_exhaustion_waits_witness :
  (forall i : nat,
     (n_connect init_state <= i
      < n_connect init_state + Z.to_nat (mqtt_max_startup (with_ceilings 10 3 10)))%nat ->
     exists e, connect_result world_refusing i = Some e /\ is_OSError e = true) /\
  fst (startup (with_ceilings 10 3 10) world_refusing init_state)
  = Raise (SystemExit 1) /\
  count is_Wait30
    (trace (snd (startup (with_ceilings 10 3 10) world_refusing init_state)))
  = (count is_Wait30 (trace init_state)
     + Z.to_nat (mqtt_max_startup (with_ceilings 10 3 10)))%nat.
Proof.
  assert (H1 : forall i : nat,
            (n_connect init_state <= i
             < n_connect init_state
               + Z.to_nat (mqtt_max_startup (with_ceilings 10 3 10)))%nat ->
            exists e, connect_result world_refusing i = Some e /\ is_OSError e = true)
    by (intros i _; exists ConnectionError; split; reflexivity).
  split; [exact H1|].
  exact (startup_exhaustion_waits (with_ceilings 10 3 10) world_refusing
           init_state H1).
Defined.

Lemma on_disconnect_after_failures_witness :
  1 <> 0 /\
  Z.of_nat 1 < mqtt_max_reconnects (with_ceilings 3 10 10) /\
  (forall i : nat, (n_reconnect init_state <= i < n_reconnect init_state + 1)%nat ->
     exists e, reconnect_result world_second_attempt i = Some e /\
               is_OSError e = true) /\
  reconnect_result world_second_attempt (n_reconnect init_state + 1) = None /\
  fst (on_disconnect (with_ceilings 3 10 10) world_second_attempt 1 init_state)
  = (if Z.of_nat 1 + 1 <? mqtt_max_reconnects (with_ceilings 3 10 10) then Ok tt
     else Raise (SystemExit 1)) /\
  count is_Reconnect
    (trace (snd (on_disconnect (with_ceilings 3 10 10) world_second_attempt 1
                   init_state)))
  = (count is_Reconnect (trace init_state) + 1 + 1)%nat /\
  count is_Wait30
    (trace (snd (on_disconnect (with_ceilings 3 10 10) world_second_attempt 1
                   init_state)))
  = (count is_Wait30 (trace init_state) + 1)%nat.
Proof.
  assert (H1 : 1 <> 0) by discriminate.
  assert (H2 : Z.of_nat 1 < mqtt_max_reconnects (with_ceilings 3 10 10))
    by reflexivity.
  assert (H3 : forall i : nat,
            (n_reconnect init_state <= i < n_reconnect init_state + 1)%nat ->
            exists e, reconnect_result world_second_attempt i = Some e /\
                      is_OSError e = true).
  { intros i Hi. simpl in Hi. destruct i as [|i]; [|lia].
    exists ConnectionError. split; reflexivity. }
  assert (H4 : reconnect_result world_second_attempt (n_reconnect init_state + 1)
               = None) by reflexivity.
  repeat (split; [assumption|]).
  exact (on_disconnect_after_failures (with_ceilings 3 10 10) world_second_attempt
           1 init_state 1 H1 H2 H3 H4).
Defined.

Lemma on_disconnect_exhausted_witness :
  1 <> 0 /\
  (forall i : nat,
     (n_reconnect init_state <= i
      < n_reconnect init_state
        + Z.to_nat (mqtt_max_reconnects (with_ceilings 3 10 10)))%nat ->
     exists e, reconnect_result world_refusing i = Some e /\ is_OSError e = true) /\
  fst (on_disconnect (with_ceilings 3 10 10) world_refusing 1 init_state)
  = Raise (SystemExit 1) /\
  count is_Reconnect
    (trace (snd (on_disconnect (with_ceilings 3 10 10) world_refusing 1 init_state)))
  = (count is_Reconnect (trace init_state)
     + Z.to_nat (mqtt_max_reconnects (with_ceilings 3 10 10)))%nat /\
  count is_Wait30
    (trace (snd (on_disconnect (with_ceilings 3 10 10) world_refusing 1 init_state)))
  = (count is_Wait30 (trace init_state)
     + Z.to_nat (mqtt_max_reconnects (with_ceilings 3 10 10)))%nat.
Proof.
  assert (H1 : 1 <> 0) by discriminate.
  assert (H2 : forall i : nat,
            (n_reconnect init_state <= i
             < n_reconnect init_state
               + Z.to_nat (mqtt_max_reconnects (with_ceilings 3 10 10)))%nat ->
            exists e, reconnect_result world_refusing i = Some e /\
                      is_OSError e = true)
    by (intros i _; exists ConnectionError; split; reflexivity).
  split; [exact H1|]. split; [exact H2|].
  exact (on_disconnect_exhausted (with_ceilings 3 10 10) world_refusing 1
           init_state H1 H2).
Defined.

Lemma on_message_other_topic_witness :
  msg_topic msg_other_topic <> topic cfg_default /\
  on_message cfg_default (loads_table payloads) no_float_of_str msg_other_topic
             init_state
  = (Ok tt, init_state).
Proof.
  assert (H1 : msg_topic msg_other_topic <> topic cfg_default) by discriminate.
  split; [exact H1|].
  exact (on_message_other_topic cfg_default (loads_table payloads)
           no_float_of_str msg_other_topic init_state H1).
Defined.

Lemma run_healthy_witness :
  1 <= mqtt_max_loop_reconnect cfg_default /\
  2 <= mqtt_max_startup cfg_default /\
  1 <= mqtt_max_reconnects cfg_default /\
  connect_result (world_of_ticks (fun _ => ([], None))) 0 = None /\
  (forall i, loop_result (world_of_ticks (fun _ => ([], None))) i = ([], None)) /\
  (forall i, signals (world_of_ticks (fun _ => ([], None))) i = []) /\
  let r := run cfg_default (world_of_ticks (fun _ => ([], None)))
               (loads_table payloads) no_float_of_str 3 init_state in
  fst r = OutOfFuel /\
  count is_Loop (trace (snd r)) = 3%nat /\
  count is_Connect (trace (snd r)) = 1%nat /\
  count is_Reconnect (trace (snd r)) = 0%nat /\
  loop_count (snd r) = Z.of_nat 3 mod 65536.
Proof.
  assert (H1 : 1 <= mqtt_max_loop_reconnect cfg_default) by discriminate.
  assert (H2 : 2 <= mqtt_max_startup cfg_default) by discriminate.
  assert (H3 : 1 <= mqtt_max_reconnects cfg_default) by discriminate.
  assert (H4 : connect_result (world_of_ticks (fun _ => ([], None))) 0 = None)
    by reflexivity.
  assert (H5 : forall i, loop_result (world_of_ticks (fun _ => ([], None))) i
                         = ([], None)) by reflexivity.
  assert (H6 : forall i, signals (world_of_ticks (fun _ => ([], None))) i = [])
    by reflexivity.
  repeat (split; [assumption|]).
  exact (run_healthy cfg_default (world_of_ticks (fun _ => ([], None)))
           (loads_table payloads) no_float_of_str 3 H1 H2 H3 H4 H5 H6).
Defined.

Lemma no_tick_before_connection_witness :
  let tr := trace (snd (run cfg_default world_sigterm (loads_table payloads)
                            no_float_of_str 5 init_state)) in
  (0 < count is_Loop tr)%nat /\
  In AtexitRegister tr /\ (1 <= count is_Connect tr)%nat /\
  exists i, connect_result world_sigterm i = None.
Proof.
  assert (H : (0 < count is_Loop
                     (trace (snd (run cfg_default world_sigterm
                                      (loads_table payloads) no_float_of_str 5
                                      init_state))))%nat)
    by (vm_compute; repeat constructor).
  split; [exact H|].
  exact (no_tick_before_connection cfg_default world_sigterm
           (loads_table payloads) no_float_of_str 5 H).
Defined.

Lemma run_signal_during_connect_witness :
  1 <= mqtt_max_loop_reconnect cfg_default /\
  2 <= mqtt_max_startup cfg_default /\
  1 <= mqtt_max_reconnects cfg_default /\
  connect_result (world_sigterm_at 0) 0 = None /\
  signals (world_sigterm_at 0) 0 <> [] /\
  let r := run cfg_default (world_sigterm_at 0) (loads_table payloads)
               no_float_of_str 5 init_state in
  fst r = Raise (SystemExit 0) /\
  running (snd r) = false /\
  count is_Loop (trace (snd r)) = 0%nat /\
  count is_Connect (trace (snd r)) = 1%nat /\
  In AtexitRegister (trace (snd r)).
Proof.
  assert (H1 : 1 <= mqtt_max_loop_reconnect cfg_default) by discriminate.
  assert (H2 : 2 <= mqtt_max_startup cfg_default) by discriminate.
  assert (H3 : 1 <= mqtt_max_reconnects cfg_default) by discriminate.
  assert (H4 : connect_result (world_sigterm_at 0) 0 = None) by reflexivity.
  assert (H5 : signals (world_sigterm_at 0) 0 <> []) by discriminate.
  repeat (split; [assumption|]).
  exact (run_signal_during_connect cfg_default (world_sigterm_at 0)
           (loads_table payloads) no_float_of_str 5 H1 H2 H3 H4 H5).
Defined.

Lemma configure_logging_cases_witness :
  (forall s, loglevel (with_ceilings 10 10 10) = Some s -> ascii_only s) /\
  exists ev,
    configure_logging (with_ceilings 10 10 10) init_state
    = (Ok tt, append_trace [ev] init_state) /\
    match loglevel (with_ceilings 10 10 10) with
    | Some s =>
        (In (upper s) level_names /\ ev = BasicConfig (upper s)) \/
        (~ In (upper s) level_names /\ is_warning ev = true)
    | None => is_warning ev = true
    end /\
    (forall s, loglevel (with_ceilings 10 10 10) = Some s ->
               upper (upper s) = upper s).
Proof.
  assert (H : forall s, loglevel (with_ceilings 10 10 10) = Some s -> ascii_only s).
  { intros s [= <-]. unfold ascii_only. simpl. repeat constructor. }
  split; [exact H|].
  exact (configure_logging_cases (with_ceilings 10 10 10) init_state H).
Defined.
